(** * ESM software shop: cart, checkout and review logic of [db.py] / [app.py]

    The store is an SQLite database accessed through short-lived connections.
    Every function of [db.py] opens a connection, runs its statements and
    commits at the end; when an exception escapes, the connection is closed
    without a commit, so nothing is written.  An operation is therefore a
    function from a database state to either an exception (state unchanged)
    or a returned value with the committed state.

    Modelling conventions
    - tables are lists of row records in rowid order, scanned in that order;
    - [INTEGER] columns are [Z], [TEXT] columns are [string] ([option string]
      when the column is nullable and written as such);
    - a [REAL] value is an IEEE double, written as the rational it denotes;
      every product, sum and quotient SQLite computes on REAL values is
      rounded to the nearest double, ties to even ([round64]); results
      beyond the range of finite doubles are outside the model;
    - a Python integer beyond SQLite's 64-bit INTEGER cannot be bound to a
      statement: [sqlite3] raises [OverflowError] before the statement runs.
      This is modelled where a quantity is written ([add_to_cart],
      [update_cart_item_quantity]) and for the ids [add_to_cart] looks up;
      the other operations are modelled for ids within that range;
    - the lines of one cart are read through the index of
      [UNIQUE(cart_id, software_id)], that is by ascending program id; a
      table without a usable index is scanned in rowid order;
    - timestamps are integers, and an operation that stores
      [CURRENT_TIMESTAMP] in a modelled column takes the time as [now];
      columns no modelled statement reads ([cart.updated_at],
      [users.is_active], the [created_at] of the catalog tables) are left out;
    - [AUTOINCREMENT] keys come from a per-table counter (sqlite_sequence);
    - [CHECK], [UNIQUE] and [NOT NULL] constraints are enforced by SQLite on
      every write and raise [IntegrityError];
    - [FOREIGN KEY] clauses are enforced only on a connection where
      [PRAGMA foreign_keys] is on. *)

From Stdlib Require Import ZArith QArith Qround List String Bool Lia.
Import ListNotations.
Open Scope Z_scope.

(** ** Exceptions and results *)

(** The [ValueError]s raised by [db.py], by message. *)
Inductive value_error : Type :=
| CartNotFound (user_id : Z)          (* 'Cart not found for user {user_id}' *)
| SoftwareNotFound (software_id : Z)  (* 'Software {software_id} not found' *)
| CartItemNotFound (item_id : Z)      (* 'Cart item {item_id} not found' *)
| CartIsEmpty (user_id : Z).          (* 'Cart is empty for user {user_id}' *)

Inductive exn : Type :=
| ValueError (m : value_error)
| TypeError          (* subscripting [None], as in [item['cart_id']] *)
| IntegrityError     (* sqlite3.IntegrityError *)
| OverflowError.     (* 'Python int too large to convert to SQLite INTEGER' *)

Inductive result (A : Type) : Type :=
| Ok (a : A)
| Raise (e : exn).

Arguments Ok {A} a.
Arguments Raise {A} e.

Definition bind {A B : Type} (c : result A) (k : A -> result B) : result B :=
  match c with
  | Ok a => k a
  | Raise e => Raise e
  end.

Notation "x <- c ;; k" := (bind c (fun x => k))
  (at level 61, c at next level, right associativity).

(** ** Rows and tables *)

Record table (R : Type) : Type := mk_table {
  rows : list R;
  seq : Z            (* largest rowid ever handed out *)
}.

Arguments mk_table {R} rows seq.
Arguments rows {R} t.
Arguments seq {R} t.

Definition empty_table {R : Type} : table R := mk_table [] 0.

Definition with_rows {R : Type} (f : list R -> list R) (t : table R) : table R :=
  mk_table (f (rows t)) (seq t).

(** [INSERT] without an explicit id: the new rowid is one more than the
    counter; [lastrowid] is returned with the table. *)
Definition insert_row {R : Type} (mk : Z -> R) (t : table R) : Z * table R :=
  let id := seq t + 1 in (id, mk_table (rows t ++ [mk id]) id).

Record user_row : Type := mk_user {
  u_id : Z;
  u_email : string;
  u_password : string;
  u_name : string;
  u_phone : option string;
  u_role : string
}.

Record category_row : Type := mk_category {
  cat_id : Z;
  cat_name : string;
  cat_description : option string
}.

Record software_row : Type := mk_software {
  s_id : Z;
  s_name : string;
  s_description : option string;
  s_price : Q;
  s_category_id : Z;
  s_developer : string;
  s_downloads : Z;
  s_rating_avg : option Q;
  s_image_url : option string
}.

Record cart_row : Type := mk_cart {
  c_id : Z;
  c_user_id : Z;
  c_total_price : Q
}.

Record cart_item_row : Type := mk_cart_item {
  ci_id : Z;
  ci_cart_id : Z;
  ci_software_id : Z;
  ci_quantity : Z;
  ci_price_at_add : Q
}.

Inductive purchase_status : Type := Completed | Refunded.

Record purchase_row : Type := mk_purchase {
  ph_id : Z;
  ph_user_id : Z;
  ph_total_price : Q;
  ph_payment_method : option string;
  ph_status : purchase_status;
  ph_purchased_at : Z
}.

Record purchase_item_row : Type := mk_purchase_item {
  pi_id : Z;
  pi_purchase_id : Z;
  pi_software_id : Z;
  pi_software_name : string;
  pi_developer : string;
  pi_quantity : Z;
  pi_price_at_purchase : Q
}.

Record review_row : Type := mk_review {
  r_id : Z;
  r_user_id : Z;
  r_software_id : Z;
  r_rating : Z;
  r_comment : option string;
  r_created_at : Z
}.

Record db : Type := mk_db {
  users : table user_row;
  categories : table category_row;
  software : table software_row;
  cart : table cart_row;
  cart_items : table cart_item_row;
  purchase_history : table purchase_row;
  purchase_items : table purchase_item_row;
  reviews : table review_row
}.

Definition empty_db : db :=
  mk_db empty_table empty_table empty_table empty_table
        empty_table empty_table empty_table empty_table.

Definition set_users (t : table user_row) (d : db) : db :=
  mk_db t (categories d) (software d) (cart d) (cart_items d)
        (purchase_history d) (purchase_items d) (reviews d).

Definition set_categories (t : table category_row) (d : db) : db :=
  mk_db (users d) t (software d) (cart d) (cart_items d)
        (purchase_history d) (purchase_items d) (reviews d).

Definition set_software (t : table software_row) (d : db) : db :=
  mk_db (users d) (categories d) t (cart d) (cart_items d)
        (purchase_history d) (purchase_items d) (reviews d).

Definition set_cart (t : table cart_row) (d : db) : db :=
  mk_db (users d) (categories d) (software d) t (cart_items d)
        (purchase_history d) (purchase_items d) (reviews d).

Definition set_cart_items (t : table cart_item_row) (d : db) : db :=
  mk_db (users d) (categories d) (software d) (cart d) t
        (purchase_history d) (purchase_items d) (reviews d).

Definition set_purchase_history (t : table purchase_row) (d : db) : db :=
  mk_db (users d) (categories d) (software d) (cart d) (cart_items d)
        t (purchase_items d) (reviews d).

Definition set_purchase_items (t : table purchase_item_row) (d : db) : db :=
  mk_db (users d) (categories d) (software d) (cart d) (cart_items d)
        (purchase_history d) t (reviews d).

Definition set_reviews (t : table review_row) (d : db) : db :=
  mk_db (users d) (categories d) (software d) (cart d) (cart_items d)
        (purchase_history d) (purchase_items d) t.

(** ** REAL arithmetic *)

(** 2^e as a rational. *)
Definition pow2 (e : Z) : Q :=
  match e with
  | Z0 => 1%Q
  | Zpos p => inject_Z (Z.pow_pos 2 p)
  | Zneg p => (1 # Pos.pow 2 p)%Q
  end.

(** The integer nearest to a rational that is not negative, a tie going to
    the even one. *)
Definition nearest_even (q : Q) : Z :=
  let f := Qfloor q in
  match Qcompare (q - inject_Z f) (1 # 2) with
  | Lt => f
  | Gt => f + 1
  | Eq => if Z.even f then f else f + 1
  end.

(** The binade of a positive rational: the [k] with 2^k <= q < 2^(k+1). *)
Definition binade (q : Q) : Z :=
  let k := Z.log2 (Qnum q) - Z.log2 (Zpos (Qden q)) in
  if Qle_bool (pow2 k) q then k else k - 1.

(** Rounding to the nearest double (binary64: 53 significant bits, least
    exponent -1074), ties to even; the result is in lowest terms. *)
Definition round64_pos (a : Q) : Q :=
  let e := Z.max (binade a - 52) (-1074) in
  Qred (inject_Z (nearest_even (a / pow2 e)) * pow2 e).

Definition round64 (q : Q) : Q :=
  if Qeq_bool q 0 then 0%Q
  else if Qle_bool 0 q then round64_pos q
  else Qopp (round64_pos (Qopp q)).

(** [a + b], [a * b] and [a / b] on REAL values, and an INTEGER taken as a
    REAL. *)
Definition real_add (a b : Q) : Q := round64 (a + b).
Definition real_mul (a b : Q) : Q := round64 (a * b).
Definition real_div (a b : Q) : Q := round64 (a / b).
Definition real_of_int (z : Z) : Q := round64 (inject_Z z).

(** Whether an integer fits SQLite's 64-bit INTEGER. *)
Definition int64 (z : Z) : bool := (- 2 ^ 63 <=? z) && (z <? 2 ^ 63).

(** ** Row order *)

(** [ORDER BY key]: insertion into an ordered list, kept stable. *)
Fixpoint insert_by {A : Type} (key : A -> Z) (x : A) (l : list A) : list A :=
  match l with
  | [] => [x]
  | y :: l' => if key x <=? key y then x :: l else y :: insert_by key x l'
  end.

Definition order_by {A : Type} (key : A -> Z) (l : list A) : list A :=
  fold_right (insert_by key) [] l.

(** ** SQL aggregates *)

(** [SUM(x)] over REAL values: NULL over no rows, otherwise the running
    double sum from 0.0, row by row in the order of the scan (the plain
    running sum, as in SQLite 3.40; recent versions carry a compensation
    term along). *)
Definition sql_sum (xs : list Q) : option Q :=
  match xs with
  | [] => None
  | _ => Some (fold_left real_add xs 0%Q)
  end.

(** [COALESCE(x, dflt)]. *)
Definition coalesce {A : Type} (x : option A) (dflt : A) : A :=
  match x with
  | Some v => v
  | None => dflt
  end.

(** [quantity * price_at_add] of one cart line: the INTEGER is converted and
    the product is a REAL. *)
Definition line_amount (i : cart_item_row) : Q :=
  real_mul (real_of_int (ci_quantity i)) (ci_price_at_add i).

(** The rows of [cart_items] with [cart_id = ?], as they lie in the table. *)
Definition cart_lines (cart_id : Z) (d : db) : list cart_item_row :=
  filter (fun i => ci_cart_id i =? cart_id) (rows (cart_items d)).

(** [... FROM cart_items WHERE cart_id = ?] as SQLite reads it: a search of
    the index of [UNIQUE(cart_id, software_id)], which yields the cart's
    lines by ascending program id. *)
Definition cart_lines_by_index (cart_id : Z) (d : db) : list cart_item_row :=
  order_by ci_software_id (cart_lines cart_id d).

(** ** Cart engine *)

(** [UPDATE cart SET total_price = (SELECT COALESCE(SUM(quantity *
    price_at_add), 0) FROM cart_items WHERE cart_id = ?), ... WHERE id = ?],
    under [CHECK(total_price >= 0)]. *)
Definition recompute_cart_total (cart_id : Z) (d : db) : result db :=
  let total := coalesce (sql_sum (map line_amount (cart_lines_by_index cart_id d))) 0%Q in
  if existsb (fun c => c_id c =? cart_id) (rows (cart d)) && negb (Qle_bool 0 total)
  then Raise IntegrityError
  else Ok (set_cart
             (with_rows
                (map (fun c => if c_id c =? cart_id
                               then mk_cart (c_id c) (c_user_id c) total
                               else c))
                (cart d)) d).

(** [UPDATE cart_items SET quantity = ? WHERE id = ?], under
    [CHECK(quantity > 0)]; the quantity is bound first. *)
Definition sql_set_quantity (item_id quantity : Z) (d : db) : result db :=
  if negb (int64 quantity) then Raise OverflowError
  else if existsb (fun i => ci_id i =? item_id) (rows (cart_items d)) && (quantity <=? 0)
  then Raise IntegrityError
  else Ok (set_cart_items
             (with_rows
                (map (fun i => if ci_id i =? item_id
                               then mk_cart_item (ci_id i) (ci_cart_id i)
                                      (ci_software_id i) quantity (ci_price_at_add i)
                               else i))
                (cart_items d)) d).

(** [INSERT INTO cart_items (cart_id, software_id, quantity, price_at_add)],
    under [CHECK(quantity > 0)], [CHECK(price_at_add >= 0)] and
    [UNIQUE(cart_id, software_id)]; the quantity is bound first. *)
Definition sql_insert_cart_item (cart_id software_id quantity : Z) (price : Q)
    (d : db) : result (Z * db) :=
  if negb (int64 quantity) then Raise OverflowError
  else if (quantity <=? 0) || negb (Qle_bool 0 price)
     || existsb (fun i => (ci_cart_id i =? cart_id) && (ci_software_id i =? software_id))
                (rows (cart_items d))
  then Raise IntegrityError
  else let '(id, t) := insert_row
                         (fun id => mk_cart_item id cart_id software_id quantity price)
                         (cart_items d) in
       Ok (id, set_cart_items t d).

(** [user_id] is bound to the first statement and [software_id] to the
    second; the quantity only to the [UPDATE] or [INSERT]. *)
Definition add_to_cart (user_id software_id quantity : Z) (d : db) : result (Z * db) :=
  if negb (int64 user_id) then Raise OverflowError else
  match find (fun c => c_user_id c =? user_id) (rows (cart d)) with
  | None => Raise (ValueError (CartNotFound user_id))
  | Some the_cart =>
    let cart_id := c_id the_cart in
    if negb (int64 software_id) then Raise OverflowError else
    match find (fun s => s_id s =? software_id) (rows (software d)) with
    | None => Raise (ValueError (SoftwareNotFound software_id))
    | Some the_software =>
      let price_at_add := s_price the_software in
      match find (fun i => (ci_cart_id i =? cart_id) && (ci_software_id i =? software_id))
                 (rows (cart_items d)) with
      | Some existing_item =>
        let new_quantity := ci_quantity existing_item + quantity in
        d1 <- sql_set_quantity (ci_id existing_item) new_quantity d ;;
        d2 <- recompute_cart_total cart_id d1 ;;
        Ok (ci_id existing_item, d2)
      | None =>
        r <- sql_insert_cart_item cart_id software_id quantity price_at_add d ;;
        d2 <- recompute_cart_total cart_id (snd r) ;;
        Ok (fst r, d2)
      end
    end
  end.

Definition remove_from_cart (item_id : Z) (d : db) : result db :=
  match find (fun i => ci_id i =? item_id) (rows (cart_items d)) with
  | None => Raise (ValueError (CartItemNotFound item_id))
  | Some item =>
    let cart_id := ci_cart_id item in
    let d1 := set_cart_items
                (with_rows (filter (fun i => negb (ci_id i =? item_id))) (cart_items d)) d in
    recompute_cart_total cart_id d1
  end.

(** With [quantity <= 0] the work is delegated to [remove_from_cart], which
    commits on a connection of its own; the outer connection has written
    nothing by then. *)
Definition update_cart_item_quantity (item_id quantity : Z) (d : db) : result db :=
  if quantity <=? 0 then remove_from_cart item_id d
  else
    match find (fun i => ci_id i =? item_id) (rows (cart_items d)) with
    | None => Raise TypeError
    | Some item =>
      let cart_id := ci_cart_id item in
      d1 <- sql_set_quantity item_id quantity d ;;
      recompute_cart_total cart_id d1
    end.

Definition clear_cart (user_id : Z) (d : db) : result db :=
  match find (fun c => c_user_id c =? user_id) (rows (cart d)) with
  | None => Raise (ValueError (CartNotFound user_id))
  | Some the_cart =>
    let cart_id := c_id the_cart in
    let d1 := set_cart_items
                (with_rows (filter (fun i => negb (ci_cart_id i =? cart_id))) (cart_items d)) d in
    Ok (set_cart
          (with_rows
             (map (fun c => if c_id c =? cart_id
                            then mk_cart (c_id c) (c_user_id c) 0%Q
                            else c))
             (cart d1)) d1)
  end.

(** ** The cart total invariant *)

(** The specification's "sum over its cart lines of quantity x
    price_at_add (0 when the cart has no lines)".  A sum of REAL values
    depends on the order of its terms: the lines of the cart are taken out of
    the table into ascending order of program id, and their amounts are added
    up from 0 in that order, amounts and partial sums being doubles. *)
Fixpoint place_line (l : cart_item_row) (ls : list cart_item_row) : list cart_item_row :=
  match ls with
  | [] => [l]
  | x :: ls' => if ci_software_id l <=? ci_software_id x
                then l :: ls
                else x :: place_line l ls'
  end.

Fixpoint lines_of_cart (cart_id : Z) (items : list cart_item_row) : list cart_item_row :=
  match items with
  | [] => []
  | i :: items' => if ci_cart_id i =? cart_id
                   then place_line i (lines_of_cart cart_id items')
                   else lines_of_cart cart_id items'
  end.

Fixpoint lines_total_from (acc : Q) (ls : list cart_item_row) : Q :=
  match ls with
  | [] => acc
  | l :: ls' =>
      lines_total_from
        (round64 (acc + round64 (round64 (inject_Z (ci_quantity l)) * ci_price_at_add l)))
        ls'
  end.

Definition lines_total (ls : list cart_item_row) : Q := lines_total_from 0 ls.

(** Every cart's stored total is the sum over its lines. *)
Definition cart_total_consistent (d : db) : Prop :=
  forall c, In c (rows (cart d)) ->
            (c_total_price c == lines_total (lines_of_cart (c_id c) (rows (cart_items d))))%Q.

(** Primary key of [cart_items]: ids are distinct and were handed out by the
    table's counter. *)
Definition cart_items_keyed (d : db) : Prop :=
  NoDup (map ci_id (rows (cart_items d))) /\
  Forall (fun i => ci_id i <= seq (cart_items d)) (rows (cart_items d)).

Inductive cart_op : Type :=
| AddToCart (user_id software_id quantity : Z)
| UpdateCartItemQuantity (item_id quantity : Z)
| RemoveFromCart (item_id : Z).

Definition run_cart_op (op : cart_op) (d : db) : result db :=
  match op with
  | AddToCart user_id software_id quantity =>
      r <- add_to_cart user_id software_id quantity d ;; Ok (snd r)
  | UpdateCartItemQuantity item_id quantity => update_cart_item_quantity item_id quantity d
  | RemoveFromCart item_id => remove_from_cart item_id d
  end.

(** Runs the operations in order; [Ok] with the state after each operation
    when all of them succeed. *)
Fixpoint run_cart_ops (ops : list cart_op) (d : db) : result (list db) :=
  match ops with
  | [] => Ok []
  | op :: ops' =>
      d1 <- run_cart_op op d ;;
      trace <- run_cart_ops ops' d1 ;;
      Ok (d1 :: trace)
  end.

(** ** Connections *)

(** The one connection setting that changes what a statement does.  SQLite
    leaves foreign-key enforcement off on a new connection until
    [PRAGMA foreign_keys = ON] is run on it. *)
Record connection : Type := mk_connection {
  foreign_keys : bool
}.

(** [sqlite3.connect(db_name)] followed by setting [row_factory]; no pragma
    is issued. *)
Definition get_db_connection : connection := mk_connection false.

(** ** Users, categories and the catalog *)

Definition valid_role (role : string) : bool :=
  existsb (String.eqb role) ["user"; "moder"; "admin"]%string.

(** Inserts the user ([UNIQUE] email, [CHECK] on role) and the user's cart
    ([UNIQUE] user_id) with total 0. *)
Definition add_user (email password name : string) (phone : option string)
    (role : string) (d : db) : result (Z * db) :=
  if existsb (fun u => String.eqb (u_email u) email) (rows (users d))
     || negb (valid_role role)
  then Raise IntegrityError
  else
    let '(user_id, tu) := insert_row
                            (fun id => mk_user id email password name phone role)
                            (users d) in
    if existsb (fun c => c_user_id c =? user_id) (rows (cart d))
    then Raise IntegrityError
    else
      let '(_, tc) := insert_row (fun id => mk_cart id user_id 0%Q) (cart d) in
      Ok (user_id, set_cart tc (set_users tu d)).

Definition add_category (name : string) (description : option string) (d : db)
    : result (Z * db) :=
  if existsb (fun c => String.eqb (cat_name c) name) (rows (categories d))
  then Raise IntegrityError
  else
    let '(category_id, t) := insert_row
                               (fun id => mk_category id name description)
                               (categories d) in
    Ok (category_id, set_categories t d).

(** [downloads] and [rating_avg] take their column defaults, 0 and 0.0. *)
Definition add_software (name : string) (description : option string) (price : Q)
    (category_id : Z) (developer : string) (image_url : option string) (d : db)
    : result (Z * db) :=
  if negb (Qle_bool 0 price) then Raise IntegrityError
  else
    let '(software_id, t) := insert_row
                               (fun id => mk_software id name description price
                                            category_id developer 0 (Some 0%Q) image_url)
                               (software d) in
    Ok (software_id, set_software t d).

(** The [SET] list is built from the arguments that are not [None]; without
    any, no statement is executed. *)
Definition update_software (software_id : Z) (name description : option string)
    (price : option Q) (category_id : option Z) (developer image_url : option string)
    (d : db) : result db :=
  match name, description, price, category_id, developer, image_url with
  | None, None, None, None, None, None => Ok d
  | _, _, _, _, _, _ =>
    if existsb (fun s => s_id s =? software_id) (rows (software d))
       && match price with Some p => negb (Qle_bool 0 p) | None => false end
    then Raise IntegrityError
    else Ok (set_software
               (with_rows
                  (map (fun s =>
                          if s_id s =? software_id
                          then mk_software (s_id s)
                                 (coalesce name (s_name s))
                                 (match description with Some x => Some x | None => s_description s end)
                                 (coalesce price (s_price s))
                                 (coalesce category_id (s_category_id s))
                                 (coalesce developer (s_developer s))
                                 (s_downloads s) (s_rating_avg s)
                                 (match image_url with Some x => Some x | None => s_image_url s end)
                          else s))
                  (software d)) d)
  end.

(** [DELETE FROM categories WHERE id = ?] on connection [conn]:
    [software.category_id ... ON DELETE RESTRICT] blocks the delete only
    where foreign keys are enforced. *)
Definition sql_delete_category (conn : connection) (category_id : Z) (d : db) : result db :=
  if foreign_keys conn
     && existsb (fun c => cat_id c =? category_id) (rows (categories d))
     && existsb (fun s => s_category_id s =? category_id) (rows (software d))
  then Raise IntegrityError
  else Ok (set_categories
             (with_rows (filter (fun c => negb (cat_id c =? category_id))) (categories d)) d).

Definition delete_category (category_id : Z) (d : db) : result db :=
  let conn := get_db_connection in
  sql_delete_category conn category_id d.

(** [DELETE FROM software WHERE id = ?] on connection [conn]:
    [cart_items.software_id] and [purchase_items.software_id] are
    [ON DELETE RESTRICT], [reviews.software_id] is [ON DELETE CASCADE];
    both only where foreign keys are enforced. *)
Definition sql_delete_software (conn : connection) (software_id : Z) (d : db) : result db :=
  let d1 := set_software
              (with_rows (filter (fun s => negb (s_id s =? software_id))) (software d)) d in
  if foreign_keys conn
  then
    if existsb (fun s => s_id s =? software_id) (rows (software d))
       && (existsb (fun i => ci_software_id i =? software_id) (rows (cart_items d))
           || existsb (fun i => pi_software_id i =? software_id) (rows (purchase_items d)))
    then Raise IntegrityError
    else
      if existsb (fun s => s_id s =? software_id) (rows (software d))
      then Ok (set_reviews
                 (with_rows (filter (fun r => negb (r_software_id r =? software_id)))
                    (reviews d1)) d1)
      else Ok d1
  else Ok d1.

Definition delete_software (software_id : Z) (d : db) : result db :=
  let conn := get_db_connection in
  sql_delete_software conn software_id d.

(** ** Checkout *)

Fixpoint for_each {A S : Type} (body : A -> S -> result S) (l : list A) (s : S) : result S :=
  match l with
  | [] => Ok s
  | a :: l' => s1 <- body a s ;; for_each body l' s1
  end.

(** [SELECT ci.software_id, ci.quantity, ci.price_at_add, s.name, s.developer
    FROM cart_items ci JOIN software s ON ci.software_id = s.id
    WHERE ci.cart_id = ?]: the cart's lines read through the index, each
    with the catalog row of its program; a line without one yields no
    row. *)
Definition cart_items_with_software (cart_id : Z) (d : db)
    : list (cart_item_row * software_row) :=
  flat_map (fun ci => map (fun s => (ci, s))
                        (filter (fun s => s_id s =? ci_software_id ci) (rows (software d))))
           (cart_lines_by_index cart_id d).

(** [INSERT INTO purchase_history (user_id, total_price, payment_method)],
    under [CHECK(total_price >= 0)]; status defaults to completed and
    purchased_at to the current time. *)
Definition sql_insert_purchase (user_id : Z) (total_price : Q)
    (payment_method : option string) (now : Z) (d : db) : result (Z * db) :=
  if negb (Qle_bool 0 total_price) then Raise IntegrityError
  else
    let '(purchase_id, t) := insert_row
                               (fun id => mk_purchase id user_id total_price
                                            payment_method Completed now)
                               (purchase_history d) in
    Ok (purchase_id, set_purchase_history t d).

(** [INSERT INTO purchase_items (...)], under [CHECK(quantity > 0)] and
    [CHECK(price_at_purchase >= 0)]. *)
Definition sql_insert_purchase_item (purchase_id software_id : Z)
    (software_name developer : string) (quantity : Z) (price : Q) (d : db) : result db :=
  if (quantity <=? 0) || negb (Qle_bool 0 price) then Raise IntegrityError
  else
    let '(_, t) := insert_row
                     (fun id => mk_purchase_item id purchase_id software_id
                                  software_name developer quantity price)
                     (purchase_items d) in
    Ok (set_purchase_items t d).

(** [UPDATE software SET downloads = downloads + ? WHERE id = ?]. *)
Definition sql_add_downloads (quantity software_id : Z) (d : db) : db :=
  set_software
    (with_rows
       (map (fun s => if s_id s =? software_id
                      then mk_software (s_id s) (s_name s) (s_description s) (s_price s)
                             (s_category_id s) (s_developer s)
                             (s_downloads s + quantity) (s_rating_avg s) (s_image_url s)
                      else s))
       (software d)) d.

(** Body of the loop over the joined cart lines. *)
Definition copy_cart_line (purchase_id : Z) (item : cart_item_row * software_row)
    (d : db) : result db :=
  let '(ci, s) := item in
  d1 <- sql_insert_purchase_item purchase_id (ci_software_id ci) (s_name s)
          (s_developer s) (ci_quantity ci) (ci_price_at_add ci) d ;;
  Ok (sql_add_downloads (ci_quantity ci) (ci_software_id ci) d1).

(** [DELETE FROM cart_items WHERE cart_id = ?] then
    [UPDATE cart SET total_price = 0, ... WHERE id = ?]. *)
Definition drain_cart (cart_id : Z) (d : db) : db :=
  let d1 := set_cart_items
              (with_rows (filter (fun i => negb (ci_cart_id i =? cart_id))) (cart_items d)) d in
  set_cart
    (with_rows
       (map (fun c => if c_id c =? cart_id
                      then mk_cart (c_id c) (c_user_id c) 0%Q
                      else c))
       (cart d1)) d1.

Definition create_purchase (user_id : Z) (payment_method : option string) (now : Z)
    (d : db) : result (Z * db) :=
  match find (fun c => c_user_id c =? user_id) (rows (cart d)) with
  | None => Raise (ValueError (CartNotFound user_id))
  | Some the_cart =>
    if Qeq_bool (c_total_price the_cart) 0
    then Raise (ValueError (CartIsEmpty user_id))
    else
      let cart_id := c_id the_cart in
      let total_price := c_total_price the_cart in
      r <- sql_insert_purchase user_id total_price payment_method now d ;;
      let purchase_id := fst r in
      let joined := cart_items_with_software cart_id (snd r) in
      d2 <- for_each (copy_cart_line purchase_id) joined (snd r) ;;
      Ok (purchase_id, drain_cart cart_id d2)
  end.

(** ** Purchase history *)

(** [LIMIT ?] as appended when [limit is not None]; a negative limit means
    no limit. *)
Definition sql_limit {A : Type} (limit : option Z) (l : list A) : list A :=
  match limit with
  | None => l
  | Some n => if n <? 0 then l else firstn (Z.to_nat n) l
  end.

Definition get_purchase_by_id (purchase_id : Z) (d : db) : option purchase_row :=
  find (fun p => ph_id p =? purchase_id) (rows (purchase_history d)).

(** [SELECT * FROM purchase_items WHERE purchase_id = ?]. *)
Definition get_purchase_items (purchase_id : Z) (d : db) : list purchase_item_row :=
  filter (fun i => pi_purchase_id i =? purchase_id) (rows (purchase_items d)).


(** Values as they come out of a result row. *)
Inductive sql_value : Type :=
| VNull
| VInt (z : Z)
| VReal (q : Q)
| VText (s : string).

Definition sql_value_eqb (a b : sql_value) : bool :=
  match a, b with
  | VNull, VNull => true
  | VInt x, VInt y => x =? y
  | VReal x, VReal y => Qeq_bool x y
  | VInt x, VReal y => Qeq_bool (inject_Z x) y
  | VReal x, VInt y => Qeq_bool x (inject_Z y)
  | VText x, VText y => String.eqb x y
  | _, _ => false
  end.

(** A [sqlite3.Row]: the column names of the statement, in order and with
    repetitions, each with its value. *)
Definition sqlite_row : Type := list (string * sql_value).

Inductive lookup_error : Type :=
| IndexError.   (* 'No item with that key' *)

(** [row[key]]: the value of the first column carrying that name (names
    are compared without regard to case; the statements here use lower case
    throughout). *)
Fixpoint row_get (key : string) (row : sqlite_row) : sql_value + lookup_error :=
  match row with
  | [] => inr IndexError
  | (name, v) :: row' => if String.eqb name key then inl v else row_get key row'
  end.

(** A row of [SELECT pi.*, s.name AS software_name FROM purchase_items pi
    JOIN software s ON s.id = pi.software_id]: the columns of
    [purchase_items] in table order, then the aliased catalog name. *)
Definition history_join_row (i : purchase_item_row) (s : software_row) : sqlite_row :=
  [ ("id", VInt (pi_id i));
    ("purchase_id", VInt (pi_purchase_id i));
    ("software_id", VInt (pi_software_id i));
    ("software_name", VText (pi_software_name i));
    ("developer", VText (pi_developer i));
    ("quantity", VInt (pi_quantity i));
    ("price_at_purchase", VReal (pi_price_at_purchase i));
    ("software_name", VText (s_name s)) ]%string.

(** The dictionary built for one line of a purchase. *)
Record history_item : Type := mk_history_item {
  hi_id : sql_value;
  hi_software_id : sql_value;
  hi_name : sql_value;
  hi_quantity : sql_value;
  hi_price : sql_value
}.

Definition sum_bind {A B E : Type} (c : A + E) (k : A -> B + E) : B + E :=
  match c with
  | inl a => k a
  | inr e => inr e
  end.

(** The key under which a row is grouped, and its dictionary. *)
Definition history_entry (row : sqlite_row) : (sql_value * history_item) + lookup_error :=
  sum_bind (row_get "purchase_id" row) (fun purchase_id =>
  sum_bind (row_get "id" row) (fun id =>
  sum_bind (row_get "software_id" row) (fun software_id =>
  sum_bind (row_get "software_name" row) (fun name =>
  sum_bind (row_get "quantity" row) (fun quantity =>
  sum_bind (row_get "price_at_purchase" row) (fun price =>
  inl (purchase_id, mk_history_item id software_id name quantity price))))))).

(** [dict.setdefault(key, []).append(item)] on an insertion-ordered dict. *)
Fixpoint setdefault_append {V : Type} (key : sql_value) (item : V)
    (dict : list (sql_value * list V)) : list (sql_value * list V) :=
  match dict with
  | [] => [(key, [item])]
  | (k, items) :: dict' =>
      if sql_value_eqb k key then (k, items ++ [item]) :: dict'
      else (k, items) :: setdefault_append key item dict'
  end.

(** [dict.get(key, [])]. *)
Fixpoint dict_get {V : Type} (key : sql_value) (dict : list (sql_value * list V)) : list V :=
  match dict with
  | [] => []
  | (k, items) :: dict' => if sql_value_eqb k key then items else dict_get key dict'
  end.

Fixpoint group_history (items_rows : list sqlite_row)
    (items_by_purchase : list (sql_value * list history_item))
    : list (sql_value * list history_item) + lookup_error :=
  match items_rows with
  | [] => inl items_by_purchase
  | row :: rest =>
      sum_bind (history_entry row) (fun e =>
      group_history rest (setdefault_append (fst e) (snd e) items_by_purchase))
  end.

(** The join of the second statement, [WHERE pi.purchase_id IN (...)
    ORDER BY pi.id]. *)
Definition history_items_rows (purchase_ids : list Z) (d : db) : list sqlite_row :=
  map (fun r => history_join_row (fst r) (snd r))
      (order_by (fun r => pi_id (fst r))
         (flat_map (fun i => map (fun s => (i, s))
                               (filter (fun s => s_id s =? pi_software_id i)
                                       (rows (software d))))
                   (filter (fun i => existsb (Z.eqb (pi_purchase_id i)) purchase_ids)
                           (rows (purchase_items d))))).

(** Each purchase of the user, newest first, with the list of its line
    dictionaries under ["items"]. *)
Definition get_purchases_with_items (user_id : Z) (limit : option Z) (d : db)
    : list (purchase_row * list history_item) + lookup_error :=
  let purchases :=
    sql_limit limit
      (order_by (fun p => - ph_purchased_at p)
         (filter (fun p => ph_user_id p =? user_id) (rows (purchase_history d)))) in
  match purchases with
  | [] => inl []
  | _ =>
    let purchase_ids := map ph_id purchases in
    let items_rows := history_items_rows purchase_ids d in
    sum_bind (group_history items_rows []) (fun items_by_purchase =>
    inl (map (fun p => (p, dict_get (VInt (ph_id p)) items_by_purchase)) purchases))
  end.

(** [SELECT 1 FROM purchase_items pi JOIN purchase_history ph ON ph.id =
    pi.purchase_id WHERE ph.user_id = ? AND pi.software_id = ? AND ph.status
    = 'completed' LIMIT 1], as [row is not None]. *)
Definition user_has_purchased_software (user_id software_id : Z) (d : db) : bool :=
  existsb (fun i =>
             existsb (fun p =>
                        (ph_id p =? pi_purchase_id i)
                        && (ph_user_id p =? user_id)
                        && (pi_software_id i =? software_id)
                        && match ph_status p with Completed => true | Refunded => false end)
                     (rows (purchase_history d)))
          (rows (purchase_items d)).

(** ** Reviews and the rating aggregate *)

(** [CHECK(rating >= 1 AND rating <= 5)]. *)
Definition valid_rating (rating : Z) : bool := (1 <=? rating) && (rating <=? 5).

(** [AVG(x)] over INTEGER values: NULL over no rows, otherwise the double
    sum of the values divided, as doubles, by the row count.  Sum and count
    are written as the integers they are: ratings are at most 5 and a table
    holds far fewer than 2^50 rows, so the double sum and the converted
    count are exact, and the one rounding is that of the quotient. *)
Definition sql_avg (xs : list Z) : option Q :=
  match xs with
  | [] => None
  | _ => Some (real_div (inject_Z (fold_left Z.add xs 0))
                        (inject_Z (Z.of_nat (List.length xs))))
  end.

(** [... FROM reviews WHERE software_id = ?]. *)
Definition software_reviews (software_id : Z) (d : db) : list review_row :=
  filter (fun r => r_software_id r =? software_id) (rows (reviews d)).

(** [SELECT AVG(rating) FROM reviews WHERE software_id = ?]. *)
Definition avg_rating_of (software_id : Z) (d : db) : option Q :=
  sql_avg (map r_rating (software_reviews software_id d)).

(** Python's [x or 0.0] on a number or [None]. *)
Definition or_zero (x : option Q) : Q :=
  match x with
  | None => 0%Q
  | Some q => if Qeq_bool q 0 then 0%Q else q
  end.

(** [UPDATE software SET rating_avg = ? WHERE id = ?], under
    [CHECK(rating_avg >= 0 AND rating_avg <= 5)], which NULL passes. *)
Definition sql_set_rating_avg (avg : option Q) (software_id : Z) (d : db) : result db :=
  if existsb (fun s => s_id s =? software_id) (rows (software d))
     && match avg with
        | Some q => negb (Qle_bool 0 q && Qle_bool q 5)
        | None => false
        end
  then Raise IntegrityError
  else Ok (set_software
             (with_rows
                (map (fun s => if s_id s =? software_id
                               then mk_software (s_id s) (s_name s) (s_description s)
                                      (s_price s) (s_category_id s) (s_developer s)
                                      (s_downloads s) avg (s_image_url s)
                               else s))
                (software d)) d).

(** [UPDATE reviews SET rating = ?, comment = ? WHERE id = ?]; only the
    columns named in the [SET] list are written. *)
Definition sql_update_review (review_id : Z) (rating : option Z) (comment : option string)
    (d : db) : result db :=
  if existsb (fun r => r_id r =? review_id) (rows (reviews d))
     && match rating with Some x => negb (valid_rating x) | None => false end
  then Raise IntegrityError
  else Ok (set_reviews
             (with_rows
                (map (fun r => if r_id r =? review_id
                               then mk_review (r_id r) (r_user_id r) (r_software_id r)
                                      (coalesce rating (r_rating r))
                                      (match comment with Some x => Some x | None => r_comment r end)
                                      (r_created_at r)
                               else r))
                (reviews d)) d).

(** [INSERT INTO reviews (user_id, software_id, rating, comment)], under the
    rating check and [UNIQUE(user_id, software_id)]; created_at defaults to
    the current time. *)
Definition sql_insert_review (user_id software_id rating : Z) (comment : option string)
    (now : Z) (d : db) : result (Z * db) :=
  if negb (valid_rating rating)
     || existsb (fun r => (r_user_id r =? user_id) && (r_software_id r =? software_id))
                (rows (reviews d))
  then Raise IntegrityError
  else
    let '(review_id, t) := insert_row
                             (fun id => mk_review id user_id software_id rating comment now)
                             (reviews d) in
    Ok (review_id, set_reviews t d).

Definition add_or_update_review (user_id software_id rating : Z) (text : string) (now : Z)
    (d : db) : result db :=
  let existing := find (fun r => (r_user_id r =? user_id) && (r_software_id r =? software_id))
                       (rows (reviews d)) in
  d1 <- match existing with
        | Some row =>
            let review_id := r_id row in
            sql_update_review review_id (Some rating) (Some text) d
        | None =>
            r <- sql_insert_review user_id software_id rating (Some text) now d ;;
            Ok (snd r)
        end ;;
  let avg_rating := or_zero (avg_rating_of software_id d1) in
  sql_set_rating_avg (Some avg_rating) software_id d1.

Definition add_review (user_id software_id rating : Z) (comment : option string) (now : Z)
    (d : db) : result (Z * db) :=
  r <- sql_insert_review user_id software_id rating comment now d ;;
  let avg_rating := avg_rating_of software_id (snd r) in
  d2 <- sql_set_rating_avg avg_rating software_id (snd r) ;;
  Ok (fst r, d2).

Definition update_review (review_id : Z) (rating : option Z) (comment : option string)
    (d : db) : result db :=
  match rating, comment with
  | None, None => Ok d
  | _, _ =>
    d1 <- sql_update_review review_id rating comment d ;;
    match find (fun r => r_id r =? review_id) (rows (reviews d1)) with
    | None => Raise TypeError
    | Some review =>
      let software_id := r_software_id review in
      let avg_rating := avg_rating_of software_id d1 in
      sql_set_rating_avg avg_rating software_id d1
    end
  end.

Definition delete_review (review_id : Z) (d : db) : result db :=
  match find (fun r => r_id r =? review_id) (rows (reviews d)) with
  | None => Raise TypeError
  | Some review =>
    let software_id := r_software_id review in
    let d1 := set_reviews
                (with_rows (filter (fun r => negb (r_id r =? review_id))) (reviews d)) d in
    let avg_rating := or_zero (avg_rating_of software_id d1) in
    sql_set_rating_avg (Some avg_rating) software_id d1
  end.

(** ** Review routes of [app.py]

    Both handlers run behind [login_required]; [user_id] is the session's
    user.  [rating] is the form field converted to an integer, [None] when
    the field is missing or does not convert; [comment] is the form field
    after [.strip()].  A handler answers with the message it flashes. *)

Inductive flash : Type :=
| OnlyBuyersMayReview     (* 'Оставлять отзывы могут только пользователи, купившие этот продукт.' *)
| RatingMustBe1To5        (* 'Оценка должна быть от 1 до 5.' / 'Рейтинг должен быть от 1 до 5!' *)
| ReviewTextEmpty         (* 'Текст отзыва не должен быть пустым.' *)
| ReviewSaved             (* 'Ваш отзыв сохранён.' *)
| SoftwareMissing         (* 'Программа не найдена!' *)
| ThanksForReview         (* 'Спасибо за ваш отзыв!' *)
| AlreadyReviewed         (* 'Вы уже оставили отзыв на это ПО!' *)
| ErrorMessage (e : exn). (* 'Ошибка: ...' *)

Definition get_software_by_id (software_id : Z) (d : db) : option software_row :=
  find (fun s => s_id s =? software_id) (rows (software d)).

(** [POST /software/<software_id>/review]. *)
Definition add_software_review (user_id software_id : Z) (rating : option Z)
    (comment : string) (now : Z) (d : db) : result (flash * db) :=
  if negb (user_has_purchased_software user_id software_id d)
  then Ok (OnlyBuyersMayReview, d)
  else
    let rating := coalesce rating 0 in
    if (rating <? 1) || (5 <? rating) then Ok (RatingMustBe1To5, d)
    else if String.eqb comment "" then Ok (ReviewTextEmpty, d)
    else
      d1 <- add_or_update_review user_id software_id rating comment now d ;;
      Ok (ReviewSaved, d1).

(** [POST /add_review/<software_id>]; every exception of [add_review] is
    caught and flashed. *)
Definition add_review_route (user_id software_id : Z) (rating : option Z)
    (comment : string) (now : Z) (d : db) : flash * db :=
  let rating := coalesce rating 5 in
  if (rating <? 1) || (5 <? rating) then (RatingMustBe1To5, d)
  else
    match get_software_by_id software_id d with
    | None => (SoftwareMissing, d)
    | Some _ =>
      match add_review user_id software_id rating (Some comment) now d with
      | Ok (_, d1) => (ThanksForReview, d1)
      | Raise IntegrityError => (AlreadyReviewed, d)
      | Raise e => (ErrorMessage e, d)
      end
    end.

(** ** Schema constraints as state predicates *)

(** What the schema states about the tables checkout reads: the primary key
    of [software], the [CHECK]s of [cart] and [cart_items], the
    [UNIQUE(cart_id, software_id)] of [cart_items], and the foreign key
    [cart_items.software_id REFERENCES software(id)]. *)
Record cart_schema (d : db) : Prop := mk_cart_schema {
  software_pk : NoDup (map s_id (rows (software d)));
  cart_check : Forall (fun c => Qle 0 (c_total_price c)) (rows (cart d));
  cart_items_check :
    Forall (fun i => 0 < ci_quantity i /\ Qle 0 (ci_price_at_add i)) (rows (cart_items d));
  cart_items_unique :
    NoDup (map (fun i => (ci_cart_id i, ci_software_id i)) (rows (cart_items d)));
  cart_items_fk :
    Forall (fun i => existsb (fun s => s_id s =? ci_software_id i) (rows (software d)) = true)
           (rows (cart_items d))
}.

(** The constraints of these tables that SQLite enforces on every
    connection: the primary key of [software], the [CHECK]s of [cart] and
    [cart_items] and [UNIQUE(cart_id, software_id)]. *)
Record cart_checks (d : db) : Prop := mk_cart_checks {
  checked_software_pk : NoDup (map s_id (rows (software d)));
  checked_cart : Forall (fun c => Qle 0 (c_total_price c)) (rows (cart d));
  checked_cart_items :
    Forall (fun i => 0 < ci_quantity i /\ Qle 0 (ci_price_at_add i)) (rows (cart_items d));
  checked_cart_items_unique :
    NoDup (map (fun i => (ci_cart_id i, ci_software_id i)) (rows (cart_items d)))
}.

(** Whether the catalog has the program of a cart line. *)
Definition in_catalog (d : db) (i : cart_item_row) : bool :=
  existsb (fun s => s_id s =? ci_software_id i) (rows (software d)).

(** The primary key of [purchase_history] (ids handed out by its counter)
    and the foreign key [purchase_items.purchase_id REFERENCES
    purchase_history(id)]. *)
Record purchase_schema (d : db) : Prop := mk_purchase_schema {
  purchase_pk :
    Forall (fun p => ph_id p <= seq (purchase_history d)) (rows (purchase_history d));
  purchase_items_fk :
    Forall (fun i => existsb (fun p => ph_id p =? pi_purchase_id i)
                             (rows (purchase_history d)) = true)
           (rows (purchase_items d))
}.

(** A purchase line is the snapshot of a cart line: it belongs to the
    purchase, carries the line's item, quantity and price, and the name and
    developer the catalog had for the item at checkout. *)
Definition line_snapshot (purchase_id : Z) (d : db)
    (ci : cart_item_row) (i : purchase_item_row) : Prop :=
  pi_purchase_id i = purchase_id /\
  pi_software_id i = ci_software_id ci /\
  pi_quantity i = ci_quantity ci /\
  pi_price_at_purchase i = ci_price_at_add ci /\
  exists s, get_software_by_id (ci_software_id ci) d = Some s /\
            pi_software_name i = s_name s /\
            pi_developer i = s_developer s.

Definition with_downloads (s : software_row) (downloads : Z) : software_row :=
  mk_software (s_id s) (s_name s) (s_description s) (s_price s) (s_category_id s)
              (s_developer s) downloads (s_rating_avg s) (s_image_url s).

(** Quantity a list of cart lines holds of one item. *)
Fixpoint quantity_of (software_id : Z) (ls : list cart_item_row) : Z :=
  match ls with
  | [] => 0
  | l :: ls' => (if ci_software_id l =? software_id then ci_quantity l else 0)
                + quantity_of software_id ls'
  end.

(** The sum over a list of purchase lines of quantity x price_at_purchase,
    added up from 0 in the order of the list, in doubles. *)
Definition purchase_lines_total (ls : list purchase_item_row) : Q :=
  fold_left (fun acc l =>
               round64 (acc + round64 (round64 (inject_Z (pi_quantity l))
                                       * pi_price_at_purchase l)))
            ls 0%Q.

(** The columns a copied line takes from a joined row. *)
Definition copied (purchase_id : Z) (x : cart_item_row * software_row)
    (i : purchase_item_row) : Prop :=
  pi_purchase_id i = purchase_id /\
  pi_software_id i = ci_software_id (fst x) /\
  pi_quantity i = ci_quantity (fst x) /\
  pi_price_at_purchase i = ci_price_at_add (fst x) /\
  pi_software_name i = s_name (snd x) /\
  pi_developer i = s_developer (snd x).


(** ** Example databases

    Built by running the operations from the empty database. *)

Definition committed (r : result db) : db :=
  match r with
  | Ok d => d
  | Raise _ => empty_db
  end.

(** One category, two programs at 50 and 30, a free program, three users. *)
Definition demo_catalog : result db :=
  c <- add_category "Tools" None empty_db ;;
  s1 <- add_software "Editor" None 50 (fst c) "Acme" None (snd c) ;;
  s2 <- add_software "Compiler" None 30 (fst c) "Initech" None (snd s1) ;;
  s3 <- add_software "Viewer" None 0 (fst c) "Acme" None (snd s2) ;;
  u1 <- add_user "ann@example.org" "secret" "Ann" None "user" (snd s3) ;;
  u2 <- add_user "bob@example.org" "secret" "Bob" None "user" (snd u1) ;;
  u3 <- add_user "cy@example.org" "secret" "Cy" None "moder" (snd u2) ;;
  Ok (snd u3).

Definition demo_catalog_db : db := Eval vm_compute in committed demo_catalog.

(** Ann's cart holds 1 x Editor at 50 and 2 x Compiler at 30. *)
Definition demo_cart : result db :=
  a <- add_to_cart 1 1 1 demo_catalog_db ;;
  b <- add_to_cart 1 2 2 (snd a) ;;
  Ok (snd b).

Definition demo_cart_db : db := Eval vm_compute in committed demo_cart.



(** A catalog priced in cents: programs at 0.1, 0.2 and 0.3 (the doubles
    nearest to these), and one user. *)
Definition demo_cents : result db :=
  c <- add_category "Fonts" None empty_db ;;
  s1 <- add_software "Serif" None (round64 (1 # 10)) (fst c) "Acme" None (snd c) ;;
  s2 <- add_software "Sans" None (round64 (2 # 10)) (fst c) "Acme" None (snd s1) ;;
  s3 <- add_software "Mono" None (round64 (3 # 10)) (fst c) "Acme" None (snd s2) ;;
  u1 <- add_user "dee@example.org" "secret" "Dee" None "user" (snd s3) ;;
  Ok (snd u1).

Definition demo_cents_db : db := Eval vm_compute in committed demo_cents.

(** Dee adds the three programs, the dearest first. *)
Definition demo_cents_ops : list cart_op :=
  [ AddToCart 1 3 1; AddToCart 1 2 1; AddToCart 1 1 1 ].

Definition demo_cents_trace : list db :=
  Eval vm_compute in
    match run_cart_ops demo_cents_ops demo_cents_db with
    | Ok trace => trace
    | Raise _ => []
    end.

(** Ann has checked out the cart above by card at time 1000. *)
Definition demo_purchased_db : db :=
  Eval vm_compute in
    committed (r <- create_purchase 1 (Some "card"%string) 1000 demo_cart_db ;; Ok (snd r)).

(** Ann then fills her cart again: 2 x Editor at 50 and 1 x Compiler at 30. *)
Definition demo_second_cart_db : db :=
  Eval vm_compute in
    committed (a <- add_to_cart 1 1 2 demo_purchased_db ;;
               b <- add_to_cart 1 2 1 (snd a) ;;
               Ok (snd b)).

(** ... and checks out again, in cash at time 2000. *)
Definition demo_second_purchase_db : db :=
  Eval vm_compute in
    committed (r <- create_purchase 1 (Some "cash"%string) 2000 demo_second_cart_db ;; Ok (snd r)).

(** An admin deletes the Editor while Ann's cart still holds it. *)
Definition demo_dangling_cart_db : db :=
  Eval vm_compute in committed (delete_software 1 demo_cart_db).

(** ... and Ann checks that cart out by card at time 1000. *)
Definition demo_dangling_purchase_db : db :=
  Eval vm_compute in
    committed (r <- create_purchase 1 (Some "card"%string) 1000 demo_dangling_cart_db ;;
               Ok (snd r)).

(** The database after a call: what the call committed, or the database as
    it was when the call raised. *)
Definition state_after {A : Type} (r : result (A * db)) (d : db) : db :=
  match r with
  | Ok (_, d') => d'
  | Raise _ => d
  end.

(** "A cart has a zero total exactly when it has no lines", as a property of
    a database. *)
Definition zero_total_iff_no_lines (d : db) : Prop :=
  forall c, In c (rows (cart d)) ->
            ((c_total_price c == 0)%Q <-> cart_lines (c_id c) d = []).

(** Bob puts the free Viewer into his cart. *)
Definition demo_free_cart : result db :=
  d <- demo_catalog ;;
  a <- add_to_cart 2 3 1 d ;;
  Ok (snd a).

Definition demo_free_cart_db : db := Eval vm_compute in committed demo_free_cart.

(** An admin renames and reprices the Editor after Ann's purchase. *)
Definition demo_renamed_db : db :=
  Eval vm_compute in
    committed (update_software 1 (Some "Editor Pro"%string) None (Some 99%Q)
                 None None None demo_purchased_db).

(** ** Review operations as data *)

Inductive review_op : Type :=
| AddOrUpdateReview (user_id software_id rating : Z) (text : string)
| AddReview (user_id software_id rating : Z) (comment : option string)
| UpdateReview (review_id : Z) (rating : option Z) (comment : option string)
| DeleteReview (review_id : Z).

Definition run_review_op (op : review_op) (now : Z) (d : db) : result db :=
  match op with
  | AddOrUpdateReview user_id software_id rating text =>
      add_or_update_review user_id software_id rating text now d
  | AddReview user_id software_id rating comment =>
      r <- add_review user_id software_id rating comment now d ;; Ok (snd r)
  | UpdateReview review_id rating comment => update_review review_id rating comment d
  | DeleteReview review_id => delete_review review_id d
  end.

(** The program whose reviews the operation touches. *)
Definition reviewed_software (op : review_op) (d : db) : option Z :=
  match op with
  | AddOrUpdateReview _ software_id _ _ => Some software_id
  | AddReview _ software_id _ _ => Some software_id
  | UpdateReview review_id _ _ =>
      option_map r_software_id (find (fun r => r_id r =? review_id) (rows (reviews d)))
  | DeleteReview review_id =>
      option_map r_software_id (find (fun r => r_id r =? review_id) (rows (reviews d)))
  end.

(** [update_review] without a rating and without a comment executes no
    statement. *)
Definition writes_review (op : review_op) : bool :=
  match op with
  | UpdateReview _ None None => false
  | _ => true
  end.

(** The specification's "arithmetic mean of the ratings of its then-current
    reviews, 0 when no reviews remain".  The reviews of the program are
    picked out of the table one by one; the mean is the sum of their ratings
    divided by their number, as the double nearest to that quotient. *)
Fixpoint reviews_of_program (software_id : Z) (rs : list review_row) : list review_row :=
  match rs with
  | [] => []
  | r :: rs' => if r_software_id r =? software_id
                then r :: reviews_of_program software_id rs'
                else reviews_of_program software_id rs'
  end.

Definition mean_rating (rs : list review_row) : Q :=
  match rs with
  | [] => 0%Q
  | _ => round64 (inject_Z (fold_right Z.add 0%Z (map r_rating rs))
                  / inject_Z (Z.of_nat (List.length rs)))
  end.

(** [UNIQUE(user_id, software_id)] on [reviews]. *)
Definition reviews_unique (d : db) : Prop :=
  NoDup (map (fun r => (r_user_id r, r_software_id r)) (rows (reviews d))).

(** Primary key of [reviews]. *)
Definition reviews_keyed (d : db) : Prop :=
  NoDup (map r_id (rows (reviews d))) /\
  Forall (fun r => r_id r <= seq (reviews d)) (rows (reviews d)).

(** "Resubmitting overwrites rating, text and timestamp of the existing
    row", for one submission. *)
Definition upsert_overwrites_timestamp (user_id software_id rating : Z) (text : string)
    (now : Z) (d : db) : Prop :=
  forall old d',
    find (fun r => (r_user_id r =? user_id) && (r_software_id r =? software_id))
         (rows (reviews d)) = Some old ->
    add_or_update_review user_id software_id rating text now d = Ok d' ->
    find (fun r => (r_user_id r =? user_id) && (r_software_id r =? software_id))
         (rows (reviews d'))
    = Some (mk_review (r_id old) user_id software_id rating (Some text) now).

(** Ann reviews the Editor she bought: 3 stars at time 3000. *)
Definition demo_reviewed_db : db :=
  Eval vm_compute in
    committed (r <- add_software_review 1 1 (Some 3) "ok" 3000 demo_purchased_db ;;
               Ok (snd r)).

(** The Editor is rated 4, 5 and 3 by Ann, Bob and Cy. *)
Definition demo_three_reviews_db : db :=
  Eval vm_compute in
    committed (a <- add_review 1 1 4 (Some "good"%string) 3000 demo_purchased_db ;;
               b <- add_review 2 1 5 None 3001 (snd a) ;;
               c <- add_review 3 1 3 (Some "fine"%string) 3002 (snd b) ;;
               Ok (snd c)).

(** Cy's review is deleted. *)
Definition demo_two_reviews_db : db :=
  Eval vm_compute in committed (delete_review 3 demo_three_reviews_db).

(** The other two are deleted as well. *)
Definition demo_no_reviews_db : db :=
  Eval vm_compute in
    committed (d <- delete_review 1 demo_two_reviews_db ;; delete_review 2 d).

Definition demo_editor : software_row :=
  mk_software 1 "Editor" None 50 1 "Acme" 1 None None.

(** * Further operations of [db.py] and [app.py] *)

(** ** Lookups *)

Definition get_user_cart (user_id : Z) (d : db) : option cart_row :=
  find (fun c => c_user_id c =? user_id) (rows (cart d)).

Definition get_cart_by_id (cart_id : Z) (d : db) : option cart_row :=
  find (fun c => c_id c =? cart_id) (rows (cart d)).

Definition get_user_by_email (email : string) (d : db) : option user_row :=
  find (fun u => String.eqb (u_email u) email) (rows (users d)).

Definition get_user_by_id (user_id : Z) (d : db) : option user_row :=
  find (fun u => u_id u =? user_id) (rows (users d)).

(** [SELECT * FROM reviews WHERE user_id = ? AND software_id = ?], first row. *)
Definition get_user_review (user_id software_id : Z) (d : db) : option review_row :=
  find (fun r => (r_user_id r =? user_id) && (r_software_id r =? software_id))
       (rows (reviews d)).

(** The same selection [ORDER BY created_at DESC LIMIT 1]. *)
Definition get_user_review_for_software (user_id software_id : Z) (d : db)
    : option review_row :=
  hd_error
    (order_by (fun r => - r_created_at r)
       (filter (fun r => (r_user_id r =? user_id) && (r_software_id r =? software_id))
               (rows (reviews d)))).


(** ** Users *)

(** [UPDATE users SET ... WHERE id = ?] over the arguments that are not
    [None], under the role check. *)
Definition update_user (user_id : Z) (name phone role : option string) (d : db) : result db :=
  match name, phone, role with
  | None, None, None => Ok d
  | _, _, _ =>
    if existsb (fun u => u_id u =? user_id) (rows (users d))
       && match role with Some r => negb (valid_role r) | None => false end
    then Raise IntegrityError
    else Ok (set_users
               (with_rows
                  (map (fun u => if u_id u =? user_id
                                 then mk_user (u_id u) (u_email u) (u_password u)
                                        (coalesce name (u_name u))
                                        (match phone with Some x => Some x | None => u_phone u end)
                                        (coalesce role (u_role u))
                                 else u))
                  (users d)) d)
  end.

(** [UPDATE users SET role = ? WHERE id = ?]. *)
Definition set_user_role (user_id : Z) (role : string) (d : db) : result db :=
  if existsb (fun u => u_id u =? user_id) (rows (users d)) && negb (valid_role role)
  then Raise IntegrityError
  else Ok (set_users
             (with_rows
                (map (fun u => if u_id u =? user_id
                               then mk_user (u_id u) (u_email u) (u_password u)
                                      (u_name u) (u_phone u) role
                               else u))
                (users d)) d).

(** [UPDATE users SET name = ?, email = ?, phone = ? WHERE id = ?], under
    [UNIQUE] on email: refused when the row exists and another row carries
    the email. *)
Definition update_user_profile (user_id : Z) (name email : string) (phone : option string)
    (d : db) : result db :=
  if existsb (fun u => u_id u =? user_id) (rows (users d))
     && existsb (fun u => negb (u_id u =? user_id) && String.eqb (u_email u) email)
                (rows (users d))
  then Raise IntegrityError
  else Ok (set_users
             (with_rows
                (map (fun u => if u_id u =? user_id
                               then mk_user (u_id u) email (u_password u) name phone (u_role u)
                               else u))
                (users d)) d).

(** [DELETE FROM users WHERE id = ?] on the connection of
    [get_db_connection]: the [ON DELETE CASCADE] clauses of [cart],
    [purchase_history] and [reviews] do not fire. *)
Definition delete_user (user_id : Z) (d : db) : result db :=
  Ok (set_users (with_rows (filter (fun u => negb (u_id u =? user_id))) (users d)) d).

(** ** Categories and catalog *)

Definition update_category (category_id : Z) (name description : option string) (d : db)
    : result db :=
  match name, description with
  | None, None => Ok d
  | _, _ =>
    if existsb (fun c => cat_id c =? category_id) (rows (categories d))
       && match name with
          | Some n => existsb (fun c => negb (cat_id c =? category_id)
                                        && String.eqb (cat_name c) n)
                              (rows (categories d))
          | None => false
          end
    then Raise IntegrityError
    else Ok (set_categories
               (with_rows
                  (map (fun c => if cat_id c =? category_id
                                 then mk_category (cat_id c)
                                        (coalesce name (cat_name c))
                                        (match description with
                                         | Some x => Some x
                                         | None => cat_description c
                                         end)
                                 else c))
                  (categories d)) d)
  end.

(** [UPDATE software SET downloads = downloads + 1 WHERE id = ?]. *)
Definition increment_downloads (software_id : Z) (d : db) : result db :=
  Ok (sql_add_downloads 1 software_id d).

(** ** Cart arithmetic *)

(** The unit price [add_to_cart] charges for an item: the price locked in
    the cart's line when there is one, the catalog price otherwise. *)
Definition cart_unit_price (cart_id software_id : Z) (d : db) : Q :=
  match find (fun i => (ci_cart_id i =? cart_id) && (ci_software_id i =? software_id))
             (rows (cart_items d)) with
  | Some line => ci_price_at_add line
  | None => match get_software_by_id software_id d with
            | Some s => s_price s
            | None => 0%Q
            end
  end.

Definition with_quantity (i : cart_item_row) (quantity : Z) : cart_item_row :=
  mk_cart_item (ci_id i) (ci_cart_id i) (ci_software_id i) quantity (ci_price_at_add i).

(** The id and database a call returned, for the examples. *)
Definition committed_pair (r : result (Z * db)) : Z * db :=
  match r with
  | Ok x => x
  | Raise _ => (0, empty_db)
  end.

(** ** Initial data

    The rows [seed_initial_data] inserts, as listed in the source. *)

Definition users_data : list (string * string * string * string * string) :=
  [ ("admin@example.com", "admin123", "Администратор", "+7-900-000-00-00", "admin");
    ("user@example.com", "user123", "Тестовый пользователь", "+7-900-111-11-11", "user");
    ("moder@example.com", "moder123", "Тестовый модератор", "+7-900-222-22-22", "moder") ]%string.

Definition categories_data : list (string * string) :=
  [ ("Текстовые редакторы", "Программы для работы с текстовыми документами");
    ("Электронные таблицы", "Программы для работы с таблицами и расчётами");
    ("Графика", "Редакторы изображений и прототипирования");
    ("Программирование", "Инструменты для разработки ПО");
    ("Облачные хранилища", "Сервисы для хранения и обмена файлами");
    ("Архиваторы", "Утилиты для сжатия и упаковки файлов") ]%string.

Definition software_data : list (string * string * Q * string * string * string) :=
  [ ("Microsoft Word",
     "Microsoft Word — текстовый процессор для создания, редактирования и форматирования документов.",
     2490%Q, "Текстовые редакторы", "Microsoft", "/static/word.png");
    ("Microsoft Excel",
     "Microsoft Excel — программа для работы с электронными таблицами и анализом данных.",
     3990%Q, "Электронные таблицы", "Microsoft", "/static/excel.png");
    ("Adobe Photoshop",
     "Adobe Photoshop — мощный графический редактор для обработки фото и создания дизайнов.",
     1990%Q, "Графика", "Adobe", "/static/photoshop.png");
    ("Visual Studio Code",
     "Visual Studio Code — редактор исходного кода с поддержкой множества языков и расширений.",
     1490%Q, "Программирование", "Microsoft", "/static/vscode.png");
    ("Figma",
     "Figma — онлайн‑редактор для создания прототипов и интерфейсов с совместным редактированием.",
     1570%Q, "Графика", "Figma", "/static/figma.png");
    ("PyCharm",
     "PyCharm — профессиональная IDE для разработки на Python с инструментами отладки и тестирования.",
     3590%Q, "Программирование", "JetBrains", "/static/pycharm.png");
    ("WinRAR",
     "WinRAR — популярный архиватор для создания и распаковки архивов RAR, ZIP и других форматов.",
     1590%Q, "Архиваторы", "WinRAR", "/static/winrar.png");
    ("Яндекс Диск",
     "Яндекс Диск — облачный сервис для хранения, синхронизации и обмена файлами между устройствами.",
     390%Q, "Облачные хранилища", "Yandex", "/static/yadisk.png");
    ("Rails",
     "Ruby on Rails — полнофункциональный фреймворк для создания веб‑приложений на Ruby.",
     2790%Q, "Программирование", "David Heinemeier Hansson", "/static/rails.png") ]%string.

(** [{row["name"]: row["id"] for row in ...}.get(name)]: a later row
    replaces an earlier one of the same name. *)
Definition category_id_by_name (name : string) (d : db) : option Z :=
  option_map cat_id (find (fun c => String.eqb (cat_name c) name) (rev (rows (categories d)))).

(** The three stages of [seed_initial_data]; each runs only on an empty
    table.  The statements are those of [add_user], [add_category] and
    [add_software]. *)
Definition seed_users (d : db) : result db :=
  if Z.of_nat (List.length (rows (users d))) =? 0
  then for_each (fun '(email, password, name, phone, role) d0 =>
                   r <- add_user email password name (Some phone) role d0 ;; Ok (snd r))
                users_data d
  else Ok d.

Definition seed_categories (d : db) : result db :=
  if Z.of_nat (List.length (rows (categories d))) =? 0
  then for_each (fun '(name, desc) d0 =>
                   r <- add_category name (Some desc) d0 ;; Ok (snd r))
                categories_data d
  else Ok d.

Definition seed_software (d : db) : result db :=
  if Z.of_nat (List.length (rows (software d))) =? 0
  then for_each (fun '(name, desc, price, cat_name, dev, img) d0 =>
                   match category_id_by_name cat_name d with
                   | None => Ok d0
                   | Some category_id =>
                       if category_id =? 0 then Ok d0
                       else r <- add_software name (Some desc) price category_id dev
                                   (Some img) d0 ;;
                            Ok (snd r)
                   end)
                software_data d
  else Ok d.

(** One transaction: committed as a whole, or rolled back on the first
    exception. *)
Definition seed_initial_data (d : db) : result db :=
  d1 <- seed_users d ;;
  d2 <- seed_categories d1 ;;
  seed_software d2.

(** The database the application starts from. *)
Definition seeded_db : db := Eval vm_compute in committed (seed_initial_data empty_db).

(** ** The writing operations as data *)

Inductive shop_op : Type :=
| SeedInitialData
| AddUser (email password name : string) (phone : option string) (role : string)
| UpdateUser (user_id : Z) (name phone role : option string)
| UpdateUserProfile (user_id : Z) (name email : string) (phone : option string)
| SetUserRole (user_id : Z) (role : string)
| DeleteUser (user_id : Z)
| AddCategory (name : string) (description : option string)
| UpdateCategory (category_id : Z) (name description : option string)
| DeleteCategory (category_id : Z)
| AddSoftware (name : string) (description : option string) (price : Q)
    (category_id : Z) (developer : string) (image_url : option string)
| UpdateSoftware (software_id : Z) (name description : option string) (price : option Q)
    (category_id : option Z) (developer image_url : option string)
| IncrementDownloads (software_id : Z)
| DeleteSoftware (software_id : Z)
| CartOp (op : cart_op)
| ClearCart (user_id : Z)
| CreatePurchase (user_id : Z) (payment_method : option string)
| ReviewOp (op : review_op).

Definition run_shop_op (op : shop_op) (now : Z) (d : db) : result db :=
  match op with
  | SeedInitialData => seed_initial_data d
  | AddUser email password name phone role =>
      r <- add_user email password name phone role d ;; Ok (snd r)
  | UpdateUser user_id name phone role => update_user user_id name phone role d
  | UpdateUserProfile user_id name email phone => update_user_profile user_id name email phone d
  | SetUserRole user_id role => set_user_role user_id role d
  | DeleteUser user_id => delete_user user_id d
  | AddCategory name description => r <- add_category name description d ;; Ok (snd r)
  | UpdateCategory category_id name description => update_category category_id name description d
  | DeleteCategory category_id => delete_category category_id d
  | AddSoftware name description price category_id developer image_url =>
      r <- add_software name description price category_id developer image_url d ;; Ok (snd r)
  | UpdateSoftware software_id name description price category_id developer image_url =>
      update_software software_id name description price category_id developer image_url d
  | IncrementDownloads software_id => increment_downloads software_id d
  | DeleteSoftware software_id => delete_software software_id d
  | CartOp op => run_cart_op op d
  | ClearCart user_id => clear_cart user_id d
  | CreatePurchase user_id payment_method =>
      r <- create_purchase user_id payment_method now d ;; Ok (snd r)
  | ReviewOp op => run_review_op op now d
  end.

(** One call at time [now]: its commit, or the database as it was when the
    call raised. *)
Definition shop_call (d : db) (call : shop_op * Z) : db :=
  match run_shop_op (fst call) (snd call) d with
  | Ok d' => d'
  | Raise _ => d
  end.

(** The database after a history of calls. *)
Definition run_shop (calls : list (shop_op * Z)) (d : db) : db :=
  fold_left shop_call calls d.

(** What holds of the cart tables throughout: keyed lines, totals equal to
    the sum over the lines, and cart ids - also those the lines refer to -
    handed out by the counter of [cart]. *)
Record cart_invariant (d : db) : Prop := mk_cart_invariant {
  inv_keyed : cart_items_keyed d;
  inv_consistent : cart_total_consistent d;
  inv_cart_ids : Forall (fun c => c_id c <= seq (cart d)) (rows (cart d));
  inv_line_carts : Forall (fun i => ci_cart_id i <= seq (cart d)) (rows (cart_items d))
}.

(** The call left the cart tables alone. *)
Definition same_carts (d d' : db) : Prop :=
  cart d' = cart d /\ cart_items d' = cart_items d.

(** ** Purchase pages and statistics *)

(** [GET /purchase_detail/<purchase_id>]: the purchase and its lines, or
    [None] for the 'purchase not found' redirect, which a purchase of
    another user gets as well.  [GET /purchase_success/<purchase_id>] reads
    the lines first and answers alike. *)
Definition purchase_detail (session_user_id purchase_id : Z) (d : db)
    : option (purchase_row * list purchase_item_row) :=
  match get_purchase_by_id purchase_id d with
  | None => None
  | Some purchase =>
      if negb (ph_user_id purchase =? session_user_id) then None
      else Some (purchase, get_purchase_items purchase_id d)
  end.

Record sales_statistics : Type := mk_sales_statistics {
  total_purchases : Z;
  total_revenue : Q;
  active_carts : Z;
  total_users : Z;
  total_software : Z
}.

(** [SELECT COUNT] of the rows. *)
Definition sql_count {A : Type} (l : list A) : Z := Z.of_nat (List.length l).

Definition get_sales_statistics (d : db) : sales_statistics :=
  mk_sales_statistics
    (sql_count (rows (purchase_history d)))
    (coalesce (sql_sum (map ph_total_price (rows (purchase_history d)))) 0%Q)
    (sql_count (filter (fun c => negb (Qle_bool (c_total_price c) 0)) (rows (cart d))))
    (sql_count (rows (users d)))
    (sql_count (rows (software d))).

(** Primary key of [cart]. *)
Definition cart_keyed (d : db) : Prop := NoDup (map c_id (rows (cart d))).

(** ** Reviews: state predicates *)

(** [CHECK(rating >= 1 AND rating <= 5)] on the stored reviews. *)
Definition reviews_check (d : db) : Prop :=
  Forall (fun r => valid_rating (r_rating r) = true) (rows (reviews d)).

Definition with_rating_avg (s : software_row) (avg : option Q) : software_row :=
  mk_software (s_id s) (s_name s) (s_description s) (s_price s) (s_category_id s)
              (s_developer s) (s_downloads s) avg (s_image_url s).

(** What a review operation may do to one catalog row: nothing, or replace
    the rating_avg of the reviewed program. *)
Definition rating_rewritten (reviewed : option Z) (s s' : software_row) : Prop :=
  s' = s \/ (reviewed = Some (s_id s) /\ exists avg, s' = with_rating_avg s avg).

(** ** Accounts: state predicates *)

(** The users the carts belong to, cart by cart. *)
Definition cart_owners (d : db) : list Z := map c_user_id (rows (cart d)).

(** What holds of the accounts throughout: user ids unique and handed out by
    the counter of [users], e-mail addresses unique, a cart for every user,
    and no two carts of one user. *)
Record account_invariant (d : db) : Prop := mk_account_invariant {
  acc_ids : NoDup (map u_id (rows (users d)));
  acc_id_bound : Forall (fun u => u_id u <= seq (users d)) (rows (users d));
  acc_emails : NoDup (map u_email (rows (users d)));
  acc_has_cart : Forall (fun u => In (u_id u) (cart_owners d)) (rows (users d));
  acc_one_cart : NoDup (cart_owners d)
}.

(** The call left the users and the ownership of the carts alone. *)
Definition same_accounts (d d' : db) : Prop :=
  users d' = users d /\ cart_owners d' = cart_owners d.

(** [CHECK(price >= 0)] on the catalog. *)
Definition software_check (d : db) : Prop :=
  Forall (fun s => Qle 0 (s_price s)) (rows (software d)).

(** Quantity the cart holds of an item: that of its line, 0 without one. *)
Definition held_quantity (cart_id software_id : Z) (d : db) : Z :=
  match find (fun i => (ci_cart_id i =? cart_id) && (ci_software_id i =? software_id))
             (rows (cart_items d)) with
  | Some line => ci_quantity line
  | None => 0
  end.

(** ** The order history page *)




(** ** Support tickets *)

(** A row of [support_tickets].  The functions on tickets read and write
    this table only, so it is carried on its own. *)
Record ticket_row : Type := mk_ticket {
  t_id : Z;
  t_user_id : option Z;
  t_name : string;
  t_email : string;
  t_subject : string;
  t_message : string;
  t_status : string;
  t_created_at : Z
}.

Inductive ticket_error : Type :=
| InvalidTicketStatus.   (* ValueError('Invalid ticket status') *)

(** [INSERT INTO support_tickets (user_id, name, email, subject, message)];
    status takes its default ['new'], created_at the current time. *)
Definition add_support_ticket (name email subject message : string) (user_id : option Z)
    (now : Z) (ts : table ticket_row) : table ticket_row :=
  snd (insert_row (fun id => mk_ticket id user_id name email subject message "new" now) ts).

(** [SELECT * FROM support_tickets [WHERE status = ?] ORDER BY created_at
    DESC]; the filter applies when [status] is a non-empty string. *)
Definition get_tickets_by_status (status : option string) (ts : table ticket_row)
    : list ticket_row :=
  match status with
  | Some s =>
      if negb (String.eqb s "")
      then order_by (fun t => - t_created_at t)
                    (filter (fun t => String.eqb (t_status t) s) (rows ts))
      else order_by (fun t => - t_created_at t) (rows ts)
  | None => order_by (fun t => - t_created_at t) (rows ts)
  end.

Definition valid_ticket_status (status : option string) : bool :=
  match status with
  | Some s => String.eqb s "new" || String.eqb s "in_progress" || String.eqb s "closed"
  | None => false
  end.

(** [UPDATE support_tickets SET status = ? WHERE id = ?] after the check of
    the status; [status] is [None] when the form has no such field. *)
Definition update_ticket_status (ticket_id : Z) (status : option string)
    (ts : table ticket_row) : table ticket_row + ticket_error :=
  match status with
  | Some s =>
      if negb (valid_ticket_status status) then inr InvalidTicketStatus
      else inl (with_rows
                  (map (fun t => if t_id t =? ticket_id
                                 then mk_ticket (t_id t) (t_user_id t) (t_name t) (t_email t)
                                        (t_subject t) (t_message t) s (t_created_at t)
                                 else t))
                  ts)
  | None => inr InvalidTicketStatus
  end.

Definition active_status (s : string) : bool :=
  String.eqb s "new" || String.eqb s "in_progress".

(** [SELECT COUNT ... WHERE status IN ('new', 'in_progress')]. *)
Definition count_active_tickets (ts : table ticket_row) : Z :=
  sql_count (filter (fun t => active_status (t_status t)) (rows ts)).

Definition staff_role (user_role : option string) : bool :=
  match user_role with
  | Some r => String.eqb r "admin" || String.eqb r "moder"
  | None => false
  end.

(** [GET /admin/tickets?status=...]: the tickets shown, [None] for the
    redirect of a user who is neither admin nor moderator. *)
Definition admin_tickets (user_role : option string) (status_arg : option string)
    (ts : table ticket_row) : option (list ticket_row) :=
  if negb (staff_role user_role) then None
  else
    let status := coalesce status_arg "active"%string in
    if String.eqb status "all" then Some (get_tickets_by_status None ts)
    else if String.eqb status "active"
    then let tickets_new := get_tickets_by_status (Some "new"%string) ts in
         let tickets_in_progress := get_tickets_by_status (Some "in_progress"%string) ts in
         Some (tickets_new ++ tickets_in_progress)
    else Some (get_tickets_by_status (Some status) ts).


(** The writing operations on tickets as data, and a history of calls; a
    refused [update_ticket_status] writes nothing. *)
Inductive ticket_op : Type :=
| AddSupportTicket (name email subject message : string) (user_id : option Z) (now : Z)
| UpdateTicketStatus (ticket_id : Z) (status : option string).

Definition ticket_call (ts : table ticket_row) (op : ticket_op) : table ticket_row :=
  match op with
  | AddSupportTicket name email subject message user_id now =>
      add_support_ticket name email subject message user_id now ts
  | UpdateTicketStatus ticket_id status =>
      match update_ticket_status ticket_id status ts with
      | inl ts' => ts'
      | inr _ => ts
      end
  end.

Definition run_tickets (ops : list ticket_op) (ts : table ticket_row) : table ticket_row :=
  fold_left ticket_call ops ts.

Definition with_status (t : ticket_row) (s : string) : ticket_row :=
  mk_ticket (t_id t) (t_user_id t) (t_name t) (t_email t) (t_subject t) (t_message t)
            s (t_created_at t).

(** ** Cart routes of [app.py] *)

(** The message a route on cart lines flashes. *)
Inductive cart_flash : Type :=
| LoginFirst                    (* login_required: no user in the session *)
| InvalidQuantity
| CartUpdated
| ItemRemoved
| CartError (e : exn).          (* 'Error: ' followed by the exception *)

(** [@login_required]: without a user in the session the view is not run. *)
Definition login_required (session_user_id : option Z) (view : Z -> db -> cart_flash * db)
    (d : db) : cart_flash * db :=
  match session_user_id with
  | None => (LoginFirst, d)
  | Some user_id => view user_id d
  end.

(** [POST /update_cart_item/<item_id>]; [quantity] is the form field read
    with [type=int], 1 when it is missing or not an integer. *)
Definition update_cart_item_route (session_user_id : option Z) (item_id : Z)
    (quantity : option Z) (d : db) : cart_flash * db :=
  login_required session_user_id (fun _ d =>
    let quantity := coalesce quantity 1 in
    if quantity <=? 0 then (InvalidQuantity, d)
    else
      match update_cart_item_quantity item_id quantity d with
      | Ok d' => (CartUpdated, d')
      | Raise e => (CartError e, d)
      end) d.

(** [POST /remove_from_cart/<item_id>]. *)
Definition remove_from_cart_route (session_user_id : option Z) (item_id : Z) (d : db)
    : cart_flash * db :=
  login_required session_user_id (fun _ d =>
    match remove_from_cart item_id d with
    | Ok d' => (ItemRemoved, d')
    | Raise e => (CartError e, d)
    end) d.

(** What a route may do to a cart line that it keeps: nothing, or give it
    another positive quantity. *)
Definition requantified (i i' : cart_item_row) : Prop :=
  i' = i \/ exists quantity, 0 < quantity /\ i' = with_quantity i quantity.

(** ** Profile page *)

Inductive profile_flash : Type :=
| NameEmailRequired
| EmailTaken
| ProfileUpdated.

(** [POST /edit_profile] for the user of the session; [name], [email] and
    [phone] are the form fields after [.strip()].  When the e-mail address
    belongs to another user the form is shown again, filled from
    [dict(user)], which raises [TypeError] when the session's user is not in
    the table. *)
Definition edit_profile (user_id : Z) (name email phone : string) (d : db)
    : result (profile_flash * db) :=
  let user := get_user_by_id user_id d in
  if String.eqb name "" || String.eqb email "" then Ok (NameEmailRequired, d)
  else
    let other := get_user_by_email email d in
    if match other with
       | Some o => negb (u_id o =? user_id)
       | None => false
       end
    then match user with
         | None => Raise TypeError
         | Some _ => Ok (EmailTaken, d)
         end
    else
      d1 <- update_user_profile user_id name email (Some phone) d ;;
      Ok (ProfileUpdated, d1).

(** * Proofs *)

(** ** Generic facts on results and lists *)

Lemma bind_ok {A B : Type} (c : result A) (k : A -> result B) (b : B) :
  bind c k = Ok b -> exists a, c = Ok a /\ k a = Ok b.
Proof.
  destruct c as [a|e]; simpl; intros H; [eauto | discriminate].
Qed.

Ltac bind_inv H :=
  let a := fresh "a" in
  let Ha := fresh "Ha" in
  apply bind_ok in H; destruct H as [a [Ha H]].

Lemma find_some_in {A : Type} (p : A -> bool) (l : list A) (x : A) :
  find p l = Some x -> In x l /\ p x = true.
Proof. apply find_some. Qed.

Lemma filter_map_frame {A : Type} (p : A -> bool) (f : A -> A) (l : list A) :
  (forall x, In x l -> f x = x \/ (p x = false /\ p (f x) = false)) ->
  filter p (map f l) = filter p l.
Proof.
  induction l as [|a l IH]; simpl; intros H; [reflexivity|].
  rewrite IH by (intros x Hx; apply H; now right).
  destruct (H a (or_introl eq_refl)) as [E | [E1 E2]].
  - now rewrite E.
  - now rewrite E1, E2.
Qed.

Lemma filter_filter_frame {A : Type} (p q : A -> bool) (l : list A) :
  (forall x, In x l -> q x = false -> p x = false) ->
  filter p (filter q l) = filter p l.
Proof.
  induction l as [|a l IH]; simpl; intros H; [reflexivity|].
  specialize (IH (fun x Hx => H x (or_intror Hx))).
  destruct (q a) eqn:Eq; simpl.
  - now rewrite IH.
  - rewrite IH. now rewrite (H a (or_introl eq_refl) Eq).
Qed.

Lemma filter_snoc_frame {A : Type} (p : A -> bool) (l : list A) (x : A) :
  p x = false -> filter p (l ++ [x]) = filter p l.
Proof.
  intros H. rewrite filter_app. simpl. rewrite H. apply app_nil_r.
Qed.

Lemma NoDup_map_filter {A B : Type} (f : A -> B) (q : A -> bool) (l : list A) :
  NoDup (map f l) -> NoDup (map f (filter q l)).
Proof.
  induction l as [|a l IH]; simpl; intros H; [constructor|].
  inversion H as [|? ? Hn Hd]; subst.
  destruct (q a); simpl; [constructor|]; auto.
  intros Hin. apply Hn. apply in_map_iff in Hin. destruct Hin as [x [Hx Hin]].
  apply in_map_iff. exists x. split; [assumption|].
  apply filter_In in Hin. tauto.
Qed.

Lemma NoDup_map_eq {A B : Type} (f : A -> B) (l : list A) (x y : A) :
  NoDup (map f l) -> In x l -> In y l -> f x = f y -> x = y.
Proof.
  induction l as [|a l IH]; simpl; intros Hnd Hx Hy E; [contradiction|].
  inversion Hnd as [|? ? Hn Hd]; subst.
  destruct Hx as [-> | Hx], Hy as [-> | Hy]; auto.
  - exfalso. apply Hn. rewrite E. now apply in_map.
  - exfalso. apply Hn. rewrite <- E. now apply in_map.
Qed.

Lemma NoDup_map_snoc {A : Type} (f : A -> Z) (l : list A) (x : A) (bound : Z) :
  NoDup (map f l) -> Forall (fun a => f a <= bound) l -> bound < f x ->
  NoDup (map f (l ++ [x])).
Proof.
  intros Hnd Hle Hx. rewrite map_app. simpl.
  apply NoDup_rev in Hnd. rewrite <- (rev_involutive (map f l ++ [f x])).
  apply NoDup_rev. rewrite rev_app_distr. simpl. constructor; [|assumption].
  rewrite <- in_rev. intros Hin. apply in_map_iff in Hin.
  destruct Hin as [a [Ea Hin]].
  rewrite Forall_forall in Hle. apply Hle in Hin. lia.
Qed.

(** ** REAL arithmetic: the range of a rounded value *)

Lemma pow2_pos (e : Z) : (0 < pow2 e)%Q.
Proof.
  destruct e as [|p|p]; simpl.
  - reflexivity.
  - unfold Qlt; simpl. rewrite Z.mul_1_r.
    rewrite Z.pow_pos_fold. apply Z.pow_pos_nonneg; lia.
  - reflexivity.
Qed.

Lemma nearest_even_nonneg (q : Q) : (0 <= q)%Q -> 0 <= nearest_even q.
Proof.
  intros H. unfold nearest_even.
  assert (Hf : 0 <= Qfloor q).
  { change 0 with (Qfloor 0). now apply Qfloor_resp_le. }
  destruct (Qcompare _ _); [destruct (Z.even _)| |]; lia.
Qed.

Lemma nearest_even_le (q : Q) (n : Z) : (q <= inject_Z n)%Q -> nearest_even q <= n.
Proof.
  intros H. unfold nearest_even.
  assert (Hf : Qfloor q <= n).
  { rewrite <- (Qfloor_Z n). now apply Qfloor_resp_le. }
  assert (Hlt : Qfloor q = n -> Qcompare (q - inject_Z (Qfloor q)) (1 # 2) = Lt).
  { intros E. apply Qlt_alt. rewrite E.
    assert (Hq : (q == inject_Z n)%Q).
    { apply Qle_antisym; [assumption|]. rewrite <- E. apply Qfloor_le. }
    rewrite Hq. unfold Qminus. rewrite Qplus_opp_r. reflexivity. }
  destruct (Z.eq_dec (Qfloor q) n) as [E|E].
  - rewrite (Hlt E). lia.
  - destruct (Qcompare _ _); [destruct (Z.even _)| |]; lia.
Qed.

Lemma round64_pos_nonneg (a : Q) : (0 <= a)%Q -> (0 <= round64_pos a)%Q.
Proof.
  intros H. unfold round64_pos. rewrite Qred_correct.
  apply Qmult_le_0_compat.
  - change 0%Q with (inject_Z 0). rewrite <- Zle_Qle.
    apply nearest_even_nonneg.
    apply Qle_shift_div_l; [apply pow2_pos|]. now rewrite Qmult_0_l.
  - apply Qlt_le_weak, pow2_pos.
Qed.

Lemma round64_nonneg (q : Q) : (0 <= q)%Q -> (0 <= round64 q)%Q.
Proof.
  intros H. unfold round64.
  destruct (Qeq_bool q 0); [apply Qle_refl|].
  apply Qle_bool_iff in H. rewrite H. apply round64_pos_nonneg.
  now apply Qle_bool_iff.
Qed.

Lemma binade_le_3 (q : Q) : (0 < q)%Q -> (q <= 5)%Q -> binade q <= 3.
Proof.
  intros Hpos Hle. unfold binade.
  assert (Hk : Z.log2 (Qnum q) - Z.log2 (Zpos (Qden q)) <= 3).
  { destruct q as [n d]. unfold Qle, Qlt in *; cbn [Qnum Qden] in *.
    assert (Hn : n <= Zpos d * 8) by lia.
    change 8 with (2 ^ 3) in Hn. apply Z.log2_le_mono in Hn.
    rewrite Z.log2_mul_pow2 in Hn by lia. lia. }
  destruct (Qle_bool _ _); lia.
Qed.

Lemma round64_pos_le_5 (q : Q) : (0 < q)%Q -> (q <= 5)%Q -> (round64_pos q <= 5)%Q.
Proof.
  intros Hpos Hle. unfold round64_pos.
  pose proof (binade_le_3 q Hpos Hle) as Hb.
  destruct (Z.max (binade q - 52) (-1074)) as [|p|p] eqn:Ee; try lia.
  rewrite Qred_correct. cbn [pow2].
  set (P := Pos.pow 2 p).
  assert (HP : (0 <= inject_Z (Zpos P))%Q) by (unfold Qle; cbn; lia).
  assert (Hm : nearest_even (q / (1 # P)) <= 5 * Zpos P).
  { apply nearest_even_le. unfold Qdiv.
    change (/ (1 # P))%Q with (inject_Z (Zpos P)).
    rewrite inject_Z_mult. now apply Qmult_le_compat_r. }
  apply Qle_trans with (inject_Z (5 * Zpos P) * (1 # P))%Q.
  - apply Qmult_le_compat_r; [|unfold Qle; cbn; lia].
    now rewrite <- Zle_Qle.
  - rewrite inject_Z_mult, <- Qmult_assoc.
    setoid_replace (inject_Z (Zpos P) * (1 # P))%Q with 1%Q
      by (unfold Qeq; cbn; lia).
    rewrite Qmult_1_r. apply Qle_refl.
Qed.

Lemma round64_le_5 (q : Q) : (0 <= q)%Q -> (q <= 5)%Q -> (round64 q <= 5)%Q.
Proof.
  intros H0 H5. unfold round64.
  destruct (Qeq_bool q 0) eqn:E; [discriminate|].
  pose proof H0 as H0'. apply Qle_bool_iff in H0'. rewrite H0'.
  apply round64_pos_le_5; [|assumption].
  apply Qle_lteq in H0. destruct H0 as [H0|H0]; [assumption|].
  symmetry in H0. apply Qeq_bool_iff in H0. congruence.
Qed.

(** Some doubles: 0.1; 2^53 + 1, a tie that goes to the even neighbour
    2^53; the largest 64-bit integer, which becomes 2^63; half of the
    least subnormal, which becomes 0; and a double, which stays as it is. *)
Lemma round64_examples :
  round64 (1 # 10) = 3602879701896397 # 36028797018963968 /\
  round64 (inject_Z (2 ^ 53 + 1)) = inject_Z (2 ^ 53) /\
  real_of_int (2 ^ 63 - 1) = inject_Z (2 ^ 63) /\
  round64 (pow2 (-1075)) = 0%Q /\
  round64 (round64 (1 # 10)) = round64 (1 # 10).
Proof.
  repeat split; vm_compute; reflexivity.
Qed.

(** ** Sums *)

Lemma fold_left_line_amounts (ls : list cart_item_row) (acc : Q) :
  fold_left real_add (map line_amount ls) acc = lines_total_from acc ls.
Proof.
  revert acc. induction ls as [|l ls IH]; intros acc; simpl; [reflexivity|].
  apply IH.
Qed.

(** The total computed by the [COALESCE(SUM(...), 0)] subquery is the sum
    over the selected lines. *)
Lemma sql_total_is_lines_total (ls : list cart_item_row) :
  coalesce (sql_sum (map line_amount ls)) 0%Q = lines_total ls.
Proof.
  destruct ls as [|l ls]; [reflexivity|].
  apply (fold_left_line_amounts (l :: ls)).
Qed.

Lemma place_line_is_insert (l : cart_item_row) (ls : list cart_item_row) :
  place_line l ls = insert_by ci_software_id l ls.
Proof.
  induction ls as [|x ls IH]; simpl; [reflexivity|]. now rewrite IH.
Qed.

Lemma lines_of_cart_filter (cart_id : Z) (items : list cart_item_row) :
  lines_of_cart cart_id items
  = order_by ci_software_id (filter (fun i => ci_cart_id i =? cart_id) items).
Proof.
  unfold order_by.
  induction items as [|i items IH]; simpl; [reflexivity|].
  destruct (ci_cart_id i =? cart_id); simpl; [|assumption].
  now rewrite place_line_is_insert, IH.
Qed.

(** The lines of a cart, taken by ascending program id, are the rows the
    index search yields. *)
Lemma lines_of_cart_by_index (cart_id : Z) (d : db) :
  lines_of_cart cart_id (rows (cart_items d)) = cart_lines_by_index cart_id d.
Proof.
  apply lines_of_cart_filter.
Qed.

(** A sum of amounts that are not negative is not negative, in doubles
    too. *)
Lemma lines_total_from_nonneg (ls : list cart_item_row) (acc : Q) :
  (0 <= acc)%Q ->
  Forall (fun i => 0 < ci_quantity i /\ Qle 0 (ci_price_at_add i)) ls ->
  (0 <= lines_total_from acc ls)%Q.
Proof.
  intros Hacc H. revert acc Hacc.
  induction H as [|l ls [Hq Hp] _ IH]; intros acc Hacc; simpl; [assumption|].
  apply IH. apply round64_nonneg.
  apply Qle_trans with (0 + 0)%Q; [apply Qle_refl|].
  apply Qplus_le_compat; [assumption|].
  apply round64_nonneg. apply Qmult_le_0_compat; [|assumption].
  apply round64_nonneg. change 0%Q with (inject_Z 0). rewrite <- Zle_Qle. lia.
Qed.

(** ** C1: the cart total invariant *)

Lemma recompute_cart_total_ok (cart_id : Z) (d d' : db) :
  recompute_cart_total cart_id d = Ok d' ->
  cart_items d' = cart_items d /\
  rows (cart d') =
    map (fun c => if c_id c =? cart_id
                  then mk_cart (c_id c) (c_user_id c)
                         (lines_total (cart_lines_by_index cart_id d))
                  else c)
        (rows (cart d)).
Proof.
  unfold recompute_cart_total. rewrite sql_total_is_lines_total.
  destruct (_ && _); intros H; inversion H; subst; simpl; auto.
Qed.

Lemma consistent_after_recompute (cart_id : Z) (d d1 d2 : db) :
  cart_total_consistent d ->
  rows (cart d1) = rows (cart d) ->
  (forall b, b <> cart_id -> cart_lines b d1 = cart_lines b d) ->
  recompute_cart_total cart_id d1 = Ok d2 ->
  cart_total_consistent d2.
Proof.
  intros Hc Hcart Hframe Hr.
  apply recompute_cart_total_ok in Hr. destruct Hr as [Hitems Hrows].
  intros c Hin. rewrite Hrows, Hcart in Hin.
  apply in_map_iff in Hin. destruct Hin as [c0 [Hc0 Hin]].
  rewrite Hitems, lines_of_cart_by_index.
  destruct (c_id c0 =? cart_id) eqn:E.
  - apply Z.eqb_eq in E. subst c; simpl. rewrite E. reflexivity.
  - apply Z.eqb_neq in E. subst c.
    unfold cart_lines_by_index. rewrite Hframe by assumption.
    rewrite (Hc c0 Hin), lines_of_cart_by_index. reflexivity.
Qed.

Lemma keyed_after_recompute (cart_id : Z) (d1 d2 : db) :
  cart_items_keyed d1 -> recompute_cart_total cart_id d1 = Ok d2 -> cart_items_keyed d2.
Proof.
  intros Hk Hr. apply recompute_cart_total_ok in Hr. destruct Hr as [Hitems _].
  unfold cart_items_keyed. now rewrite Hitems.
Qed.

Lemma sql_set_quantity_ok (item_id quantity : Z) (d d1 : db) :
  sql_set_quantity item_id quantity d = Ok d1 ->
  rows (cart d1) = rows (cart d) /\
  seq (cart_items d1) = seq (cart_items d) /\
  rows (cart_items d1) =
    map (fun i => if ci_id i =? item_id
                  then mk_cart_item (ci_id i) (ci_cart_id i) (ci_software_id i)
                         quantity (ci_price_at_add i)
                  else i)
        (rows (cart_items d)).
Proof.
  unfold sql_set_quantity. destruct (negb (int64 quantity)); [discriminate|].
  destruct (_ && _); intros H; inversion H; subst; simpl; auto.
Qed.

Lemma keyed_owner (d : db) (item i : cart_item_row) :
  cart_items_keyed d ->
  In item (rows (cart_items d)) -> In i (rows (cart_items d)) ->
  ci_id i = ci_id item -> ci_cart_id i = ci_cart_id item.
Proof.
  intros [Hnd _] H1 H2 E.
  now rewrite (NoDup_map_eq ci_id _ i item Hnd H2 H1 E).
Qed.

Lemma set_quantity_frame (item : cart_item_row) (quantity : Z) (d d1 : db) :
  cart_items_keyed d ->
  In item (rows (cart_items d)) ->
  sql_set_quantity (ci_id item) quantity d = Ok d1 ->
  cart_items_keyed d1 /\
  rows (cart d1) = rows (cart d) /\
  (forall b, b <> ci_cart_id item -> cart_lines b d1 = cart_lines b d).
Proof.
  intros Hk Hin Hs.
  apply sql_set_quantity_ok in Hs. destruct Hs as [Hcart [Hseq Hrows]].
  split; [|split; [assumption|]].
  - destruct Hk as [Hnd Hle]. unfold cart_items_keyed. rewrite Hrows, Hseq. split.
    + rewrite map_map.
      erewrite map_ext; [exact Hnd|].
      intros a; simpl. now destruct (ci_id a =? ci_id item).
    + apply Forall_map. eapply Forall_impl; [|exact Hle].
      intros a Ha; simpl. now destruct (ci_id a =? ci_id item).
  - intros b Hb. unfold cart_lines. rewrite Hrows.
    apply filter_map_frame. intros x Hx.
    destruct (ci_id x =? ci_id item) eqn:E; [right|now left].
    apply Z.eqb_eq in E. simpl.
    rewrite (keyed_owner d item x Hk Hin Hx E).
    split; apply Z.eqb_neq; auto.
Qed.

Lemma add_to_cart_preserves (user_id software_id quantity : Z) (d d' : db) (id : Z) :
  cart_items_keyed d -> cart_total_consistent d ->
  add_to_cart user_id software_id quantity d = Ok (id, d') ->
  cart_items_keyed d' /\ cart_total_consistent d'.
Proof.
  intros Hk Hc. unfold add_to_cart.
  destruct (negb (int64 user_id)); [discriminate|].
  destruct (find _ (rows (cart d))) as [the_cart|]; [|discriminate].
  destruct (negb (int64 software_id)); [discriminate|].
  destruct (find _ (rows (software d))) as [the_software|]; [|discriminate].
  destruct (find _ (rows (cart_items d))) as [existing|] eqn:Ef; intros H.
  - apply find_some_in in Ef. destruct Ef as [Hin Hp].
    apply andb_true_iff in Hp. destruct Hp as [Hp _]. apply Z.eqb_eq in Hp.
    bind_inv H. bind_inv H. inversion H; subst.
    destruct (set_quantity_frame existing _ d a Hk Hin Ha) as [Hk1 [Hcart Hframe]].
    rewrite Hp in Hframe. split.
    + eapply keyed_after_recompute; eauto.
    + eapply consistent_after_recompute; eauto.
  - bind_inv H. bind_inv H. inversion H; subst. clear H.
    unfold sql_insert_cart_item in Ha.
    destruct (negb (int64 quantity)); [discriminate|].
    destruct (_ || _) eqn:Eg; [discriminate|].
    simpl in Ha. inversion Ha; subst; clear Ha. simpl in Ha0.
    destruct Hk as [Hnd Hle].
    split.
    + eapply keyed_after_recompute; [|exact Ha0].
      unfold cart_items_keyed; simpl. split.
      * apply NoDup_map_snoc with (bound := seq (cart_items d)); simpl; auto; lia.
      * apply Forall_app. split.
        -- eapply Forall_impl; [|exact Hle]. simpl; intros; lia.
        -- constructor; [simpl; lia|constructor].
    + eapply consistent_after_recompute; [exact Hc| | |exact Ha0]; simpl.
      * reflexivity.
      * intros b Hb. unfold cart_lines; simpl.
        apply filter_snoc_frame. simpl. apply Z.eqb_neq. auto.
Qed.

Lemma remove_from_cart_preserves (item_id : Z) (d d' : db) :
  cart_items_keyed d -> cart_total_consistent d ->
  remove_from_cart item_id d = Ok d' ->
  cart_items_keyed d' /\ cart_total_consistent d'.
Proof.
  intros Hk Hc. unfold remove_from_cart.
  destruct (find _ (rows (cart_items d))) as [item|] eqn:Ef; [|discriminate].
  apply find_some_in in Ef. destruct Ef as [Hin Hp]. apply Z.eqb_eq in Hp.
  intros H. split.
  - eapply keyed_after_recompute; [|exact H].
    destruct Hk as [Hnd Hle]. unfold cart_items_keyed; simpl. split.
    + now apply NoDup_map_filter.
    + apply Forall_forall. intros x Hx. apply filter_In in Hx.
      rewrite Forall_forall in Hle. apply Hle. tauto.
  - eapply consistent_after_recompute; [exact Hc| | |exact H]; simpl.
    + reflexivity.
    + intros b Hb. unfold cart_lines; simpl.
      apply filter_filter_frame. intros x Hx Hq.
      apply negb_false_iff in Hq. apply Z.eqb_eq in Hq.
      assert (E : ci_id x = ci_id item) by congruence.
      rewrite (keyed_owner d item x Hk Hin Hx E).
      apply Z.eqb_neq. auto.
Qed.

Lemma update_cart_item_quantity_preserves (item_id quantity : Z) (d d' : db) :
  cart_items_keyed d -> cart_total_consistent d ->
  update_cart_item_quantity item_id quantity d = Ok d' ->
  cart_items_keyed d' /\ cart_total_consistent d'.
Proof.
  intros Hk Hc. unfold update_cart_item_quantity.
  destruct (quantity <=? 0); [now apply remove_from_cart_preserves|].
  destruct (find _ (rows (cart_items d))) as [item|] eqn:Ef; [|discriminate].
  apply find_some_in in Ef. destruct Ef as [Hin Hp]. apply Z.eqb_eq in Hp. subst item_id.
  intros H. bind_inv H.
  destruct (set_quantity_frame item _ d a Hk Hin Ha) as [Hk1 [Hcart Hframe]].
  split.
  - eapply keyed_after_recompute; eauto.
  - eapply consistent_after_recompute; eauto.
Qed.

Lemma run_cart_op_preserves (op : cart_op) (d d' : db) :
  cart_items_keyed d -> cart_total_consistent d ->
  run_cart_op op d = Ok d' ->
  cart_items_keyed d' /\ cart_total_consistent d'.
Proof.
  intros Hk Hc. destruct op; simpl; intros H.
  - bind_inv H. inversion H; subst. destruct a as [id d1].
    eapply add_to_cart_preserves; eauto.
  - eapply update_cart_item_quantity_preserves; eauto.
  - eapply remove_from_cart_preserves; eauto.
Qed.


(** ** Row order *)

Lemma insert_by_in {A : Type} (key : A -> Z) (x y : A) (l : list A) :
  In y (insert_by key x l) <-> y = x \/ In y l.
Proof.
  induction l as [|a l IH]; simpl.
  - intuition.
  - destruct (key x <=? key a); simpl; [intuition|]. rewrite IH. intuition.
Qed.

Lemma order_by_in {A : Type} (key : A -> Z) (y : A) (l : list A) :
  In y (order_by key l) <-> In y l.
Proof.
  induction l as [|a l IH]; simpl; [reflexivity|].
  rewrite insert_by_in, IH. intuition.
Qed.

Lemma insert_by_length {A : Type} (key : A -> Z) (x : A) (l : list A) :
  List.length (insert_by key x l) = S (List.length l).
Proof.
  induction l as [|a l IH]; simpl; [reflexivity|].
  destruct (key x <=? key a); simpl; [reflexivity|]. now rewrite IH.
Qed.

Lemma order_by_length {A : Type} (key : A -> Z) (l : list A) :
  List.length (order_by key l) = List.length l.
Proof.
  induction l as [|a l IH]; simpl; [reflexivity|].
  now rewrite insert_by_length, IH.
Qed.





(** ** Checkout *)

Lemma filter_none {A : Type} (p : A -> bool) (l : list A) :
  (forall x, In x l -> p x = false) -> filter p l = [].
Proof.
  induction l as [|a l IH]; simpl; intros H; [reflexivity|].
  rewrite (H a) by now left. apply IH. intros x Hx. apply H. now right.
Qed.

Lemma find_snoc_fresh {A : Type} (p : A -> bool) (l : list A) (y : A) :
  (forall x, In x l -> p x = false) -> p y = true -> find p (l ++ [y]) = Some y.
Proof.
  induction l as [|a l IH]; simpl; intros H Hy.
  - now rewrite Hy.
  - rewrite (H a) by now left. apply IH; [|assumption].
    intros x Hx. apply H. now right.
Qed.

Lemma find_keyed (l : list software_row) (s : software_row) :
  NoDup (map s_id l) -> In s l -> find (fun x => s_id x =? s_id s) l = Some s.
Proof.
  induction l as [|a l IH]; simpl; intros Hnd Hin; [contradiction|].
  inversion Hnd as [|? ? Hn Hd]; subst.
  destruct Hin as [-> | Hin].
  - now rewrite Z.eqb_refl.
  - destruct (s_id a =? s_id s) eqn:E; [|auto].
    apply Z.eqb_eq in E. exfalso. apply Hn. rewrite E. now apply in_map.
Qed.

Lemma filter_keyed (l : list software_row) (s : software_row) :
  NoDup (map s_id l) -> In s l -> filter (fun x => s_id x =? s_id s) l = [s].
Proof.
  induction l as [|a l IH]; simpl; intros Hnd Hin; [contradiction|].
  inversion Hnd as [|? ? Hn Hd]; subst.
  assert (Hout : forall x, In x l -> s_id x = s_id a -> False).
  { intros x Hx E. apply Hn. rewrite <- E. now apply in_map. }
  destruct Hin as [-> | Hin].
  - rewrite Z.eqb_refl. f_equal.
    clear IH Hnd Hn Hd. induction l as [|b l IHl]; simpl; [reflexivity|].
    destruct (s_id b =? s_id s) eqn:E.
    + apply Z.eqb_eq in E. exfalso. apply (Hout b); simpl; auto.
    + apply IHl. intros x Hx. apply Hout. now right.
  - destruct (s_id a =? s_id s) eqn:E; [|auto].
    apply Z.eqb_eq in E. exfalso. apply (Hout s Hin). auto.
Qed.

Lemma find_map_same_key {A : Type} (p : A -> bool) (f : A -> A) (l : list A) :
  (forall x, p (f x) = p x) -> find p (map f l) = option_map f (find p l).
Proof.
  intros H. induction l as [|a l IH]; simpl; [reflexivity|].
  rewrite H. destruct (p a); auto.
Qed.

Lemma Forall2_impl_in {A B : Type} (R R' : A -> B -> Prop) (l : list A) (l' : list B) :
  (forall x y, In x l -> R x y -> R' x y) -> Forall2 R l l' -> Forall2 R' l l'.
Proof.
  intros H F. induction F as [|x y l l' Hxy F IH]; constructor.
  - apply H; simpl; auto.
  - apply IH. intros a b Ha. apply H. now right.
Qed.

Lemma Forall2_map_l {A B C : Type} (R : B -> C -> Prop) (f : A -> B)
    (l : list A) (l' : list C) :
  Forall2 (fun x y => R (f x) y) l l' -> Forall2 R (map f l) l'.
Proof.
  induction 1; simpl; constructor; auto.
Qed.

(** With the primary key of [software], the join keeps the lines whose
    program is in the catalog, once each, in the order they were read. *)
Lemma join_catalog {A : Type} (key : A -> Z) (catalog : list software_row) (lines : list A) :
  NoDup (map s_id catalog) ->
  map fst (flat_map (fun i => map (fun s => (i, s))
                                  (filter (fun s => s_id s =? key i) catalog))
                    lines)
  = filter (fun i => existsb (fun s => s_id s =? key i) catalog) lines.
Proof.
  intros Hpk. induction lines as [|i lines IH]; simpl; [reflexivity|].
  rewrite map_app, IH.
  destruct (existsb (fun s => s_id s =? key i) catalog) eqn:E.
  - apply existsb_exists in E. destruct E as [s [Hs E]]. apply Z.eqb_eq in E.
    rewrite <- E, (filter_keyed _ s Hpk Hs). reflexivity.
  - rewrite filter_none; [reflexivity|].
    intros s Hs. destruct (s_id s =? key i) eqn:E'; [|reflexivity].
    assert (existsb (fun s => s_id s =? key i) catalog = true)
      by (apply existsb_exists; eauto).
    congruence.
Qed.

(** The join of checkout: every line of the cart whose program the catalog
    still has, by ascending program id, with that program's row. *)
Lemma join_lines (cart_id : Z) (d : db) :
  NoDup (map s_id (rows (software d))) ->
  map fst (cart_items_with_software cart_id d)
    = filter (in_catalog d) (cart_lines_by_index cart_id d) /\
  (forall x, In x (cart_items_with_software cart_id d) ->
             get_software_by_id (ci_software_id (fst x)) d = Some (snd x)).
Proof.
  intros Hpk. unfold cart_items_with_software. split.
  - apply (join_catalog ci_software_id); assumption.
  - intros [ci s] Hin. apply in_flat_map in Hin. destruct Hin as [ci' [_ Hin]].
    apply in_map_iff in Hin. destruct Hin as [s' [E Hin]]. inversion E; subst.
    apply filter_In in Hin. destruct Hin as [Hin Hid]. apply Z.eqb_eq in Hid.
    simpl. unfold get_software_by_id. rewrite <- Hid.
    apply find_keyed; assumption.
Qed.

Lemma cart_lines_by_index_in (cart_id : Z) (d : db) (i : cart_item_row) :
  In i (cart_lines_by_index cart_id d) <->
  In i (rows (cart_items d)) /\ ci_cart_id i = cart_id.
Proof.
  unfold cart_lines_by_index, cart_lines.
  rewrite order_by_in, filter_In, Z.eqb_eq. reflexivity.
Qed.

Lemma with_downloads_twice (s : software_row) (a b : Z) :
  with_downloads (with_downloads s (s_downloads s + a))
                 (s_downloads (with_downloads s (s_downloads s + a)) + b)
  = with_downloads s (s_downloads s + (a + b)).
Proof.
  unfold with_downloads; simpl. f_equal. lia.
Qed.

Lemma add_downloads_lookup (quantity software_id sid : Z) (d : db) :
  get_software_by_id sid (sql_add_downloads quantity software_id d) =
  option_map (fun s => with_downloads s
                         (s_downloads s + if software_id =? sid then quantity else 0))
             (get_software_by_id sid d).
Proof.
  unfold get_software_by_id, sql_add_downloads; simpl.
  rewrite find_map_same_key
    by (intros x; simpl; now destruct (s_id x =? software_id)).
  destruct (find _ (rows (software d))) as [s|] eqn:Ef; simpl; [|reflexivity].
  apply find_some_in in Ef. destruct Ef as [_ Hid]. apply Z.eqb_eq in Hid. subst sid.
  rewrite (Z.eqb_sym software_id).
  destruct (s_id s =? software_id); unfold with_downloads; destruct s; simpl; f_equal.
  f_equal. lia.
Qed.

(** Effect of the loop over the joined cart lines. *)
Lemma copy_loop (purchase_id : Z) (joined : list (cart_item_row * software_row)) (d1 : db) :
  Forall (fun x => 0 < ci_quantity (fst x) /\ Qle 0 (ci_price_at_add (fst x))) joined ->
  exists d2 new_items,
    for_each (copy_cart_line purchase_id) joined d1 = Ok d2 /\
    users d2 = users d1 /\ categories d2 = categories d1 /\ cart d2 = cart d1 /\
    cart_items d2 = cart_items d1 /\ purchase_history d2 = purchase_history d1 /\
    reviews d2 = reviews d1 /\
    rows (purchase_items d2) = rows (purchase_items d1) ++ new_items /\
    Forall2 (copied purchase_id) joined new_items /\
    (forall sid, get_software_by_id sid d2 =
                 option_map (fun s => with_downloads s
                                        (s_downloads s + quantity_of sid (map fst joined)))
                            (get_software_by_id sid d1)).
Proof.
  revert d1. induction joined as [|[ci s] joined IH]; intros d1 Hchk.
  - exists d1, []. simpl. rewrite app_nil_r. repeat split; auto.
    intros sid. destruct (get_software_by_id sid d1) as [s|]; simpl; [|reflexivity].
    unfold with_downloads. destruct s; simpl. do 2 f_equal. lia.
  - inversion Hchk as [|? ? [Hq Hp] Hchk']; subst. simpl in Hq, Hp.
    simpl. unfold sql_insert_purchase_item.
    assert (Eq : (ci_quantity ci <=? 0) = false) by (apply Z.leb_gt; lia).
    assert (Ep : Qle_bool 0 (ci_price_at_add ci) = true) by (now apply Qle_bool_iff).
    rewrite Eq, Ep. simpl.
    set (new := mk_purchase_item _ _ _ _ _ _ _).
    set (d1' := sql_add_downloads _ _ _).
    destruct (IH d1' Hchk') as [d2 [new_items [Hrun [Hu [Hc [Hcart [Hci [Hph [Hr [Hpi [Hf Hsw]]]]]]]]]]].
    exists d2, (new :: new_items). rewrite Hrun.
    repeat split; auto.
    + rewrite Hpi. subst d1'; simpl. now rewrite <- app_assoc.
    + constructor; [|assumption]. subst new. unfold copied; simpl. tauto.
    + intros sid. rewrite Hsw. subst d1'. rewrite add_downloads_lookup.
      unfold get_software_by_id; simpl.
      destruct (find _ (rows (software d1))) as [s0|]; simpl; [|reflexivity].
      f_equal. rewrite with_downloads_twice. reflexivity.
Qed.

Lemma filter_drained {A : Type} (p : A -> bool) (l : list A) :
  filter p (filter (fun x => negb (p x)) l) = [].
Proof.
  induction l as [|a l IH]; simpl; [reflexivity|].
  destruct (p a) eqn:E; simpl; [assumption|]. now rewrite E.
Qed.

(** What a checkout of a cart with a nonzero total does, table by table.
    The lines copied are those whose program the catalog still has. *)
Lemma create_purchase_effect (user_id : Z) (payment_method : option string) (now : Z)
    (d : db) (c : cart_row) :
  cart_checks d ->
  find (fun c => c_user_id c =? user_id) (rows (cart d)) = Some c ->
  ~ (c_total_price c == 0)%Q ->
  exists d' new_items,
    create_purchase user_id payment_method now d
      = Ok (seq (purchase_history d) + 1, d') /\
    rows (purchase_history d') =
      rows (purchase_history d)
      ++ [mk_purchase (seq (purchase_history d) + 1) user_id (c_total_price c)
            payment_method Completed now] /\
    rows (purchase_items d') = rows (purchase_items d) ++ new_items /\
    Forall2 (line_snapshot (seq (purchase_history d) + 1) d)
            (filter (in_catalog d) (cart_lines_by_index (c_id c) d)) new_items /\
    (forall sid,
        get_software_by_id sid d' =
        option_map (fun s => with_downloads s
                               (s_downloads s
                                + quantity_of sid (filter (in_catalog d)
                                                     (cart_lines_by_index (c_id c) d))))
                   (get_software_by_id sid d)) /\
    cart_lines (c_id c) d' = [] /\
    find (fun c => c_user_id c =? user_id) (rows (cart d')) = Some (mk_cart (c_id c) user_id 0).
Proof.
  intros W Hfind Hnz. unfold create_purchase. rewrite Hfind.
  destruct (find_some_in _ _ _ Hfind) as [Hin Huser]. apply Z.eqb_eq in Huser.
  assert (Ez : Qeq_bool (c_total_price c) 0 = false).
  { destruct (Qeq_bool (c_total_price c) 0) eqn:E; [|reflexivity].
    apply Qeq_bool_iff in E. contradiction. }
  rewrite Ez. unfold sql_insert_purchase.
  assert (Et : Qle_bool 0 (c_total_price c) = true).
  { apply Qle_bool_iff. pose proof (checked_cart d W) as F.
    rewrite Forall_forall in F. now apply F. }
  rewrite Et. simpl.
  set (pid := seq (purchase_history d) + 1).
  set (d1 := set_purchase_history _ d).
  change (cart_items_with_software (c_id c) d1)
    with (cart_items_with_software (c_id c) d).
  destruct (join_lines (c_id c) d (checked_software_pk d W)) as [Hfst Hlook].
  assert (Hchk : Forall (fun x => 0 < ci_quantity (fst x) /\ Qle 0 (ci_price_at_add (fst x)))
                        (cart_items_with_software (c_id c) d)).
  { apply Forall_forall. intros x Hx.
    assert (Hl : In (fst x) (filter (in_catalog d) (cart_lines_by_index (c_id c) d)))
      by (rewrite <- Hfst; now apply in_map).
    apply filter_In in Hl. destruct Hl as [Hl _].
    apply cart_lines_by_index_in in Hl. destruct Hl as [Hl _].
    pose proof (checked_cart_items d W) as F. rewrite Forall_forall in F. now apply F. }
  destruct (copy_loop pid _ d1 Hchk)
    as [d2 [new_items [Hrun [Hu [Hc [Hcart [Hci [Hph [Hr [Hpi [Hf Hsw]]]]]]]]]]].
  rewrite Hrun. simpl.
  exists (drain_cart (c_id c) d2), new_items.
  split; [reflexivity|]. split; [|split; [|split; [|split; [|split]]]].
  - simpl. now rewrite Hph.
  - simpl. now rewrite Hpi.
  - rewrite <- Hfst. apply Forall2_map_l.
    eapply Forall2_impl_in; [|exact Hf].
    intros x i Hx [H1 [H2 [H3 [H4 [H5 H6]]]]].
    unfold line_snapshot. repeat split; auto.
    exists (snd x). auto.
  - intros sid. rewrite <- Hfst.
    change (get_software_by_id sid (drain_cart (c_id c) d2))
      with (get_software_by_id sid d2).
    rewrite Hsw. reflexivity.
  - unfold cart_lines, drain_cart. simpl. rewrite Hci. simpl.
    apply (filter_drained (fun i => ci_cart_id i =? c_id c)).
  - unfold drain_cart. simpl. rewrite Hcart. simpl.
    rewrite find_map_same_key
      by (intros x; simpl; now destruct (c_id x =? c_id c)).
    rewrite Hfind. simpl. rewrite Z.eqb_refl. now rewrite Huser.
Qed.

Lemma quantity_of_absent (sid : Z) (ls : list cart_item_row) :
  ~ In sid (map ci_software_id ls) -> quantity_of sid ls = 0.
Proof.
  induction ls as [|a ls IH]; simpl; intros H; [reflexivity|].
  destruct (ci_software_id a =? sid) eqn:E.
  - apply Z.eqb_eq in E. exfalso. apply H. now left.
  - rewrite IH; [reflexivity|]. intros Hin. apply H. now right.
Qed.

Lemma quantity_of_unique (ci : cart_item_row) (ls : list cart_item_row) :
  NoDup (map ci_software_id ls) -> In ci ls ->
  quantity_of (ci_software_id ci) ls = ci_quantity ci.
Proof.
  induction ls as [|a ls IH]; simpl; intros Hnd Hin; [contradiction|].
  inversion Hnd as [|? ? Hn Hd]; subst.
  destruct Hin as [-> | Hin].
  - rewrite Z.eqb_refl, quantity_of_absent by assumption. lia.
  - destruct (ci_software_id a =? ci_software_id ci) eqn:E.
    + apply Z.eqb_eq in E. exfalso. apply Hn. rewrite E. now apply in_map.
    + rewrite IH by assumption. lia.
Qed.


(** Closes schema side conditions on a concrete database. *)
Ltac concrete_in :=
  repeat match goal with
         | H : In _ _ |- _ => simpl in H
         | H : _ \/ _ |- _ => destruct H
         | H : False |- _ => destruct H
         | H : ?x = _ |- _ => subst x
         | H : _ = ?x |- _ => subst x
         end.

Ltac concrete_nodup :=
  repeat (constructor; [simpl; intuition discriminate|]); constructor.

Ltac concrete_forall tac :=
  repeat (constructor; [tac|]); constructor.

Lemma demo_cart_schema : cart_schema demo_cart_db.
Proof.
  constructor; simpl.
  - concrete_nodup.
  - concrete_forall ltac:(simpl; unfold Qle; simpl; lia).
  - concrete_forall ltac:(simpl; unfold Qle; simpl; split; lia).
  - concrete_nodup.
  - concrete_forall ltac:(reflexivity).
Defined.

Lemma demo_cart_checks : cart_checks demo_cart_db.
Proof.
  constructor; simpl.
  - concrete_nodup.
  - concrete_forall ltac:(simpl; unfold Qle; simpl; lia).
  - concrete_forall ltac:(simpl; unfold Qle; simpl; split; lia).
  - concrete_nodup.
Defined.

Lemma demo_dangling_cart_checks : cart_checks demo_dangling_cart_db.
Proof.
  constructor; simpl.
  - concrete_nodup.
  - concrete_forall ltac:(simpl; unfold Qle; simpl; lia).
  - concrete_forall ltac:(simpl; unfold Qle; simpl; split; lia).
  - concrete_nodup.
Defined.

Lemma demo_second_cart_checks : cart_checks demo_second_cart_db.
Proof.
  constructor; simpl.
  - concrete_nodup.
  - concrete_forall ltac:(simpl; unfold Qle; simpl; lia).
  - concrete_forall ltac:(simpl; unfold Qle; simpl; split; lia).
  - concrete_nodup.
Defined.

Lemma demo_second_cart_purchase_schema : purchase_schema demo_second_cart_db.
Proof.
  constructor; simpl.
  - concrete_forall ltac:(simpl; lia).
  - concrete_forall ltac:(reflexivity).
Defined.


(** The sum is the one SQLite computes.  With lines at 0.3, 0.2 and 0.1
    added in that order the stored total is 0.6000000000000001, the double
    sum (0.1 + 0.2) + 0.3 taken by ascending program id; it is neither the
    double nearest to 3/5 nor the sum in the order the lines were added,
    (0.3 + 0.2) + 0.1, which is that double. *)
Lemma cart_total_in_doubles :
  exists d,
    last demo_cents_trace empty_db = d /\
    map ci_software_id (cart_lines 1 d) = [3; 2; 1] /\
    map c_total_price (rows (cart d)) = [1351079888211149 # 2251799813685248] /\
    round64 (3 # 5) = 5404319552844595 # 9007199254740992 /\
    fold_left real_add (map line_amount (cart_lines 1 d)) 0%Q
      = 5404319552844595 # 9007199254740992.
Proof.
  eexists. split; [reflexivity|]. repeat split; vm_compute; reflexivity.
Qed.

(** ** C2: what checkout copies *)

Lemma dangling_cart_reached : delete_software 1 demo_cart_db = Ok demo_dangling_cart_db.
Proof. vm_compute; reflexivity. Qed.

(** C2 on the code.  Ann's cart holds 1 x Editor at 50 and 2 x Compiler at
    30, total 110, when [delete_software] removes the Editor from the
    catalog; the delete succeeds and leaves the cart line behind.
    [create_purchase] then records one purchase with the total of 110, but
    only one purchase line, for the Compiler: the join with the catalog
    yields no row for the Editor's line, so nothing is copied for it and no
    download is counted, and the line is deleted with the rest of the
    cart. *)
Theorem checkout_drops_deleted_program :
  delete_software 1 demo_cart_db = Ok demo_dangling_cart_db /\
  rows (cart_items demo_dangling_cart_db)
    = [mk_cart_item 1 1 1 1 50; mk_cart_item 2 1 2 2 30] /\
  find (fun c => c_user_id c =? 1) (rows (cart demo_dangling_cart_db))
    = Some (mk_cart 1 1 110) /\
  create_purchase 1 (Some "card"%string) 1000 demo_dangling_cart_db
    = Ok (1, demo_dangling_purchase_db) /\
  rows (purchase_history demo_dangling_purchase_db)
    = [mk_purchase 1 1 110 (Some "card"%string) Completed 1000] /\
  rows (purchase_items demo_dangling_purchase_db)
    = [mk_purchase_item 1 1 2 "Compiler" "Initech" 2 30] /\
  rows (cart_items demo_dangling_purchase_db) = [] /\
  find (fun c => c_user_id c =? 1) (rows (cart demo_dangling_purchase_db))
    = Some (mk_cart 1 1 0).
Proof.
  repeat split; vm_compute; reflexivity.
Qed.

(** ** C9: a purchase and its lines *)

Lemma snapshot_total_from (purchase_id : Z) (d : db)
    (ls : list cart_item_row) (new_items : list purchase_item_row) (acc : Q) :
  Forall2 (line_snapshot purchase_id d) ls new_items ->
  fold_left (fun acc l =>
               round64 (acc + round64 (round64 (inject_Z (pi_quantity l))
                                       * pi_price_at_purchase l)))
            new_items acc
  = lines_total_from acc ls.
Proof.
  intros F. revert acc.
  induction F as [|ci i ls new_items [_ [_ [Hq [Hp _]]]] _ IH]; intros acc; simpl.
  - reflexivity.
  - rewrite IH, Hq, Hp. reflexivity.
Qed.

(** Purchase lines that are snapshots of cart lines add up to what those
    cart lines add up to. *)
Lemma snapshot_total (purchase_id : Z) (d : db)
    (ls : list cart_item_row) (new_items : list purchase_item_row) :
  Forall2 (line_snapshot purchase_id d) ls new_items ->
  purchase_lines_total new_items = lines_total ls.
Proof.
  apply snapshot_total_from.
Qed.

Lemma snapshot_owner (purchase_id : Z) (d : db)
    (ls : list cart_item_row) (new_items : list purchase_item_row) :
  Forall2 (line_snapshot purchase_id d) ls new_items ->
  filter (fun i => pi_purchase_id i =? purchase_id) new_items = new_items.
Proof.
  induction 1 as [|ci i ls new_items [Hid _] _ IH]; simpl.
  - reflexivity.
  - rewrite Hid, Z.eqb_refl, IH. reflexivity.
Qed.

(** C9 on the code.  In the database above every cart carries the sum over
    its lines - Ann's 110 = 1 x 50 + 2 x 30 - as checkout begins.  The
    purchase [create_purchase] creates stores 110, while its only purchase
    line adds up to 60. *)
Theorem purchase_total_exceeds_lines :
  cart_total_consistent demo_dangling_cart_db /\
  create_purchase 1 (Some "card"%string) 1000 demo_dangling_cart_db
    = Ok (1, demo_dangling_purchase_db) /\
  option_map ph_total_price (get_purchase_by_id 1 demo_dangling_purchase_db) = Some 110%Q /\
  purchase_lines_total (get_purchase_items 1 demo_dangling_purchase_db) = 60%Q.
Proof.
  split; [|repeat split; vm_compute; reflexivity].
  intros c Hc. simpl in Hc. concrete_in; reflexivity.
Qed.

(** ** C10: quantity updates on a missing cart line *)



(** ** C3: the empty-cart check of checkout *)

(** The loop of checkout can only fail on a [CHECK] of [purchase_items]. *)
Lemma copy_loop_raises (purchase_id : Z) (joined : list (cart_item_row * software_row))
    (d : db) (e : exn) :
  for_each (copy_cart_line purchase_id) joined d = Raise e -> e = IntegrityError.
Proof.
  revert d. induction joined as [|[ci s] joined IH]; simpl; intros d H; [discriminate|].
  unfold sql_insert_purchase_item in H.
  destruct (_ || _); simpl in H; [now inversion H|].
  now apply IH in H.
Qed.

Lemma free_cart_reached : demo_free_cart = Ok demo_free_cart_db.
Proof. vm_compute; reflexivity. Qed.

(** A cart holding only a free program has lines and a zero total; the
    database is reached from the empty one through [add_category],
    [add_software], [add_user] and [add_to_cart]. *)
Lemma zero_total_with_lines :
  demo_free_cart = Ok demo_free_cart_db /\
  cart_total_consistent demo_free_cart_db /\
  cart_lines 2 demo_free_cart_db <> [] /\
  create_purchase 2 None 1000 demo_free_cart_db = Raise (ValueError (CartIsEmpty 2)) /\
  ~ zero_total_iff_no_lines demo_free_cart_db.
Proof.
  split; [exact free_cart_reached|]. split; [|split; [|split]].
  - intros c Hc. simpl in Hc. concrete_in; reflexivity.
  - vm_compute. discriminate.
  - vm_compute. reflexivity.
  - intros H.
    assert (Hin : In (mk_cart 2 2 0) (rows (cart demo_free_cart_db)))
      by (simpl; auto).
    apply H in Hin. destruct Hin as [Hlines _].
    assert (Hz : (c_total_price (mk_cart 2 2 0) == 0)%Q) by reflexivity.
    apply Hlines in Hz. vm_compute in Hz. discriminate Hz.
Qed.

(** C3, as the code has it.  [create_purchase] raises 'Cart is empty', and
    leaves the database as it was, exactly when the total of the user's cart
    is zero.  In a database whose carts carry the sum of their lines a cart
    without lines has a zero total and is rejected; nothing is said of the
    converse. *)
Theorem create_purchase_empty_cart (user_id : Z) (payment_method : option string)
    (now : Z) (d : db) (c : cart_row) :
  cart_total_consistent d ->
  find (fun c => c_user_id c =? user_id) (rows (cart d)) = Some c ->
  (create_purchase user_id payment_method now d = Raise (ValueError (CartIsEmpty user_id))
   <-> (c_total_price c == 0)%Q) /\
  ((c_total_price c == 0)%Q ->
   state_after (create_purchase user_id payment_method now d) d = d) /\
  (cart_lines (c_id c) d = [] ->
   create_purchase user_id payment_method now d = Raise (ValueError (CartIsEmpty user_id))).
Proof.
  intros Hc Hfind.
  assert (Hz : (c_total_price c == 0)%Q ->
               create_purchase user_id payment_method now d
               = Raise (ValueError (CartIsEmpty user_id))).
  { intros Hz. apply Qeq_bool_iff in Hz. unfold create_purchase. now rewrite Hfind, Hz. }
  split; [split|split].
  - unfold create_purchase. rewrite Hfind.
    destruct (Qeq_bool (c_total_price c) 0) eqn:E.
    + intros _. now apply Qeq_bool_iff.
    + intros H. exfalso. revert H. unfold sql_insert_purchase.
      destruct (negb _); simpl; [discriminate|].
      destruct (for_each _ _ _) as [d2|e] eqn:Ef; simpl; [discriminate|].
      apply copy_loop_raises in Ef. subst e. discriminate.
  - exact Hz.
  - intros H. now rewrite (Hz H).
  - intros Hl. apply Hz. apply find_some_in in Hfind. destruct Hfind as [Hin _].
    rewrite (Hc c Hin), lines_of_cart_by_index.
    unfold cart_lines_by_index. rewrite Hl. reflexivity.
Qed.

Lemma create_purchase_empty_cart_witness :
  create_purchase 2 None 1000 demo_free_cart_db = Raise (ValueError (CartIsEmpty 2)) /\
  create_purchase 2 None 1000 demo_cart_db = Raise (ValueError (CartIsEmpty 2)).
Proof.
  split.
  - destruct (create_purchase_empty_cart 2 None 1000 demo_free_cart_db (mk_cart 2 2 0))
      as [[_ H] _].
    + intros c Hc. simpl in Hc. concrete_in; reflexivity.
    + vm_compute; reflexivity.
    + apply H. reflexivity.
  - destruct (create_purchase_empty_cart 2 None 1000 demo_cart_db (mk_cart 2 2 0))
      as [_ [_ H]].
    + intros c Hc. simpl in Hc. concrete_in; reflexivity.
    + vm_compute; reflexivity.
    + apply H. vm_compute; reflexivity.
Defined.

(** ** C7: deleting referenced categories and programs *)

(** On the connections [db.py] opens, neither delete can raise. *)
Lemma deletes_never_raise (id : Z) (d : db) :
  (exists d', delete_category id d = Ok d') /\ (exists d', delete_software id d = Ok d').
Proof.
  split; eexists; reflexivity.
Qed.

(** On a connection that enforces foreign keys the same statements are
    refused for a referenced row. *)
Lemma enforced_deletes_refused :
  sql_delete_category (mk_connection true) 1 demo_purchased_db = Raise IntegrityError /\
  sql_delete_software (mk_connection true) 1 demo_purchased_db = Raise IntegrityError /\
  sql_delete_software (mk_connection true) 1 demo_cart_db = Raise IntegrityError.
Proof.
  repeat split; vm_compute; reflexivity.
Qed.

(** C7 on the code.  Category 1 is referenced by three programs, program 1
    by a purchase line of Ann's purchase and, in [demo_cart_db], by a line of
    her cart.  [delete_category 1] and [delete_software 1] nevertheless
    succeed and remove the row, leaving the referencing rows in place. *)
Theorem referenced_rows_deleted :
  (exists d',
      delete_category 1 demo_purchased_db = Ok d' /\
      rows (categories d') = [] /\
      map s_category_id (rows (software d')) = [1; 1; 1]) /\
  (exists d',
      delete_software 1 demo_purchased_db = Ok d' /\
      map s_id (rows (software d')) = [2; 3] /\
      map pi_software_id (rows (purchase_items d')) = [1; 2]) /\
  (exists d',
      delete_software 1 demo_cart_db = Ok d' /\
      map s_id (rows (software d')) = [2; 3] /\
      map ci_software_id (rows (cart_items d')) = [1; 2]).
Proof.
  repeat split; eexists; repeat split; vm_compute; reflexivity.
Qed.

(** After such a delete Ann's cart holds a line whose program is gone;
    checking out then records the cart's total of 110 but copies only the
    line whose program still exists. *)
Lemma checkout_after_delete :
  exists d1 d2,
    delete_software 1 demo_cart_db = Ok d1 /\
    create_purchase 1 None 1000 d1 = Ok (1, d2) /\
    map ph_total_price (rows (purchase_history d2)) = [110%Q] /\
    map pi_software_id (rows (purchase_items d2)) = [2] /\
    cart_lines 1 d2 = [].
Proof.
  exists (committed (delete_software 1 demo_cart_db)).
  exists (committed (r <- create_purchase 1 None 1000
                          (committed (delete_software 1 demo_cart_db)) ;; Ok (snd r))).
  repeat split; vm_compute; reflexivity.
Qed.

(** ** C4: who may submit a review *)

(** The eligibility query holds exactly when some completed purchase of the
    user has a line for the program. *)
Lemma user_has_purchased_software_iff (user_id software_id : Z) (d : db) :
  user_has_purchased_software user_id software_id d = true <->
  exists p i,
    In p (rows (purchase_history d)) /\ In i (rows (purchase_items d)) /\
    pi_purchase_id i = ph_id p /\ ph_user_id p = user_id /\
    pi_software_id i = software_id /\ ph_status p = Completed.
Proof.
  unfold user_has_purchased_software. rewrite existsb_exists. split.
  - intros [i [Hi H]]. apply existsb_exists in H. destruct H as [p [Hp H]].
    apply andb_true_iff in H. destruct H as [H Hst].
    apply andb_true_iff in H. destruct H as [H Hsw].
    apply andb_true_iff in H. destruct H as [Hid Hu].
    apply Z.eqb_eq in Hid, Hu, Hsw.
    exists p, i. repeat split; auto. now destruct (ph_status p).
  - intros [p [i [Hp [Hi [Hid [Hu [Hsw Hst]]]]]]].
    exists i. split; [assumption|]. apply existsb_exists.
    exists p. split; [assumption|].
    rewrite Hid, Hu, Hsw, Hst, !Z.eqb_refl. reflexivity.
Qed.

(** A review saved through [POST /software/<id>/review] comes from a user
    with a completed purchase of the program. *)
Lemma add_software_review_saved (user_id software_id : Z) (rating : option Z)
    (comment : string) (now : Z) (d d' : db) :
  add_software_review user_id software_id rating comment now d = Ok (ReviewSaved, d') ->
  user_has_purchased_software user_id software_id d = true.
Proof.
  unfold add_software_review.
  destruct (user_has_purchased_software user_id software_id d); [reflexivity|].
  simpl. discriminate.
Qed.

(** [POST /software/<id>/review] refuses users without a completed purchase
    of the program and writes nothing. *)
Lemma add_software_review_gated (user_id software_id : Z) (rating : option Z)
    (comment : string) (now : Z) (d : db) :
  user_has_purchased_software user_id software_id d = false ->
  add_software_review user_id software_id rating comment now d
    = Ok (OnlyBuyersMayReview, d).
Proof.
  intros H. unfold add_software_review. now rewrite H.
Qed.

(** C4 on the code.  Bob has bought nothing, and
    [POST /software/1/review] refuses him; [POST /add_review/1] accepts the
    same submission, stores the review and recomputes the program's rating. *)
Theorem add_review_route_ungated :
  user_has_purchased_software 2 1 demo_purchased_db = false /\
  add_software_review 2 1 (Some 2) "meh" 3000 demo_purchased_db
    = Ok (OnlyBuyersMayReview, demo_purchased_db) /\
  exists d',
    add_review_route 2 1 (Some 2) "meh" 3000 demo_purchased_db = (ThanksForReview, d') /\
    rows (reviews d') = [mk_review 1 2 1 2 (Some "meh"%string) 3000] /\
    option_map s_rating_avg (get_software_by_id 1 d') = Some (Some (2 # 1)).
Proof.
  split; [vm_compute; reflexivity|]. split; [vm_compute; reflexivity|].
  eexists. repeat split; vm_compute; reflexivity.
Qed.

(** ** C8: purchase lines are out of reach of catalog edits *)

(** The dictionary built from a joined row takes every entry from the
    purchase line: ["software_name"] is found first among the columns of
    [purchase_items]. *)
Lemma history_entry_of_line (i : purchase_item_row) (s : software_row) :
  history_entry (history_join_row i s)
  = inl (VInt (pi_purchase_id i),
         mk_history_item (VInt (pi_id i)) (VInt (pi_software_id i))
           (VText (pi_software_name i)) (VInt (pi_quantity i))
           (VReal (pi_price_at_purchase i))).
Proof. reflexivity. Qed.

Lemma group_history_lines (l l' : list (purchase_item_row * software_row))
    (acc : list (sql_value * list history_item)) :
  map fst l = map fst l' ->
  group_history (map (fun r => history_join_row (fst r) (snd r)) l) acc
  = group_history (map (fun r => history_join_row (fst r) (snd r)) l') acc.
Proof.
  revert l' acc. induction l as [|[i s] l IH]; intros [|[i' s'] l'] acc H;
    simpl in H; try discriminate; [reflexivity|].
  inversion H; subst. cbn [map group_history fst snd].
  rewrite !history_entry_of_line. cbn [sum_bind]. now apply IH.
Qed.

Lemma insert_by_map {A B : Type} (f : A -> B) (key : B -> Z) (x : A) (l : list A) :
  map f (insert_by (fun a => key (f a)) x l) = insert_by key (f x) (map f l).
Proof.
  induction l as [|y l IH]; simpl; [reflexivity|].
  destruct (key (f x) <=? key (f y)); simpl; [reflexivity|]. now rewrite IH.
Qed.

Lemma order_by_map {A B : Type} (f : A -> B) (key : B -> Z) (l : list A) :
  map f (order_by (fun a => key (f a)) l) = order_by key (map f l).
Proof.
  unfold order_by. induction l as [|x l IH]; simpl; [reflexivity|].
  now rewrite insert_by_map, IH.
Qed.

Lemma join_lines_of_edit {A B : Type} (p : A -> B -> bool) (f : B -> B)
    (lines : list A) (catalog : list B) :
  (forall a b, p a (f b) = p a b) ->
  map fst (flat_map (fun a => map (fun b => (a, b)) (filter (p a) (map f catalog))) lines)
  = map fst (flat_map (fun a => map (fun b => (a, b)) (filter (p a) catalog)) lines).
Proof.
  intros H. induction lines as [|a lines IH]; simpl; [reflexivity|].
  rewrite !map_app, IH. f_equal.
  clear IH. induction catalog as [|b catalog IHc]; simpl; [reflexivity|].
  rewrite H. destruct (p a b); simpl; now rewrite IHc.
Qed.

(** An edit rewrites catalog rows in place, keeping their ids. *)
Lemma update_software_ok (software_id : Z) (name description : option string)
    (price : option Q) (category_id : option Z) (developer image_url : option string)
    (d d' : db) :
  update_software software_id name description price category_id developer image_url d
    = Ok d' ->
  purchase_history d' = purchase_history d /\
  purchase_items d' = purchase_items d /\
  exists f, (forall s, s_id (f s) = s_id s) /\
            rows (software d') = map f (rows (software d)).
Proof.
  unfold update_software. intros H.
  assert (Hid : purchase_history d = purchase_history d /\
                purchase_items d = purchase_items d /\
                exists f, (forall s, s_id (f s) = s_id s) /\
                          rows (software d) = map f (rows (software d))).
  { repeat split. exists (fun s => s). split; [reflexivity|]. now rewrite map_id. }
  destruct name, description, price, category_id, developer, image_url;
    try (inversion H; subst; exact Hid);
    (destruct (_ && _); [discriminate|]; inversion H; subst; simpl;
     repeat split; eexists; split; [|reflexivity];
     intros row; simpl; now destruct (s_id row =? software_id)).
Qed.

(** C8. Whatever [update_software] changes in the catalog, the rows of
    [purchase_items] stay as they are, and so do the answers of the
    purchase-history reads: [get_purchase_items] for every purchase and
    [get_purchases_with_items] for every user and limit, including the name
    and price shown for every line. *)
Theorem update_software_keeps_history (software_id : Z) (name description : option string)
    (price : option Q) (category_id : option Z) (developer image_url : option string)
    (d d' : db) :
  update_software software_id name description price category_id developer image_url d
    = Ok d' ->
  rows (purchase_items d') = rows (purchase_items d) /\
  (forall purchase_id, get_purchase_items purchase_id d' = get_purchase_items purchase_id d) /\
  (forall user_id limit,
      get_purchases_with_items user_id limit d' = get_purchases_with_items user_id limit d).
Proof.
  intros H. apply update_software_ok in H.
  destruct H as [Hph [Hpi [f [Hf Hsw]]]].
  split; [now rewrite Hpi|]. split.
  - intros purchase_id. unfold get_purchase_items. now rewrite Hpi.
  - intros user_id limit. unfold get_purchases_with_items. rewrite Hph.
    destruct (sql_limit limit _) as [|p purchases]; [reflexivity|].
    replace (group_history (history_items_rows (map ph_id (p :: purchases)) d') [])
      with (group_history (history_items_rows (map ph_id (p :: purchases)) d) []);
      [reflexivity|].
    unfold history_items_rows. apply group_history_lines.
    rewrite !(order_by_map fst pi_id). f_equal.
    rewrite Hpi, Hsw. symmetry.
    apply (join_lines_of_edit (fun i s => s_id s =? pi_software_id i)).
    intros a b. now rewrite Hf.
Qed.

Lemma update_software_keeps_history_witness :
  exists d',
    update_software 1 (Some "Editor Pro"%string) None (Some 99%Q) None None None
      demo_purchased_db = Ok d' /\
    option_map s_name (get_software_by_id 1 d') = Some "Editor Pro"%string /\
    rows (purchase_items d') = rows (purchase_items demo_purchased_db) /\
    (forall purchase_id,
        get_purchase_items purchase_id d' = get_purchase_items purchase_id demo_purchased_db) /\
    (forall user_id limit,
        get_purchases_with_items user_id limit d'
        = get_purchases_with_items user_id limit demo_purchased_db).
Proof.
  exists demo_renamed_db.
  split; [vm_compute; reflexivity|]. split; [vm_compute; reflexivity|].
  apply (update_software_keeps_history 1 (Some "Editor Pro"%string) None (Some 99%Q)
           None None None demo_purchased_db demo_renamed_db).
  vm_compute; reflexivity.
Defined.

(** What Ann's purchase history shows after the rename: the line still
    reads "Editor" at 50. *)
Lemma history_after_rename :
  get_purchases_with_items 1 None demo_renamed_db
  = inl [ (mk_purchase 1 1 110 (Some "card"%string) Completed 1000,
           [ mk_history_item (VInt 1) (VInt 1) (VText "Editor") (VInt 1) (VReal 50);
             mk_history_item (VInt 2) (VInt 2) (VText "Compiler") (VInt 2) (VReal 30) ]) ].
Proof. vm_compute; reflexivity. Qed.

(** ** C6: the rating aggregate *)

Lemma fold_left_Zadd_acc (xs : list Z) (acc : Z) :
  fold_left Z.add xs acc = acc + fold_right Z.add 0 xs.
Proof.
  revert acc. induction xs as [|x xs IH]; intros acc; simpl; [lia|].
  rewrite IH. lia.
Qed.

Lemma fold_left_ratings (xs : list Z) :
  fold_left Z.add xs 0 = fold_right Z.add 0 xs.
Proof.
  now rewrite fold_left_Zadd_acc.
Qed.

(** The rows [AVG] reads are the reviews of the program. *)
Lemma reviews_of_program_selected (software_id : Z) (d : db) :
  reviews_of_program software_id (rows (reviews d)) = software_reviews software_id d.
Proof.
  unfold software_reviews.
  induction (rows (reviews d)) as [|r rs IH]; simpl; [reflexivity|].
  now rewrite IH.
Qed.

Lemma avg_is_mean (rs : list review_row) :
  rs <> [] -> sql_avg (map r_rating rs) = Some (mean_rating rs).
Proof.
  destruct rs as [|r rs]; [congruence|]. intros _.
  unfold sql_avg, mean_rating, real_div.
  rewrite fold_left_ratings, length_map. reflexivity.
Qed.

Lemma or_zero_avg_is_mean (rs : list review_row) :
  (or_zero (sql_avg (map r_rating rs)) == mean_rating rs)%Q.
Proof.
  destruct rs as [|r rs]; [reflexivity|].
  rewrite avg_is_mean by discriminate. unfold or_zero.
  destruct (Qeq_bool _ 0) eqn:E; [|reflexivity].
  apply Qeq_bool_iff in E. now rewrite E.
Qed.

Lemma sql_set_rating_avg_ok (avg : option Q) (software_id : Z) (d1 d2 : db) :
  sql_set_rating_avg avg software_id d1 = Ok d2 ->
  reviews d2 = reviews d1 /\
  (forall s, In s (rows (software d2)) -> s_id s = software_id -> s_rating_avg s = avg).
Proof.
  unfold sql_set_rating_avg.
  destruct (_ && _); intros H; inversion H; subst; simpl. split; [reflexivity|].
  intros s Hin Hid. apply in_map_iff in Hin. destruct Hin as [s0 [E Hin]].
  destruct (s_id s0 =? software_id) eqn:E0; subst s; simpl; [reflexivity|].
  apply Z.eqb_neq in E0. contradiction.
Qed.

(** Storing the aggregate computed from the table as it then stands. *)
Lemma stored_avg_is_mean (software_id : Z) (d1 d2 : db) (s : software_row) :
  sql_set_rating_avg (Some (or_zero (avg_rating_of software_id d1))) software_id d1 = Ok d2 ->
  In s (rows (software d2)) -> s_id s = software_id ->
  exists q, s_rating_avg s = Some q /\
            (q == mean_rating (reviews_of_program software_id (rows (reviews d2))))%Q.
Proof.
  intros H Hin Hid. apply sql_set_rating_avg_ok in H. destruct H as [Hr Hs].
  eexists. split; [now apply Hs|].
  rewrite Hr, reviews_of_program_selected. apply or_zero_avg_is_mean.
Qed.

Lemma stored_raw_avg_is_mean (software_id : Z) (d1 d2 : db) (s : software_row) :
  software_reviews software_id d1 <> [] ->
  sql_set_rating_avg (avg_rating_of software_id d1) software_id d1 = Ok d2 ->
  In s (rows (software d2)) -> s_id s = software_id ->
  exists q, s_rating_avg s = Some q /\
            (q == mean_rating (reviews_of_program software_id (rows (reviews d2))))%Q.
Proof.
  intros Hne H Hin Hid. apply sql_set_rating_avg_ok in H. destruct H as [Hr Hs].
  eexists. split.
  - rewrite (Hs s Hin Hid). unfold avg_rating_of. now apply avg_is_mean.
  - rewrite Hr, reviews_of_program_selected. reflexivity.
Qed.

Lemma filter_has {A : Type} (p : A -> bool) (l : list A) (x : A) :
  In x l -> p x = true -> filter p l <> [].
Proof.
  intros Hin Hp E.
  assert (H : In x (filter p l)) by (apply filter_In; auto).
  rewrite E in H. contradiction.
Qed.

Lemma sql_insert_review_ok (user_id software_id rating : Z) (comment : option string)
    (now : Z) (d : db) (r : Z * db) :
  sql_insert_review user_id software_id rating comment now d = Ok r ->
  fst r = seq (reviews d) + 1 /\
  seq (reviews (snd r)) = seq (reviews d) + 1 /\
  rows (reviews (snd r))
  = rows (reviews d) ++ [mk_review (seq (reviews d) + 1) user_id software_id rating comment now] /\
  (forall x, In x (rows (reviews d)) ->
             (r_user_id x =? user_id) && (r_software_id x =? software_id) = false).
Proof.
  unfold sql_insert_review.
  destruct (negb _ || _) eqn:E; [discriminate|].
  simpl. intros H. inversion H; subst; simpl. repeat split.
  apply orb_false_iff in E. destruct E as [_ E].
  intros x Hx. destruct (_ && _) eqn:Ex; [|reflexivity].
  assert (Ht : existsb (fun r => (r_user_id r =? user_id) && (r_software_id r =? software_id))
                       (rows (reviews d)) = true)
    by (apply existsb_exists; eauto).
  congruence.
Qed.

Lemma sql_update_review_ok (review_id : Z) (rating : option Z) (comment : option string)
    (d d1 : db) :
  sql_update_review review_id rating comment d = Ok d1 ->
  seq (reviews d1) = seq (reviews d) /\
  rows (reviews d1)
  = map (fun r => if r_id r =? review_id
                  then mk_review (r_id r) (r_user_id r) (r_software_id r)
                         (coalesce rating (r_rating r))
                         (match comment with Some x => Some x | None => r_comment r end)
                         (r_created_at r)
                  else r)
        (rows (reviews d)).
Proof.
  unfold sql_update_review.
  destruct (_ && _); intros H; inversion H; subst; simpl; auto.
Qed.

(** C6. After a successful review mutation - [add_or_update_review],
    [add_review], [update_review] with a rating or a comment,
    [delete_review] - every catalog row of the program whose review was
    touched stores as [rating_avg] the arithmetic mean of the ratings of the
    program's reviews in the resulting database, 0 when none is left.  The
    mean is the REAL one: the sum of the ratings divided by their number,
    rounded to the nearest double. *)
Theorem rating_avg_is_mean (op : review_op) (now : Z) (d d' : db)
    (software_id : Z) (s : software_row) :
  run_review_op op now d = Ok d' ->
  writes_review op = true ->
  reviewed_software op d = Some software_id ->
  In s (rows (software d')) -> s_id s = software_id ->
  exists q, s_rating_avg s = Some q /\
            (q == mean_rating (reviews_of_program software_id (rows (reviews d'))))%Q.
Proof.
  intros Hrun Hw Hsid Hin Hid.
  destruct op as [u sw rating text | u sw rating comment | rid rating comment | rid];
    simpl in Hrun, Hsid.
  - inversion Hsid; subst sw. unfold add_or_update_review in Hrun.
    bind_inv Hrun. eapply stored_avg_is_mean; eauto.
  - inversion Hsid; subst sw. bind_inv Hrun. inversion Hrun; subst; clear Hrun.
    unfold add_review in Ha. bind_inv Ha. bind_inv Ha. inversion Ha; subst; clear Ha.
    simpl in *. apply sql_insert_review_ok in Ha0. destruct Ha0 as [_ [_ [Hrows _]]].
    eapply stored_raw_avg_is_mean; eauto.
    unfold software_reviews. rewrite Hrows.
    eapply filter_has; [apply in_or_app; right; left; reflexivity|].
    simpl. apply Z.eqb_refl.
  - unfold update_review in Hrun.
    assert (Hgo : (d1 <- sql_update_review rid rating comment d ;;
                   match find (fun r => r_id r =? rid) (rows (reviews d1)) with
                   | None => Raise TypeError
                   | Some review =>
                       sql_set_rating_avg (avg_rating_of (r_software_id review) d1)
                         (r_software_id review) d1
                   end) = Ok d').
    { destruct rating, comment; try exact Hrun. discriminate Hw. }
    clear Hrun. bind_inv Hgo.
    destruct (sql_update_review_ok _ _ _ _ _ Ha) as [_ Hrows].
    destruct (find _ (rows (reviews a))) as [review|] eqn:Ef; [|discriminate].
    assert (Es : r_software_id review = software_id).
    { rewrite Hrows in Ef.
      rewrite find_map_same_key in Ef
        by (intros x; simpl; destruct (r_id x =? rid) eqn:E; simpl; assumption).
      destruct (find _ (rows (reviews d))) as [r0|]; simpl in *; [|discriminate].
      inversion Hsid; inversion Ef; subst.
      now destruct (r_id r0 =? rid). }
    rewrite Es in Hgo.
    eapply stored_raw_avg_is_mean; eauto.
    apply find_some_in in Ef. destruct Ef as [Hr _].
    unfold software_reviews. eapply filter_has; [exact Hr|].
    apply Z.eqb_eq. exact Es.
  - unfold delete_review in Hrun.
    destruct (find _ (rows (reviews d))) as [review|]; [|discriminate].
    simpl in Hsid. inversion Hsid; subst.
    eapply stored_avg_is_mean; eauto.
Qed.

Lemma rating_avg_is_mean_witness :
  exists q,
    s_rating_avg (nth 0 (rows (software demo_two_reviews_db)) demo_editor) = Some q /\
    (q == mean_rating (reviews_of_program 1 (rows (reviews demo_two_reviews_db))))%Q.
Proof.
  apply (rating_avg_is_mean (DeleteReview 3) 0 demo_three_reviews_db demo_two_reviews_db 1).
  - vm_compute; reflexivity.
  - reflexivity.
  - vm_compute; reflexivity.
  - vm_compute. left; reflexivity.
  - vm_compute; reflexivity.
Defined.

(** Ratings 4, 5, 3 average to 4; without the 3, to 4.5; without reviews the
    stored average is 0.  Ratings 4, 1, 3 average to 2.6666666666666665, the
    double nearest to 8/3. *)
Lemma rating_examples :
  sql_avg [4; 1; 3] = Some (6004799503160661 # 2251799813685248) /\
  (exists q, option_map s_rating_avg (get_software_by_id 1 demo_three_reviews_db)
             = Some (Some q) /\ (q == 4)%Q) /\
  (exists q, option_map s_rating_avg (get_software_by_id 1 demo_two_reviews_db)
             = Some (Some q) /\ (q == 9 # 2)%Q) /\
  (exists q, option_map s_rating_avg (get_software_by_id 1 demo_no_reviews_db)
             = Some (Some q) /\ (q == 0)%Q).
Proof.
  split; [vm_compute; reflexivity|].
  repeat split; eexists; (split; [vm_compute; reflexivity|reflexivity]).
Qed.

(** ** C5: one review per user and program *)

Lemma NoDup_snoc {A : Type} (l : list A) (x : A) :
  NoDup l -> ~ In x l -> NoDup (l ++ [x]).
Proof.
  intros Hnd Hx. apply NoDup_rev in Hnd.
  rewrite <- (rev_involutive (l ++ [x])). apply NoDup_rev.
  rewrite rev_app_distr. simpl. constructor; [|assumption].
  now rewrite <- in_rev.
Qed.

Lemma find_split {A : Type} (p : A -> bool) (l : list A) (x : A) :
  find p l = Some x -> exists before after, l = before ++ x :: after.
Proof.
  induction l as [|a l IH]; simpl; [discriminate|].
  destruct (p a).
  - intros H. inversion H; subst. now exists [], l.
  - intros H. destruct (IH H) as [before [after E]].
    exists (a :: before), after. now rewrite E.
Qed.

Lemma map_unchanged {A : Type} (f : A -> A) (l : list A) :
  (forall x, In x l -> f x = x) -> map f l = l.
Proof.
  induction l as [|a l IH]; simpl; intros H; [reflexivity|].
  rewrite H by now left. rewrite IH; [reflexivity|].
  intros x Hx. apply H. now right.
Qed.

Lemma unique_after_insert (user_id software_id rating : Z) (comment : option string)
    (now : Z) (d : db) (r : Z * db) :
  reviews_unique d ->
  sql_insert_review user_id software_id rating comment now d = Ok r ->
  reviews_unique (snd r).
Proof.
  intros Hu H. apply sql_insert_review_ok in H. destruct H as [_ [_ [Hrows Hnone]]].
  unfold reviews_unique. rewrite Hrows, map_app. simpl.
  apply NoDup_snoc; [exact Hu|].
  intros Hin. apply in_map_iff in Hin. destruct Hin as [x [E Hx]].
  inversion E. apply Hnone in Hx.
  rewrite H0, H1, !Z.eqb_refl in Hx. discriminate.
Qed.

Lemma unique_after_update (review_id : Z) (rating : option Z) (comment : option string)
    (d d1 : db) :
  reviews_unique d ->
  sql_update_review review_id rating comment d = Ok d1 ->
  reviews_unique d1.
Proof.
  intros Hu H. apply sql_update_review_ok in H. destruct H as [_ Hrows].
  unfold reviews_unique. rewrite Hrows, map_map.
  erewrite map_ext; [exact Hu|].
  intros a; simpl. now destruct (r_id a =? review_id).
Qed.

Lemma unique_after_avg (avg : option Q) (software_id : Z) (d1 d2 : db) :
  reviews_unique d1 -> sql_set_rating_avg avg software_id d1 = Ok d2 -> reviews_unique d2.
Proof.
  intros Hu H. apply sql_set_rating_avg_ok in H. destruct H as [Hr _].
  unfold reviews_unique. now rewrite Hr.
Qed.

(** No review operation leaves two rows for one user and program. *)
Lemma reviews_unique_preserved (op : review_op) (now : Z) (d d' : db) :
  reviews_unique d -> run_review_op op now d = Ok d' -> reviews_unique d'.
Proof.
  intros Hu Hrun.
  destruct op as [u sw rating text | u sw rating comment | rid rating comment | rid];
    simpl in Hrun.
  - unfold add_or_update_review in Hrun. bind_inv Hrun.
    eapply unique_after_avg; [|exact Hrun].
    destruct (find _ (rows (reviews d))) as [old|].
    + eapply unique_after_update; eauto.
    + bind_inv Ha. inversion Ha; subst. eapply unique_after_insert; eauto.
  - bind_inv Hrun. inversion Hrun; subst; clear Hrun.
    unfold add_review in Ha. bind_inv Ha. bind_inv Ha. inversion Ha; subst; clear Ha.
    simpl. eapply unique_after_avg; [|exact Ha1].
    eapply unique_after_insert; eauto.
  - unfold update_review in Hrun.
    assert (Hgo : d' = d \/
                  (d1 <- sql_update_review rid rating comment d ;;
                   match find (fun r => r_id r =? rid) (rows (reviews d1)) with
                   | None => Raise TypeError
                   | Some review =>
                       sql_set_rating_avg (avg_rating_of (r_software_id review) d1)
                         (r_software_id review) d1
                   end) = Ok d').
    { destruct rating, comment; try (right; exact Hrun). left. now inversion Hrun. }
    destruct Hgo as [-> | Hgo]; [assumption|]. bind_inv Hgo.
    destruct (find _ (rows (reviews a))); [|discriminate].
    eapply unique_after_avg; [|exact Hgo]. eapply unique_after_update; eauto.
  - unfold delete_review in Hrun.
    destruct (find _ (rows (reviews d))) as [review|]; [|discriminate].
    eapply unique_after_avg; [|exact Hrun].
    unfold reviews_unique; simpl. now apply NoDup_map_filter.
Qed.

(** The submission of 5 stars at time 4000 over Ann's review of time 3000
    leaves the row's timestamp at 3000. *)
Lemma upsert_keeps_timestamp :
  ~ upsert_overwrites_timestamp 1 1 5 "great" 4000 demo_reviewed_db.
Proof.
  intros H.
  specialize (H (mk_review 1 1 1 3 (Some "ok"%string) 3000)
                (committed (add_or_update_review 1 1 5 "great" 4000 demo_reviewed_db))).
  assert (E : Some (mk_review 1 1 1 5 (Some "great"%string) 3000)
              = Some (mk_review 1 1 1 5 (Some "great"%string) 4000)).
  { apply H; vm_compute; reflexivity. }
  discriminate E.
Qed.

(** C5, as the code has it.  No review operation produces a second row for a
    (user, program) pair.  [add_or_update_review] on a pair that has a row
    rewrites that row where it stands - rating and comment are replaced, id
    and created_at are kept, all other rows are untouched - and on a pair
    without a row appends one, stamped with the current time. *)
Theorem add_or_update_review_upsert (user_id software_id rating : Z) (text : string)
    (now : Z) (d d' : db) :
  reviews_keyed d ->
  reviews_unique d ->
  add_or_update_review user_id software_id rating text now d = Ok d' ->
  (forall op d2, run_review_op op now d = Ok d2 -> reviews_unique d2) /\
  reviews_unique d' /\
  match find (fun r => (r_user_id r =? user_id) && (r_software_id r =? software_id))
             (rows (reviews d)) with
  | Some old =>
      exists before after,
        rows (reviews d) = before ++ old :: after /\
        rows (reviews d')
        = before
          ++ mk_review (r_id old) user_id software_id rating (Some text) (r_created_at old)
          :: after
  | None =>
      rows (reviews d')
      = rows (reviews d)
        ++ [mk_review (seq (reviews d) + 1) user_id software_id rating (Some text) now]
  end.
Proof.
  intros [Hnd _] Hu Hrun.
  split; [intros op d2; now apply reviews_unique_preserved|].
  split; [now apply (reviews_unique_preserved
                       (AddOrUpdateReview user_id software_id rating text) now d)|].
  unfold add_or_update_review in Hrun. bind_inv Hrun.
  apply sql_set_rating_avg_ok in Hrun. destruct Hrun as [Hr _]. rewrite Hr. clear Hr.
  destruct (find _ (rows (reviews d))) as [old|] eqn:Ef.
  - apply sql_update_review_ok in Ha. destruct Ha as [_ Hrows].
    destruct (find_split _ _ _ Ef) as [before [after E]].
    apply find_some_in in Ef. destruct Ef as [Hin Hp].
    apply andb_true_iff in Hp. destruct Hp as [Hpu Hps].
    apply Z.eqb_eq in Hpu. apply Z.eqb_eq in Hps.
    exists before, after. split; [assumption|].
    rewrite Hrows, E, map_app. simpl. rewrite Z.eqb_refl, Hpu, Hps.
    rewrite E, map_app in Hnd. simpl in Hnd.
    apply NoDup_remove_2 in Hnd.
    rewrite !map_unchanged; [reflexivity| |].
    + intros x Hx. destruct (r_id x =? r_id old) eqn:Ex; [|reflexivity].
      apply Z.eqb_eq in Ex. exfalso. apply Hnd. rewrite <- Ex.
      apply in_or_app. right. now apply in_map.
    + intros x Hx. destruct (r_id x =? r_id old) eqn:Ex; [|reflexivity].
      apply Z.eqb_eq in Ex. exfalso. apply Hnd. rewrite <- Ex.
      apply in_or_app. left. now apply in_map.
  - bind_inv Ha. inversion Ha; subst.
    apply sql_insert_review_ok in Ha0. tauto.
Qed.

Lemma add_or_update_review_upsert_witness :
  exists before after,
    rows (reviews demo_three_reviews_db)
    = before ++ mk_review 2 2 1 5 None 3001 :: after /\
    rows (reviews (committed (add_or_update_review 2 1 1 "awful" 4000 demo_three_reviews_db)))
    = before ++ mk_review 2 2 1 1 (Some "awful"%string) 3001 :: after.
Proof.
  destruct (add_or_update_review_upsert 2 1 1 "awful" 4000 demo_three_reviews_db
              (committed (add_or_update_review 2 1 1 "awful" 4000 demo_three_reviews_db)))
    as [_ [_ H]].
  - split; simpl; [concrete_nodup | concrete_forall ltac:(simpl; lia)].
  - unfold reviews_unique; simpl. concrete_nodup.
  - vm_compute; reflexivity.
  - exact H.
Defined.

(** * Further properties *)

(** ** The cart operations keep the schema *)

Lemma recompute_cart_total_shape (cart_id : Z) (d d' : db) :
  recompute_cart_total cart_id d = Ok d' ->
  exists total,
    d' = set_cart
           (with_rows
              (map (fun c => if c_id c =? cart_id
                             then mk_cart (c_id c) (c_user_id c) total
                             else c))
              (cart d)) d /\
    total = lines_total (cart_lines_by_index cart_id d) /\
    (existsb (fun c => c_id c =? cart_id) (rows (cart d)) = true -> Qle 0 total).
Proof.
  unfold recompute_cart_total. rewrite sql_total_is_lines_total.
  destruct (existsb _ _ && _) eqn:E; intros H; inversion H; subst; clear H.
  eexists. split; [reflexivity|]. split; [reflexivity|].
  intros Hex. rewrite Hex in E. simpl in E.
  apply negb_false_iff in E. now apply Qle_bool_iff.
Qed.

Lemma recompute_keeps_schema (cart_id : Z) (d d' : db) :
  cart_schema d -> recompute_cart_total cart_id d = Ok d' -> cart_schema d'.
Proof.
  intros W H. apply recompute_cart_total_shape in H.
  destruct H as [total [-> [_ Hpos]]].
  destruct W as [Hpk Hcc Hic Hu Hfk].
  constructor; simpl; auto.
  apply Forall_map. apply Forall_forall. intros c Hc.
  destruct (c_id c =? cart_id) eqn:E; simpl.
  - apply Hpos. apply existsb_exists. eauto.
  - rewrite Forall_forall in Hcc. now apply Hcc.
Qed.

Lemma sql_set_quantity_shape (item_id quantity : Z) (d d1 : db) :
  sql_set_quantity item_id quantity d = Ok d1 ->
  d1 = set_cart_items
         (with_rows
            (map (fun i => if ci_id i =? item_id
                           then mk_cart_item (ci_id i) (ci_cart_id i) (ci_software_id i)
                                  quantity (ci_price_at_add i)
                           else i))
            (cart_items d)) d /\
  int64 quantity = true /\
  (existsb (fun i => ci_id i =? item_id) (rows (cart_items d)) = true -> 0 < quantity).
Proof.
  unfold sql_set_quantity.
  destruct (int64 quantity); [|discriminate]. cbn [negb].
  destruct (existsb _ _ && _) eqn:E; intros H; inversion H; subst; clear H.
  split; [reflexivity|]. split; [reflexivity|]. intros Hex. rewrite Hex in E. simpl in E.
  apply Z.leb_gt in E. lia.
Qed.

Lemma set_quantity_keeps_schema (item_id quantity : Z) (d d1 : db) :
  cart_schema d -> sql_set_quantity item_id quantity d = Ok d1 -> cart_schema d1.
Proof.
  intros W H. apply sql_set_quantity_shape in H. destruct H as [-> [_ Hpos]].
  destruct W as [Hpk Hcc Hic Hu Hfk].
  constructor; simpl; auto.
  - apply Forall_map. apply Forall_forall. intros i Hi.
    rewrite Forall_forall in Hic. specialize (Hic i Hi).
    destruct (ci_id i =? item_id) eqn:E; simpl; [|assumption].
    split; [|tauto]. apply Hpos. apply existsb_exists. eauto.
  - rewrite map_map. erewrite map_ext; [exact Hu|].
    intros i; simpl. now destruct (ci_id i =? item_id).
  - apply Forall_map. eapply Forall_impl; [|exact Hfk].
    intros i Hi; simpl. now destruct (ci_id i =? item_id).
Qed.

Lemma sql_insert_cart_item_shape (cart_id software_id quantity : Z) (price : Q)
    (d : db) (r : Z * db) :
  sql_insert_cart_item cart_id software_id quantity price d = Ok r ->
  r = (seq (cart_items d) + 1,
       set_cart_items
         (mk_table (rows (cart_items d)
                    ++ [mk_cart_item (seq (cart_items d) + 1) cart_id software_id
                          quantity price])
                   (seq (cart_items d) + 1)) d) /\
  0 < quantity /\ Qle 0 price /\
  (forall i, In i (rows (cart_items d)) ->
             (ci_cart_id i =? cart_id) && (ci_software_id i =? software_id) = false).
Proof.
  unfold sql_insert_cart_item.
  destruct (int64 quantity); [|discriminate]. cbn [negb].
  destruct (_ || _) eqn:E; [discriminate|]. simpl. intros H. inversion H; subst; clear H.
  apply orb_false_iff in E. destruct E as [E Eu].
  apply orb_false_iff in E. destruct E as [Eq Ep].
  apply Z.leb_gt in Eq. apply negb_false_iff in Ep. apply Qle_bool_iff in Ep.
  repeat split; auto.
  intros i Hi. destruct (_ && _) eqn:Ei; [|reflexivity].
  assert (Ht : existsb (fun i => (ci_cart_id i =? cart_id) && (ci_software_id i =? software_id))
                       (rows (cart_items d)) = true)
    by (apply existsb_exists; eauto).
  congruence.
Qed.

Lemma find_existsb {A : Type} (p : A -> bool) (l : list A) (x : A) :
  find p l = Some x -> existsb p l = true.
Proof.
  intros H. apply find_some in H. apply existsb_exists. eauto.
Qed.

Lemma add_to_cart_keeps_schema (user_id software_id quantity : Z) (d : db) (r : Z * db) :
  cart_schema d -> add_to_cart user_id software_id quantity d = Ok r -> cart_schema (snd r).
Proof.
  intros W. unfold add_to_cart.
  destruct (negb (int64 user_id)); [discriminate|].
  destruct (find _ (rows (cart d))) as [the_cart|]; [|discriminate].
  destruct (negb (int64 software_id)); [discriminate|].
  destruct (find _ (rows (software d))) as [the_software|] eqn:Es; [|discriminate].
  destruct (find _ (rows (cart_items d))) as [existing|]; intros H.
  - bind_inv H. bind_inv H. inversion H; subst; simpl.
    eapply recompute_keeps_schema; [|exact Ha0].
    eapply set_quantity_keeps_schema; eauto.
  - bind_inv H. bind_inv H. inversion H; subst; simpl. clear H.
    eapply recompute_keeps_schema; [|exact Ha0].
    apply sql_insert_cart_item_shape in Ha. destruct Ha as [-> [Hq [Hp Hnone]]].
    destruct W as [Hpk Hcc Hic Hu Hfk].
    constructor; simpl; auto.
    + apply Forall_app. split; [assumption|]. constructor; [simpl; auto|constructor].
    + rewrite map_app. simpl. apply NoDup_snoc; [assumption|].
      intros Hin. apply in_map_iff in Hin. destruct Hin as [i [E Hi]].
      inversion E. apply Hnone in Hi. rewrite H0, H1, !Z.eqb_refl in Hi. discriminate.
    + apply Forall_app. split; [assumption|]. constructor; [|constructor].
      simpl. eapply find_existsb; eauto.
Qed.

Lemma remove_from_cart_keeps_schema (item_id : Z) (d d' : db) :
  cart_schema d -> remove_from_cart item_id d = Ok d' -> cart_schema d'.
Proof.
  intros W. unfold remove_from_cart.
  destruct (find _ (rows (cart_items d))) as [item|]; [|discriminate].
  intros H. eapply recompute_keeps_schema; [|exact H].
  destruct W as [Hpk Hcc Hic Hu Hfk].
  constructor; simpl; auto.
  - apply Forall_forall. intros i Hi. apply filter_In in Hi.
    rewrite Forall_forall in Hic. apply Hic. tauto.
  - now apply NoDup_map_filter.
  - apply Forall_forall. intros i Hi. apply filter_In in Hi.
    rewrite Forall_forall in Hfk. apply Hfk. tauto.
Qed.

(** X1. A successful [add_to_cart], [update_cart_item_quantity] or
    [remove_from_cart] keeps every constraint the schema puts on the cart
    tables: quantities stay positive, prices and totals non-negative, a cart
    holds an item in at most one line, and every line's item is in the
    catalog. *)
Theorem cart_ops_keep_schema (op : cart_op) (d d' : db) :
  cart_schema d -> run_cart_op op d = Ok d' -> cart_schema d'.
Proof.
  intros W. destruct op as [u s q | item q | item]; simpl; intros H.
  - bind_inv H. inversion H; subst. eapply add_to_cart_keeps_schema; eauto.
  - unfold update_cart_item_quantity in H.
    destruct (q <=? 0); [eapply remove_from_cart_keeps_schema; eauto|].
    destruct (find _ (rows (cart_items d))); [|discriminate].
    bind_inv H. eapply recompute_keeps_schema; [|exact H].
    eapply set_quantity_keeps_schema; eauto.
  - eapply remove_from_cart_keeps_schema; eauto.
Qed.

Lemma cart_ops_keep_schema_witness :
  cart_schema (committed (run_cart_op (AddToCart 1 3 4) demo_cart_db)).
Proof.
  apply (cart_ops_keep_schema (AddToCart 1 3 4) demo_cart_db).
  - exact demo_cart_schema.
  - vm_compute; reflexivity.
Defined.

(** ** What the cart operations do to a line and to the total *)

Lemma filter_map_commute {A : Type} (p : A -> bool) (f : A -> A) (l : list A) :
  (forall x, p (f x) = p x) -> filter p (map f l) = map f (filter p l).
Proof.
  intros H. induction l as [|a l IH]; simpl; [reflexivity|].
  rewrite H. destruct (p a); simpl; now rewrite IH.
Qed.

Lemma filter_all {A : Type} (p : A -> bool) (l : list A) :
  (forall x, In x l -> p x = true) -> filter p l = l.
Proof.
  induction l as [|a l IH]; simpl; intros H; [reflexivity|].
  rewrite (H a) by now left. f_equal. apply IH. intros x Hx. apply H. now right.
Qed.

Lemma update_software_cart_frame (software_id : Z) (name description : option string)
    (price : option Q) (category_id : option Z) (developer image_url : option string)
    (d d' : db) :
  update_software software_id name description price category_id developer image_url d
    = Ok d' ->
  cart d' = cart d /\ cart_items d' = cart_items d.
Proof.
  unfold update_software. intros H.
  destruct name, description, price, category_id, developer, image_url;
    try (inversion H; subst; split; reflexivity);
    (destruct (_ && _); [discriminate|]; inversion H; subst; split; reflexivity).
Qed.

(** Adding to a cart that already has a line for the item. *)
Lemma add_to_cart_existing (user_id software_id quantity : Z) (d : db)
    (c : cart_row) (l : cart_item_row) (r : Z * db) :
  get_user_cart user_id d = Some c ->
  find (fun i => (ci_cart_id i =? c_id c) && (ci_software_id i =? software_id))
       (rows (cart_items d)) = Some l ->
  add_to_cart user_id software_id quantity d = Ok r ->
  fst r = ci_id l /\
  rows (cart_items (snd r))
  = map (fun i => if ci_id i =? ci_id l then with_quantity i (ci_quantity l + quantity) else i)
        (rows (cart_items d)) /\
  rows (cart (snd r))
  = map (fun x => if c_id x =? c_id c
                  then mk_cart (c_id x) (c_user_id x)
                         (lines_total (cart_lines_by_index (c_id c) (snd r)))
                  else x)
        (rows (cart d)).
Proof.
  unfold get_user_cart, add_to_cart. intros Hc Hl.
  destruct (negb (int64 user_id)); [discriminate|]. rewrite Hc.
  destruct (negb (int64 software_id)); [discriminate|].
  destruct (find _ (rows (software d))) as [s|]; [|discriminate].
  rewrite Hl. intros H. bind_inv H. bind_inv H. inversion H; subst; clear H. simpl.
  apply sql_set_quantity_shape in Ha. destruct Ha as [-> _].
  apply recompute_cart_total_shape in Ha0. destruct Ha0 as [total [-> [Ht _]]].
  simpl. subst total. repeat split.
Qed.

(** X2. Price lock-in.  When the user's cart already holds a line for the
    item, a later [add_to_cart] - also after [update_software] has changed
    the item's catalog price - returns that line's id and only raises its
    quantity by the amount added; the line keeps the price it was first
    added at. *)
Theorem add_to_cart_price_lock (user_id software_id quantity : Z)
    (name description : option string) (price : option Q) (category_id : option Z)
    (developer image_url : option string)
    (d d1 : db) (c : cart_row) (l : cart_item_row) (r : Z * db) :
  get_user_cart user_id d = Some c ->
  find (fun i => (ci_cart_id i =? c_id c) && (ci_software_id i =? software_id))
       (rows (cart_items d)) = Some l ->
  update_software software_id name description price category_id developer image_url d
    = Ok d1 ->
  add_to_cart user_id software_id quantity d1 = Ok r ->
  fst r = ci_id l /\
  find (fun i => (ci_cart_id i =? c_id c) && (ci_software_id i =? software_id))
       (rows (cart_items (snd r)))
  = Some (with_quantity l (ci_quantity l + quantity)).
Proof.
  intros Hc Hl Hu Ha.
  apply update_software_cart_frame in Hu. destruct Hu as [Ec Ei].
  assert (Hc1 : get_user_cart user_id d1 = Some c)
    by (unfold get_user_cart; now rewrite Ec).
  assert (Hl1 : find (fun i => (ci_cart_id i =? c_id c) && (ci_software_id i =? software_id))
                     (rows (cart_items d1)) = Some l) by now rewrite Ei.
  destruct (add_to_cart_existing _ _ _ _ _ _ _ Hc1 Hl1 Ha) as [Hid [Hrows _]].
  split; [assumption|].
  rewrite Hrows, Ei, find_map_same_key.
  - rewrite Hl. simpl. now rewrite Z.eqb_refl.
  - intros x; simpl. now destruct (ci_id x =? ci_id l).
Qed.

Lemma add_to_cart_price_lock_witness :
  exists r,
    add_to_cart 1 1 3 (committed (update_software 1 None None (Some 99%Q) None None None
                                    demo_cart_db)) = Ok r /\
    fst r = 1 /\
    find (fun i => (ci_cart_id i =? 1) && (ci_software_id i =? 1)) (rows (cart_items (snd r)))
    = Some (mk_cart_item 1 1 1 4 50).
Proof.
  eexists. split; [vm_compute; reflexivity|].
  destruct (add_to_cart_price_lock 1 1 3 None None (Some 99%Q) None None None
              demo_cart_db
              (committed (update_software 1 None None (Some 99%Q) None None None demo_cart_db))
              (mk_cart 1 1 110) (mk_cart_item 1 1 1 1 50)
              (committed_pair (add_to_cart 1 1 3
                 (committed (update_software 1 None None (Some 99%Q) None None None
                               demo_cart_db)))))
    as [H1 H2];
    [vm_compute; reflexivity | vm_compute; reflexivity | vm_compute; reflexivity
    | vm_compute; reflexivity |].
  split; [exact H1 | exact H2].
Defined.

Lemma find_user_cart_after (user_id cart_id : Z) (total : Q) (l : list cart_row) (c : cart_row) :
  find (fun c => c_user_id c =? user_id) l = Some c ->
  c_id c = cart_id ->
  find (fun c => c_user_id c =? user_id)
       (map (fun x => if c_id x =? cart_id then mk_cart (c_id x) (c_user_id x) total else x) l)
  = Some (mk_cart cart_id (c_user_id c) total).
Proof.
  intros Hf Hid. rewrite find_map_same_key.
  - rewrite Hf. simpl. now rewrite Hid, Z.eqb_refl.
  - intros x; simpl. now destruct (c_id x =? cart_id).
Qed.

(** X3. For a user with a cart, a successful [add_to_cart] leaves the cart
    with a line for the item, the one whose id is returned: it holds the
    quantity the cart had of the item plus the quantity added, at the unit
    price - the price locked in the line the cart already had, or the
    current catalog price when the item is new to the cart.  The total
    stored for the cart is the sum over its resulting lines of quantity x
    price_at_add, added up as REAL values by ascending program id. *)
Theorem add_to_cart_total (user_id software_id quantity : Z) (d : db)
    (c : cart_row) (r : Z * db) :
  get_user_cart user_id d = Some c ->
  add_to_cart user_id software_id quantity d = Ok r ->
  (exists l,
      find (fun i => (ci_cart_id i =? c_id c) && (ci_software_id i =? software_id))
           (rows (cart_items (snd r))) = Some l /\
      ci_id l = fst r /\
      ci_quantity l = held_quantity (c_id c) software_id d + quantity /\
      ci_price_at_add l = cart_unit_price (c_id c) software_id d) /\
  get_user_cart user_id (snd r)
  = Some (mk_cart (c_id c) user_id
            (lines_total (lines_of_cart (c_id c) (rows (cart_items (snd r)))))).
Proof.
  intros Hc Hrun.
  assert (Hu : c_user_id c = user_id).
  { apply find_some in Hc. destruct Hc as [_ E]. now apply Z.eqb_eq in E. }
  unfold cart_unit_price, held_quantity.
  destruct (find (fun i => (ci_cart_id i =? c_id c) && (ci_software_id i =? software_id))
                 (rows (cart_items d))) as [l|] eqn:El.
  - destruct (add_to_cart_existing _ _ _ _ _ _ _ Hc El Hrun) as [Hid [Hrows Hcart]].
    split.
    + exists (with_quantity l (ci_quantity l + quantity)). split; [|now split].
      rewrite Hrows, find_map_same_key
        by (intros x; simpl; now destruct (ci_id x =? ci_id l)).
      rewrite El. simpl. now rewrite Z.eqb_refl.
    + unfold get_user_cart in *. rewrite Hcart, lines_of_cart_by_index.
      rewrite (find_user_cart_after user_id (c_id c) _ _ c Hc eq_refl).
      now rewrite Hu.
  - unfold add_to_cart, get_user_cart in *.
    destruct (negb (int64 user_id)); [discriminate|]. rewrite Hc in Hrun.
    destruct (negb (int64 software_id)); [discriminate|].
    unfold get_software_by_id.
    destruct (find _ (rows (software d))) as [s|]; [|discriminate].
    rewrite El in Hrun. bind_inv Hrun. bind_inv Hrun. inversion Hrun; subst; clear Hrun.
    apply sql_insert_cart_item_shape in Ha. destruct Ha as [-> _].
    simpl in Ha0. apply recompute_cart_total_shape in Ha0.
    destruct Ha0 as [total [-> [Ht _]]]. simpl in *.
    split.
    + eexists. split; [|split; [|split]].
      * apply find_snoc_fresh.
        -- intros x Hx. apply (find_none _ _ El x Hx).
        -- simpl. now rewrite !Z.eqb_refl.
      * reflexivity.
      * simpl. lia.
      * reflexivity.
    + subst total.
      rewrite (find_user_cart_after (c_user_id c) (c_id c) _ _ c Hc eq_refl).
      rewrite <- lines_of_cart_by_index. reflexivity.
Qed.

Lemma add_to_cart_total_witness :
  (exists l,
      find (fun i => (ci_cart_id i =? 1) && (ci_software_id i =? 1))
           (rows (cart_items (snd (committed_pair (add_to_cart 1 1 3 demo_cart_db))))) = Some l /\
      ci_id l = fst (committed_pair (add_to_cart 1 1 3 demo_cart_db)) /\
      ci_quantity l = held_quantity 1 1 demo_cart_db + 3 /\
      ci_price_at_add l = cart_unit_price 1 1 demo_cart_db) /\
  get_user_cart 1 (snd (committed_pair (add_to_cart 1 1 3 demo_cart_db)))
  = Some (mk_cart 1 1
            (lines_total
               (lines_of_cart 1
                  (rows (cart_items (snd (committed_pair (add_to_cart 1 1 3 demo_cart_db)))))))).
Proof.
  apply (add_to_cart_total 1 1 3 demo_cart_db (mk_cart 1 1 110)).
  - vm_compute; reflexivity.
  - vm_compute; reflexivity.
Defined.

Lemma filter_filter_swap {A : Type} (p q : A -> bool) (l : list A) :
  filter p (filter q l) = filter q (filter p l).
Proof.
  induction l as [|a l IH]; simpl; [reflexivity|].
  destruct (p a) eqn:Pa, (q a) eqn:Qa; simpl; rewrite ?Pa, ?Qa, IH; reflexivity.
Qed.

Lemma remove_from_cart_result (item_id : Z) (d d' : db) (l : cart_item_row) (c : cart_row) :
  find (fun i => ci_id i =? item_id) (rows (cart_items d)) = Some l ->
  get_cart_by_id (ci_cart_id l) d = Some c ->
  remove_from_cart item_id d = Ok d' ->
  rows (cart_items d') = filter (fun i => negb (ci_id i =? item_id)) (rows (cart_items d)) /\
  find (fun i => ci_id i =? item_id) (rows (cart_items d')) = None /\
  (forall i, ci_id i <> item_id ->
             (In i (rows (cart_items d')) <-> In i (rows (cart_items d)))) /\
  get_cart_by_id (ci_cart_id l) d'
  = Some (mk_cart (c_id c) (c_user_id c)
            (lines_total (lines_of_cart (ci_cart_id l) (rows (cart_items d'))))).
Proof.
  intros Hl Hc Hrun.
  unfold remove_from_cart in Hrun. rewrite Hl in Hrun.
  apply recompute_cart_total_shape in Hrun. destruct Hrun as [total [-> [Ht _]]].
  simpl in *.
  split; [reflexivity|]. split; [|split].
  - destruct (find _ (filter _ _)) as [x|] eqn:Ef; [|reflexivity].
    apply find_some in Ef. destruct Ef as [Hx Hp].
    apply filter_In in Hx. destruct Hx as [_ Hq]. rewrite Hp in Hq. discriminate.
  - intros i Hi. rewrite filter_In. split; [tauto|].
    intros Hin. split; [assumption|]. apply negb_true_iff. now apply Z.eqb_neq.
  - unfold get_cart_by_id in *. simpl.
    rewrite find_map_same_key
      by (intros x; simpl; destruct (c_id x =? ci_cart_id l) eqn:E; simpl; assumption).
    rewrite Hc. simpl.
    apply find_some in Hc. destruct Hc as [_ Hcid]. rewrite Hcid.
    subst total.
    change (filter (fun i => negb (ci_id i =? item_id)) (rows (cart_items d)))
      with (rows (cart_items (set_cart_items
                                (with_rows (filter (fun i => negb (ci_id i =? item_id)))
                                           (cart_items d)) d))).
    now rewrite lines_of_cart_by_index.
Qed.

(** X4. A successful [remove_from_cart] deletes exactly the line with the
    given id: no line with that id is left and every other line stays as it
    was.  The total stored for the cart that owned the line is the sum over
    the lines the cart is left with of quantity x price_at_add, added up as
    REAL values by ascending program id. *)
Theorem remove_from_cart_effect (item_id : Z) (d d' : db) (l : cart_item_row) (c : cart_row) :
  find (fun i => ci_id i =? item_id) (rows (cart_items d)) = Some l ->
  get_cart_by_id (ci_cart_id l) d = Some c ->
  remove_from_cart item_id d = Ok d' ->
  find (fun i => ci_id i =? item_id) (rows (cart_items d')) = None /\
  (forall i, ci_id i <> item_id ->
             (In i (rows (cart_items d')) <-> In i (rows (cart_items d)))) /\
  get_cart_by_id (ci_cart_id l) d'
  = Some (mk_cart (c_id c) (c_user_id c)
            (lines_total (lines_of_cart (ci_cart_id l) (rows (cart_items d'))))).
Proof.
  intros Hl Hc Hrun.
  destruct (remove_from_cart_result _ _ _ _ _ Hl Hc Hrun) as [_ H]. exact H.
Qed.

Lemma remove_from_cart_effect_witness :
  rows (cart_items (committed (remove_from_cart 2 demo_cart_db))) = [mk_cart_item 1 1 1 1 50] /\
  get_cart_by_id 1 (committed (remove_from_cart 2 demo_cart_db)) = Some (mk_cart 1 1 50).
Proof.
  destruct (remove_from_cart_effect 2 demo_cart_db (committed (remove_from_cart 2 demo_cart_db))
              (mk_cart_item 2 1 2 2 30) (mk_cart 1 1 110))
    as [_ [_ H]].
  - vm_compute; reflexivity.
  - vm_compute; reflexivity.
  - vm_compute; reflexivity.
  - split; [vm_compute; reflexivity|].
    etransitivity; [exact H|]. vm_compute; reflexivity.
Defined.

(** A recomputation cannot fail where the lines satisfy their checks. *)
Lemma recompute_succeeds (cart_id : Z) (d : db) :
  Forall (fun i => 0 < ci_quantity i /\ Qle 0 (ci_price_at_add i)) (rows (cart_items d)) ->
  recompute_cart_total cart_id d
  = Ok (set_cart
          (with_rows
             (map (fun c => if c_id c =? cart_id
                            then mk_cart (c_id c) (c_user_id c)
                                   (lines_total (cart_lines_by_index cart_id d))
                            else c))
             (cart d)) d).
Proof.
  intros Hchk. unfold recompute_cart_total. rewrite sql_total_is_lines_total.
  assert (Ht : Qle_bool 0 (lines_total (cart_lines_by_index cart_id d)) = true).
  { apply Qle_bool_iff. apply lines_total_from_nonneg; [apply Qle_refl|].
    apply Forall_forall. intros i Hi. apply cart_lines_by_index_in in Hi.
    rewrite Forall_forall in Hchk. apply Hchk. tauto. }
  now rewrite Ht, andb_false_r.
Qed.

(** X5. In a database whose cart lines satisfy the checks of the schema
    (positive quantities, prices that are not negative),
    [update_cart_item_quantity] with a positive quantity that fits a 64-bit
    integer succeeds on an existing line: it sets that line's quantity and
    nothing else of it (the locked price stays), and stores for the owning
    cart the sum over its resulting lines of quantity x price_at_add, added
    up as REAL values by ascending program id. *)
Theorem update_cart_item_quantity_effect (item_id quantity : Z) (d : db)
    (l : cart_item_row) (c : cart_row) :
  Forall (fun i => 0 < ci_quantity i /\ Qle 0 (ci_price_at_add i)) (rows (cart_items d)) ->
  0 < quantity < 2 ^ 63 ->
  find (fun i => ci_id i =? item_id) (rows (cart_items d)) = Some l ->
  get_cart_by_id (ci_cart_id l) d = Some c ->
  exists d',
    update_cart_item_quantity item_id quantity d = Ok d' /\
    find (fun i => ci_id i =? item_id) (rows (cart_items d')) = Some (with_quantity l quantity) /\
    get_cart_by_id (ci_cart_id l) d'
    = Some (mk_cart (c_id c) (c_user_id c)
              (lines_total (lines_of_cart (ci_cart_id l) (rows (cart_items d'))))).
Proof.
  intros Hchk Hq Hl Hc.
  pose proof (find_some _ _ Hl) as [Hlin Hid]. apply Z.eqb_eq in Hid. subst item_id.
  pose proof (find_some _ _ Hc) as [Hcin Hcid].
  set (f := fun i => if ci_id i =? ci_id l then with_quantity i quantity else i).
  set (d1 := set_cart_items (with_rows (map f) (cart_items d)) d).
  assert (Eq : (quantity <=? 0) = false) by (apply Z.leb_gt; lia).
  assert (Ei : int64 quantity = true).
  { unfold int64. apply andb_true_iff. split; [apply Z.leb_le|apply Z.ltb_lt]; lia. }
  assert (Hs : sql_set_quantity (ci_id l) quantity d = Ok d1).
  { unfold sql_set_quantity. now rewrite Ei, Eq, andb_false_r. }
  assert (Hchk1 : Forall (fun i => 0 < ci_quantity i /\ Qle 0 (ci_price_at_add i))
                         (rows (cart_items d1))).
  { simpl. apply Forall_map. eapply Forall_impl; [|exact Hchk].
    intros i [H1 H2]. unfold f. destruct (ci_id i =? ci_id l); simpl; split; auto; lia. }
  unfold update_cart_item_quantity. rewrite Eq, Hl, Hs. simpl bind.
  rewrite (recompute_succeeds _ _ Hchk1).
  eexists. split; [reflexivity|]. split.
  - simpl. rewrite find_map_same_key
      by (intros x; unfold f; simpl; destruct (ci_id x =? ci_id l) eqn:E; simpl; assumption).
    rewrite Hl. simpl. unfold f. now rewrite Z.eqb_refl.
  - unfold get_cart_by_id in *. cbn [cart set_cart rows with_rows].
    rewrite find_map_same_key
      by (intros x; simpl; destruct (c_id x =? ci_cart_id l) eqn:E; simpl; assumption).
    change (cart d1) with (cart d). rewrite Hc. simpl. rewrite Hcid.
    change (map f (rows (cart_items d))) with (rows (cart_items d1)).
    now rewrite lines_of_cart_by_index.
Qed.

Lemma update_cart_item_quantity_effect_witness :
  exists d',
    update_cart_item_quantity 2 5 demo_cart_db = Ok d' /\
    find (fun i => ci_id i =? 2) (rows (cart_items d')) = Some (mk_cart_item 2 1 2 5 30) /\
    get_cart_by_id 1 d'
    = Some (mk_cart 1 1 (lines_total (lines_of_cart 1 (rows (cart_items d'))))).
Proof.
  apply (update_cart_item_quantity_effect 2 5 demo_cart_db
           (mk_cart_item 2 1 2 2 30) (mk_cart 1 1 110)).
  - apply (checked_cart_items _ demo_cart_checks).
  - lia.
  - vm_compute; reflexivity.
  - vm_compute; reflexivity.
Defined.

(** ** The cart invariant holds in every reachable database *)

Lemma same_carts_refl (d : db) : same_carts d d.
Proof. split; reflexivity. Qed.

Lemma same_carts_trans (d1 d2 d3 : db) :
  same_carts d1 d2 -> same_carts d2 d3 -> same_carts d1 d3.
Proof. intros [A B] [C D]. split; congruence. Qed.

Lemma cart_invariant_frame (d d' : db) :
  same_carts d d' -> cart_invariant d -> cart_invariant d'.
Proof.
  intros [Ec Ei] [Hk Hc Hb Hl].
  constructor.
  - unfold cart_items_keyed. now rewrite Ei.
  - intros c Hin. rewrite Ec in Hin. unfold cart_lines. rewrite Ei. now apply Hc.
  - now rewrite Ec.
  - now rewrite Ec, Ei.
Qed.

Lemma sql_set_rating_avg_shape (avg : option Q) (software_id : Z) (d d' : db) :
  sql_set_rating_avg avg software_id d = Ok d' ->
  d' = set_software
         (with_rows
            (map (fun s => if s_id s =? software_id
                           then mk_software (s_id s) (s_name s) (s_description s)
                                  (s_price s) (s_category_id s) (s_developer s)
                                  (s_downloads s) avg (s_image_url s)
                           else s))
            (software d)) d.
Proof.
  unfold sql_set_rating_avg. destruct (_ && _); intros H; now inversion H.
Qed.

Lemma sql_update_review_shape (review_id : Z) (rating : option Z) (comment : option string)
    (d d' : db) :
  sql_update_review review_id rating comment d = Ok d' ->
  exists t, d' = set_reviews t d.
Proof.
  unfold sql_update_review. destruct (_ && _); intros H; inversion H. eauto.
Qed.

Lemma sql_insert_review_shape (user_id software_id rating : Z) (comment : option string)
    (now : Z) (d : db) (r : Z * db) :
  sql_insert_review user_id software_id rating comment now d = Ok r ->
  exists t, snd r = set_reviews t d.
Proof.
  unfold sql_insert_review. destruct (_ || _); [discriminate|].
  simpl. intros H; inversion H. simpl. eauto.
Qed.

Lemma review_op_same_carts (op : review_op) (now : Z) (d d' : db) :
  run_review_op op now d = Ok d' -> same_carts d d'.
Proof.
  destruct op as [u sw rating text | u sw rating comment | rid rating comment | rid];
    simpl; intros H.
  - unfold add_or_update_review in H. bind_inv H.
    apply sql_set_rating_avg_shape in H. subst d'.
    destruct (find _ (rows (reviews d))).
    + apply sql_update_review_shape in Ha. destruct Ha as [t ->]. split; reflexivity.
    + bind_inv Ha. inversion Ha; subst.
      apply sql_insert_review_shape in Ha0. destruct Ha0 as [t ->]. split; reflexivity.
  - bind_inv H. inversion H; subst; clear H.
    unfold add_review in Ha. bind_inv Ha. bind_inv Ha. inversion Ha; subst; clear Ha. simpl.
    apply sql_set_rating_avg_shape in Ha1. subst a1.
    apply sql_insert_review_shape in Ha0. destruct Ha0 as [t ->]. split; reflexivity.
  - unfold update_review in H.
    destruct rating, comment; try (inversion H; apply same_carts_refl);
      (bind_inv H; destruct (find _ (rows (reviews a))); [|discriminate];
       apply sql_set_rating_avg_shape in H; subst d';
       apply sql_update_review_shape in Ha; destruct Ha as [t ->]; split; reflexivity).
  - unfold delete_review in H.
    destruct (find _ (rows (reviews d))); [|discriminate].
    apply sql_set_rating_avg_shape in H. subst d'. split; reflexivity.
Qed.

Lemma add_category_shape (name : string) (description : option string) (d : db) (r : Z * db) :
  add_category name description d = Ok r ->
  r = (seq (categories d) + 1,
       set_categories
         (mk_table (rows (categories d)
                    ++ [mk_category (seq (categories d) + 1) name description])
                   (seq (categories d) + 1)) d) /\
  existsb (fun c => String.eqb (cat_name c) name) (rows (categories d)) = false.
Proof.
  unfold add_category. destruct (existsb _ _); [discriminate|].
  simpl. intros H; inversion H. auto.
Qed.

Lemma add_software_shape (name : string) (description : option string) (price : Q)
    (category_id : Z) (developer : string) (image_url : option string) (d : db) (r : Z * db) :
  add_software name description price category_id developer image_url d = Ok r ->
  r = (seq (software d) + 1,
       set_software
         (mk_table (rows (software d)
                    ++ [mk_software (seq (software d) + 1) name description price
                          category_id developer 0 (Some 0%Q) image_url])
                   (seq (software d) + 1)) d) /\
  Qle 0 price.
Proof.
  unfold add_software. destruct (negb _) eqn:E; [discriminate|].
  simpl. intros H; inversion H. split; [reflexivity|].
  apply negb_false_iff in E. now apply Qle_bool_iff.
Qed.

Lemma add_user_shape (email password name : string) (phone : option string) (role : string)
    (d : db) (r : Z * db) :
  add_user email password name phone role d = Ok r ->
  r = (seq (users d) + 1,
       set_cart
         (mk_table (rows (cart d) ++ [mk_cart (seq (cart d) + 1) (seq (users d) + 1) 0])
                   (seq (cart d) + 1))
         (set_users
            (mk_table (rows (users d)
                       ++ [mk_user (seq (users d) + 1) email password name phone role])
                      (seq (users d) + 1)) d)) /\
  existsb (fun u => String.eqb (u_email u) email) (rows (users d)) = false /\
  valid_role role = true /\
  existsb (fun c => c_user_id c =? seq (users d) + 1) (rows (cart d)) = false.
Proof.
  unfold add_user. destruct (_ || _) eqn:E; [discriminate|].
  simpl. destruct (existsb _ (rows (cart d))) eqn:Ec; [discriminate|].
  intros H; inversion H.
  apply orb_false_iff in E. destruct E as [E1 E2]. apply negb_false_iff in E2.
  auto.
Qed.

Lemma add_user_keeps_cart_invariant (email password name : string) (phone : option string)
    (role : string) (d : db) (r : Z * db) :
  cart_invariant d ->
  add_user email password name phone role d = Ok r ->
  cart_invariant (snd r).
Proof.
  intros [[Hnd Hle] Hc Hb Hl] H. apply add_user_shape in H. destruct H as [-> _].
  constructor; simpl.
  - split; assumption.
  - intros c Hin. simpl in Hin. apply in_app_or in Hin.
    destruct Hin as [Hin | [<- | []]].
    + now apply Hc.
    + simpl. rewrite lines_of_cart_filter, filter_none; [reflexivity|].
      intros x Hx. apply Z.eqb_neq. rewrite Forall_forall in Hl. apply Hl in Hx. lia.
  - apply Forall_app. split.
    + eapply Forall_impl; [|exact Hb]. simpl; intros; lia.
    + constructor; [simpl; lia|constructor].
  - eapply Forall_impl; [|exact Hl]. simpl; intros; lia.
Qed.

Lemma drain_keeps_cart_invariant (cart_id : Z) (d : db) :
  cart_invariant d -> cart_invariant (drain_cart cart_id d).
Proof.
  intros [[Hnd Hle] Hc Hb Hl].
  constructor; unfold drain_cart; simpl.
  - split; simpl.
    + now apply NoDup_map_filter.
    + apply Forall_forall. intros x Hx. apply filter_In in Hx.
      rewrite Forall_forall in Hle. apply Hle. tauto.
  - intros c Hin. simpl in Hin. apply in_map_iff in Hin. destruct Hin as [c0 [E Hin]].
    rewrite lines_of_cart_filter.
    destruct (c_id c0 =? cart_id) eqn:Ec; subst c; simpl.
    + apply Z.eqb_eq in Ec. rewrite Ec.
      rewrite (filter_drained (fun i => ci_cart_id i =? cart_id)). reflexivity.
    + apply Z.eqb_neq in Ec. rewrite filter_filter_frame.
      * rewrite <- lines_of_cart_filter. now apply Hc.
      * intros x _ Hq. apply negb_false_iff in Hq. apply Z.eqb_eq in Hq.
        apply Z.eqb_neq. congruence.
  - apply Forall_map. eapply Forall_impl; [|exact Hb].
    intros c Hc0; simpl. now destruct (c_id c =? cart_id).
  - apply Forall_forall. intros x Hx. apply filter_In in Hx.
    rewrite Forall_forall in Hl. apply Hl. tauto.
Qed.

(** The loop of checkout writes purchase lines and download counters only. *)
Lemma copy_loop_same_carts (purchase_id : Z) (joined : list (cart_item_row * software_row))
    (d d' : db) :
  for_each (copy_cart_line purchase_id) joined d = Ok d' -> same_carts d d'.
Proof.
  revert d. induction joined as [|[ci s] joined IH]; simpl; intros d H.
  - inversion H. apply same_carts_refl.
  - unfold sql_insert_purchase_item in H.
    destruct (_ || _); simpl in H; [discriminate|].
    apply IH in H. eapply same_carts_trans; [|exact H]. split; reflexivity.
Qed.

Lemma create_purchase_shape (user_id : Z) (payment_method : option string) (now : Z)
    (d : db) (r : Z * db) :
  create_purchase user_id payment_method now d = Ok r ->
  exists c d2,
    get_user_cart user_id d = Some c /\
    same_carts d d2 /\
    snd r = drain_cart (c_id c) d2.
Proof.
  unfold create_purchase, get_user_cart.
  destruct (find _ (rows (cart d))) as [c|]; [|discriminate].
  destruct (Qeq_bool _ _); [discriminate|].
  unfold sql_insert_purchase. destruct (negb _); [discriminate|].
  simpl. intros H. bind_inv H. inversion H; subst; clear H.
  apply copy_loop_same_carts in Ha.
  exists c, a. split; [reflexivity|]. split; [|reflexivity].
  eapply same_carts_trans; [|exact Ha]. split; reflexivity.
Qed.

Lemma drain_cart_same (cart_id : Z) (d d2 : db) :
  same_carts d d2 -> same_carts (drain_cart cart_id d) (drain_cart cart_id d2).
Proof.
  intros [Ec Ei]. unfold drain_cart; split; simpl; now rewrite ?Ec, ?Ei.
Qed.

Lemma cart_op_keeps_cart_invariant (op : cart_op) (d d' : db) :
  cart_invariant d -> run_cart_op op d = Ok d' -> cart_invariant d'.
Proof.
  intros [Hk Hc Hb Hl] H.
  destruct (run_cart_op_preserves op d d' Hk Hc H) as [Hk' Hc'].
  assert (Hbounds : seq (cart d') = seq (cart d) /\
                    map c_id (rows (cart d')) = map c_id (rows (cart d)) /\
                    Forall (fun i => ci_cart_id i <= seq (cart d)) (rows (cart_items d'))).
  { assert (Hrec : forall cid d1 d2,
               recompute_cart_total cid d1 = Ok d2 ->
               seq (cart d2) = seq (cart d1) /\
               map c_id (rows (cart d2)) = map c_id (rows (cart d1)) /\
               cart_items d2 = cart_items d1).
    { intros cid d1 d2 Hr. apply recompute_cart_total_shape in Hr.
      destruct Hr as [total [-> _]]. simpl. repeat split.
      rewrite map_map. apply map_ext. intros c; simpl. now destruct (c_id c =? cid). }
    assert (Hset : forall id q d1,
               sql_set_quantity id q d = Ok d1 ->
               cart d1 = cart d /\
               Forall (fun i => ci_cart_id i <= seq (cart d)) (rows (cart_items d1))).
    { intros id q d1 Hs. apply sql_set_quantity_shape in Hs. destruct Hs as [-> _].
      simpl. split; [reflexivity|]. apply Forall_map.
      eapply Forall_impl; [|exact Hl]. intros i Hi; simpl.
      now destruct (ci_id i =? id). }
    assert (Hrem : forall id d2,
               remove_from_cart id d = Ok d2 ->
               seq (cart d2) = seq (cart d) /\
               map c_id (rows (cart d2)) = map c_id (rows (cart d)) /\
               Forall (fun i => ci_cart_id i <= seq (cart d)) (rows (cart_items d2))).
    { intros id d2 Hr. unfold remove_from_cart in Hr.
      destruct (find _ (rows (cart_items d))); [|discriminate].
      apply Hrec in Hr. destruct Hr as [E1 [E2 E3]]. simpl in *.
      rewrite E1, E2, E3. simpl. repeat split.
      apply Forall_forall. intros x Hx. apply filter_In in Hx.
      rewrite Forall_forall in Hl. apply Hl. tauto. }
    destruct op as [u s q | item q | item]; simpl in H.
    - bind_inv H. inversion H; subst; clear H. unfold add_to_cart in Ha.
      destruct (negb (int64 u)); [discriminate|].
      destruct (find _ (rows (cart d))) as [c|] eqn:Efc; [|discriminate].
      destruct (negb (int64 s)); [discriminate|].
      destruct (find _ (rows (software d))); [|discriminate].
      destruct (find _ (rows (cart_items d))).
      + bind_inv Ha. bind_inv Ha. inversion Ha; subst; clear Ha. simpl.
        apply Hset in Ha0. destruct Ha0 as [E Hf].
        apply Hrec in Ha1. destruct Ha1 as [E1 [E2 E3]].
        rewrite E1, E2, E3, E. auto.
      + bind_inv Ha. bind_inv Ha. inversion Ha; subst; clear Ha. simpl.
        apply sql_insert_cart_item_shape in Ha0. destruct Ha0 as [-> _].
        apply Hrec in Ha1. destruct Ha1 as [E1 [E2 E3]]. simpl in *.
        rewrite E1, E2, E3. simpl. repeat split.
        apply Forall_app. split; [assumption|]. constructor; [|constructor]. simpl.
        apply find_some in Efc. destruct Efc as [Hin _].
        rewrite Forall_forall in Hb. now apply Hb.
    - unfold update_cart_item_quantity in H.
      destruct (q <=? 0); [now apply Hrem in H|].
      destruct (find _ (rows (cart_items d))); [|discriminate].
      bind_inv H. apply Hset in Ha. destruct Ha as [E Hf].
      apply Hrec in H. destruct H as [E1 [E2 E3]].
      rewrite E1, E2, E3, E. auto.
    - now apply Hrem in H. }
  destruct Hbounds as [Es [Eids Hl']].
  constructor; auto.
  - rewrite Es. rewrite Forall_forall in *. intros c Hin.
    assert (Hi : In (c_id c) (map c_id (rows (cart d)))) by (rewrite <- Eids; now apply in_map).
    apply in_map_iff in Hi. destruct Hi as [c0 [E Hin0]]. rewrite <- E. now apply Hb.
  - now rewrite Es.
Qed.

Lemma for_each_keeps {A S : Type} (P : S -> Prop) (body : A -> S -> result S)
    (l : list A) (s s' : S) :
  (forall a s1 s2, In a l -> body a s1 = Ok s2 -> P s1 -> P s2) ->
  for_each body l s = Ok s' -> P s -> P s'.
Proof.
  revert s. induction l as [|a l IH]; simpl; intros s Hb H Hs.
  - now inversion H; subst.
  - bind_inv H. eapply IH; [|exact H|].
    + intros x s1 s2 Hx. apply Hb. now right.
    + eapply (Hb a); [now left|exact Ha|exact Hs].
Qed.

Lemma seed_users_keeps_cart_invariant (d d' : db) :
  cart_invariant d -> seed_users d = Ok d' -> cart_invariant d'.
Proof.
  intros Hi. unfold seed_users.
  destruct (_ =? 0); [|now intros H; inversion H; subst].
  intros H. eapply (for_each_keeps cart_invariant); [|exact H|exact Hi].
  intros [[[[email password] name] phone] role] s1 s2 _ Hb Hs.
  bind_inv Hb. inversion Hb; subst. eapply add_user_keeps_cart_invariant; eauto.
Qed.

Lemma seed_categories_same_carts (d d' : db) :
  seed_categories d = Ok d' -> same_carts d d'.
Proof.
  unfold seed_categories.
  destruct (_ =? 0); [|intros H; inversion H; apply same_carts_refl].
  intros H. eapply (for_each_keeps (same_carts d)); [|exact H|apply same_carts_refl].
  intros [name desc] s1 s2 _ Hb Hs. bind_inv Hb. inversion Hb; subst.
  apply add_category_shape in Ha. destruct Ha as [-> _].
  eapply same_carts_trans; [exact Hs|]. split; reflexivity.
Qed.

Lemma seed_software_same_carts (d d' : db) :
  seed_software d = Ok d' -> same_carts d d'.
Proof.
  unfold seed_software.
  destruct (_ =? 0); [|intros H; inversion H; apply same_carts_refl].
  intros H. eapply (for_each_keeps (same_carts d)); [|exact H|apply same_carts_refl].
  intros [[[[[name desc] price] cat] dev] img] s1 s2 _ Hb Hs.
  destruct (category_id_by_name cat d) as [cid|]; [|now inversion Hb; subst].
  destruct (cid =? 0); [now inversion Hb; subst|].
  bind_inv Hb. inversion Hb; subst.
  apply add_software_shape in Ha. destruct Ha as [-> _].
  eapply same_carts_trans; [exact Hs|]. split; reflexivity.
Qed.

Lemma shop_op_keeps_cart_invariant (op : shop_op) (now : Z) (d d' : db) :
  cart_invariant d -> run_shop_op op now d = Ok d' -> cart_invariant d'.
Proof.
  intros Hi H. destruct op; simpl in H.
  - unfold seed_initial_data in H. bind_inv H. bind_inv H.
    apply seed_users_keeps_cart_invariant in Ha; [|assumption].
    apply seed_categories_same_carts in Ha0. apply seed_software_same_carts in H.
    eapply cart_invariant_frame; [|exact Ha].
    eapply same_carts_trans; eauto.
  - bind_inv H. inversion H; subst. eapply add_user_keeps_cart_invariant; eauto.
  - eapply cart_invariant_frame; [|exact Hi]. unfold update_user in H.
    destruct name, phone, role; try (inversion H; apply same_carts_refl);
      (destruct (_ && _); [discriminate|]; inversion H; split; reflexivity).
  - eapply cart_invariant_frame; [|exact Hi]. unfold update_user_profile in H.
    destruct (_ && _); [discriminate|]. inversion H. split; reflexivity.
  - eapply cart_invariant_frame; [|exact Hi]. unfold set_user_role in H.
    destruct (_ && _); [discriminate|]. inversion H. split; reflexivity.
  - eapply cart_invariant_frame; [|exact Hi]. inversion H. split; reflexivity.
  - eapply cart_invariant_frame; [|exact Hi]. bind_inv H. inversion H; subst.
    apply add_category_shape in Ha. destruct Ha as [-> _]. split; reflexivity.
  - eapply cart_invariant_frame; [|exact Hi]. unfold update_category in H.
    destruct name, description; try (inversion H; apply same_carts_refl);
      (destruct (_ && _); [discriminate|]; inversion H; split; reflexivity).
  - eapply cart_invariant_frame; [|exact Hi]. inversion H. split; reflexivity.
  - eapply cart_invariant_frame; [|exact Hi]. bind_inv H. inversion H; subst.
    apply add_software_shape in Ha. destruct Ha as [-> _]. split; reflexivity.
  - eapply cart_invariant_frame; [|exact Hi].
    apply update_software_cart_frame in H. exact H.
  - eapply cart_invariant_frame; [|exact Hi]. inversion H. split; reflexivity.
  - eapply cart_invariant_frame; [|exact Hi]. inversion H. split; reflexivity.
  - eapply cart_op_keeps_cart_invariant; eauto.
  - unfold clear_cart in H.
    destruct (find _ (rows (cart d))) as [c|]; [|discriminate].
    inversion H. apply (drain_keeps_cart_invariant (c_id c) d Hi).
  - bind_inv H. inversion H; subst; clear H.
    apply create_purchase_shape in Ha. destruct Ha as [c [d2 [_ [Hs ->]]]].
    apply drain_keeps_cart_invariant. eapply cart_invariant_frame; eauto.
  - eapply cart_invariant_frame; [|exact Hi]. eapply review_op_same_carts; eauto.
Qed.

Lemma empty_db_cart_invariant : cart_invariant empty_db.
Proof.
  constructor; simpl; try constructor.
  - constructor.
  - constructor.
  - intros c [].
Qed.

(** X6. Whatever calls were made since the database was created - seeding,
    registrations, catalog and user administration, deletes, cart changes,
    [clear_cart], checkouts, review writes, failed or not - every cart's
    stored total equals the sum over its lines of quantity x price_at_add,
    cart lines have distinct ids, and every line belongs to a cart id that
    was handed out. *)
Theorem reachable_cart_invariant (calls : list (shop_op * Z)) :
  cart_invariant (run_shop calls empty_db).
Proof.
  unfold run_shop. generalize empty_db_cart_invariant. generalize empty_db.
  induction calls as [|[op now] calls IH]; simpl; intros d Hi; [assumption|].
  apply IH. unfold shop_call; simpl.
  destruct (run_shop_op op now d) eqn:E; [|assumption].
  eapply shop_op_keeps_cart_invariant; eauto.
Qed.

(** ** Seeding twice *)

Lemma for_each_reaches {A S : Type} (P : S -> Prop) (body : A -> S -> result S)
    (a : A) (l : list A) (s s' : S) :
  (forall x s1 s2, body x s1 = Ok s2 -> P s2) ->
  for_each body (a :: l) s = Ok s' -> P s'.
Proof.
  intros Hb H. simpl in H. bind_inv H.
  eapply (for_each_keeps P); [|exact H|eapply Hb; exact Ha].
  intros x s1 s2 _ Hx _. eapply Hb; exact Hx.
Qed.

Lemma length_snoc_nonzero {A : Type} (l : list A) (x : A) :
  (Z.of_nat (List.length (l ++ [x])) =? 0) = false.
Proof.
  apply Z.eqb_neq. rewrite length_app. simpl. lia.
Qed.

Lemma seed_users_done (d d1 : db) :
  seed_users d = Ok d1 ->
  categories d1 = categories d /\ software d1 = software d /\
  (Z.of_nat (List.length (rows (users d1))) =? 0) = false.
Proof.
  unfold seed_users. destruct (_ =? 0) eqn:E.
  - intros H. repeat split.
    + eapply (for_each_keeps (fun x => categories x = categories d)); [|exact H|reflexivity].
      intros [[[[email password] name] phone] role] s1 s2 _ Hb Hs.
      bind_inv Hb. inversion Hb; subst. apply add_user_shape in Ha. destruct Ha as [-> _].
      exact Hs.
    + eapply (for_each_keeps (fun x => software x = software d)); [|exact H|reflexivity].
      intros [[[[email password] name] phone] role] s1 s2 _ Hb Hs.
      bind_inv Hb. inversion Hb; subst. apply add_user_shape in Ha. destruct Ha as [-> _].
      exact Hs.
    + unfold users_data in H.
      eapply (for_each_reaches
                (fun x => (Z.of_nat (List.length (rows (users x))) =? 0) = false));
        [|exact H].
      intros [[[[email password] name] phone] role] s1 s2 Hb.
      bind_inv Hb. inversion Hb; subst. apply add_user_shape in Ha. destruct Ha as [-> _].
      simpl. apply length_snoc_nonzero.
  - intros H. inversion H; subst. auto.
Qed.

Lemma seed_categories_done (d d1 : db) :
  seed_categories d = Ok d1 ->
  users d1 = users d /\ software d1 = software d /\
  (Z.of_nat (List.length (rows (categories d1))) =? 0) = false.
Proof.
  unfold seed_categories. destruct (_ =? 0) eqn:E.
  - intros H. repeat split.
    + eapply (for_each_keeps (fun x => users x = users d)); [|exact H|reflexivity].
      intros [name desc] s1 s2 _ Hb Hs.
      bind_inv Hb. inversion Hb; subst. apply add_category_shape in Ha. destruct Ha as [-> _].
      exact Hs.
    + eapply (for_each_keeps (fun x => software x = software d)); [|exact H|reflexivity].
      intros [name desc] s1 s2 _ Hb Hs.
      bind_inv Hb. inversion Hb; subst. apply add_category_shape in Ha. destruct Ha as [-> _].
      exact Hs.
    + unfold categories_data in H.
      eapply (for_each_reaches
                (fun x => (Z.of_nat (List.length (rows (categories x))) =? 0) = false));
        [|exact H].
      intros [name desc] s1 s2 Hb.
      bind_inv Hb. inversion Hb; subst. apply add_category_shape in Ha. destruct Ha as [-> _].
      simpl. apply length_snoc_nonzero.
  - intros H. inversion H; subst. auto.
Qed.

Lemma seed_software_loop (d : db) (l : list (string * string * Q * string * string * string))
    (s s' : db) :
  for_each (fun '(name, desc, price, cat_name, dev, img) d0 =>
              match category_id_by_name cat_name d with
              | None => Ok d0
              | Some category_id =>
                  if category_id =? 0 then Ok d0
                  else r <- add_software name (Some desc) price category_id dev
                              (Some img) d0 ;;
                       Ok (snd r)
              end) l s = Ok s' ->
  users s' = users s /\ categories s' = categories s /\
  (s' = s \/ (Z.of_nat (List.length (rows (software s'))) =? 0) = false).
Proof.
  revert s. induction l as [|[[[[[name desc] price] cat] dev] img] l IH]; simpl; intros s H.
  - inversion H. auto.
  - bind_inv H.
    assert (Hstep : users a = users s /\ categories a = categories s /\
                    (a = s \/ (Z.of_nat (List.length (rows (software a))) =? 0) = false)).
    { destruct (category_id_by_name cat d) as [cid|]; [|inversion Ha; auto].
      destruct (cid =? 0); [inversion Ha; auto|].
      bind_inv Ha. inversion Ha; subst.
      apply add_software_shape in Ha0. destruct Ha0 as [-> _]. simpl.
      repeat split. right. apply length_snoc_nonzero. }
    destruct Hstep as [Hu [Hc Hs]].
    destruct (IH a H) as [Hu' [Hc' Hs']].
    repeat split; try congruence.
    destruct Hs' as [-> | Hn]; [|now right].
    exact Hs.
Qed.

Lemma seed_software_done (d d1 : db) :
  seed_software d = Ok d1 ->
  users d1 = users d /\ categories d1 = categories d /\ seed_software d1 = Ok d1.
Proof.
  intros H. pose proof H as H0. unfold seed_software in H.
  destruct (_ =? 0) eqn:E.
  - apply seed_software_loop in H. destruct H as [Hu [Hc [-> | Hn]]].
    + auto.
    + repeat split; auto. unfold seed_software. now rewrite Hn.
  - inversion H; subst. auto.
Qed.

(** X7. [seed_initial_data] may be run again: on the database a successful
    run committed, a second run succeeds and changes nothing. *)
Theorem seed_initial_data_twice (d d' : db) :
  seed_initial_data d = Ok d' -> seed_initial_data d' = Ok d'.
Proof.
  unfold seed_initial_data. intros H. bind_inv H. bind_inv H.
  destruct (seed_users_done _ _ Ha) as [_ [_ Hu]].
  destruct (seed_categories_done _ _ Ha0) as [Eu [_ Hc]].
  destruct (seed_software_done _ _ H) as [Eu' [Ec' Hs]].
  assert (H1 : seed_users d' = Ok d').
  { unfold seed_users. now rewrite Eu', Eu, Hu. }
  assert (H2 : seed_categories d' = Ok d').
  { unfold seed_categories. now rewrite Ec', Hc. }
  rewrite H1. simpl. rewrite H2. simpl. exact Hs.
Qed.

Lemma seed_initial_data_twice_witness :
  seed_initial_data empty_db = Ok seeded_db /\
  seed_initial_data seeded_db = Ok seeded_db /\
  List.length (rows (users seeded_db)) = 3%nat /\
  List.length (rows (cart seeded_db)) = 3%nat /\
  List.length (rows (categories seeded_db)) = 6%nat /\
  List.length (rows (software seeded_db)) = 9%nat.
Proof.
  split; [vm_compute; reflexivity|]. split.
  - apply (seed_initial_data_twice empty_db seeded_db). vm_compute; reflexivity.
  - repeat split; vm_compute; reflexivity.
Defined.

(** ** After a checkout *)

Lemma Forall2_in_l {A B : Type} (R : A -> B -> Prop) (l : list A) (l' : list B) (x : A) :
  Forall2 R l l' -> In x l -> exists y, In y l' /\ R x y.
Proof.
  induction 1 as [|a b l l' Hab _ IH]; simpl; intros Hin; [contradiction|].
  destruct Hin as [-> | Hin].
  - exists b. auto.
  - destruct (IH Hin) as [y [Hy Hr]]. exists y. auto.
Qed.

Lemma Forall2_in_r {A B : Type} (R : A -> B -> Prop) (l : list A) (l' : list B) (y : B) :
  Forall2 R l l' -> In y l' -> exists x, In x l /\ R x y.
Proof.
  induction 1 as [|a b l l' Hab _ IH]; simpl; intros Hin; [contradiction|].
  destruct Hin as [-> | Hin].
  - exists a. auto.
  - destruct (IH Hin) as [x [Hx Hr]]. exists x. auto.
Qed.

Lemma create_purchase_nonzero (user_id : Z) (payment_method : option string) (now : Z)
    (d : db) (c : cart_row) (r : Z * db) :
  get_user_cart user_id d = Some c ->
  create_purchase user_id payment_method now d = Ok r ->
  ~ (c_total_price c == 0)%Q.
Proof.
  unfold get_user_cart, create_purchase. intros Hc H Hz.
  apply Qeq_bool_iff in Hz. rewrite Hc, Hz in H. discriminate.
Qed.

(** X8. In a database that satisfies the constraints SQLite enforces on
    the cart tables (primary key of the catalog, the checks of carts and
    lines, one line per cart and program) and whose purchase ids were handed
    out by the counter: after a successful checkout the buyer counts as
    having purchased every program of the cart's lines that the catalog
    still has, so the review gate opens for them; for any other user the
    answer of [user_has_purchased_software] is what it was before. *)
Theorem checkout_grants_review (user_id : Z) (payment_method : option string) (now : Z)
    (d : db) (c : cart_row) (r : Z * db) :
  cart_checks d ->
  Forall (fun p => ph_id p <= seq (purchase_history d)) (rows (purchase_history d)) ->
  get_user_cart user_id d = Some c ->
  create_purchase user_id payment_method now d = Ok r ->
  (forall ci, In ci (rows (cart_items d)) -> ci_cart_id ci = c_id c ->
              in_catalog d ci = true ->
              user_has_purchased_software user_id (ci_software_id ci) (snd r) = true) /\
  (forall other software_id,
      other <> user_id ->
      user_has_purchased_software other software_id (snd r)
      = user_has_purchased_software other software_id d).
Proof.
  intros W Hpk Hc Hrun.
  pose proof (create_purchase_nonzero _ _ _ _ _ _ Hc Hrun) as Hnz.
  destruct (create_purchase_effect user_id payment_method now d c W Hc Hnz)
    as [d' [new_items [Hrun' [Hph [Hpi [Hsnap _]]]]]].
  rewrite Hrun' in Hrun. inversion Hrun; subst r; clear Hrun. simpl.
  rewrite Forall_forall in Hpk.
  split.
  - intros ci Hin Hcart Hcat. apply user_has_purchased_software_iff.
    assert (Hci : In ci (filter (in_catalog d) (cart_lines_by_index (c_id c) d))).
    { apply filter_In. split; [|assumption]. apply cart_lines_by_index_in. auto. }
    destruct (Forall2_in_l _ _ _ ci Hsnap Hci) as [i [Hi [H1 [H2 _]]]].
    eexists. exists i. rewrite Hph, Hpi. repeat split.
    + apply in_or_app. right. left. reflexivity.
    + apply in_or_app. now right.
    + simpl. exact H1.
    + reflexivity.
    + exact H2.
    + reflexivity.
  - intros other software_id Hne.
    destruct (user_has_purchased_software other software_id d) eqn:E.
    + apply user_has_purchased_software_iff in E.
      destruct E as [p [i [Hp [Hi H]]]].
      apply user_has_purchased_software_iff. exists p, i.
      rewrite Hph, Hpi. repeat split; try tauto; apply in_or_app; now left.
    + destruct (user_has_purchased_software other software_id d') eqn:E'; [|reflexivity].
      apply user_has_purchased_software_iff in E'.
      destruct E' as [p [i [Hp [Hi [Hid [Hu [Hsw Hst]]]]]]].
      rewrite Hph in Hp. rewrite Hpi in Hi.
      apply in_app_or in Hp. destruct Hp as [Hp | [<- | []]]; [|simpl in Hu; congruence].
      apply in_app_or in Hi. destruct Hi as [Hi | Hi].
      * assert (Et : user_has_purchased_software other software_id d = true).
        { apply user_has_purchased_software_iff. exists p, i. repeat split; assumption. }
        congruence.
      * destruct (Forall2_in_r _ _ _ i Hsnap Hi) as [ci [_ [H1 _]]].
        apply Hpk in Hp. exfalso. lia.
Qed.

Lemma checkout_grants_review_witness :
  user_has_purchased_software 1 2 demo_dangling_purchase_db = true /\
  user_has_purchased_software 2 2 demo_dangling_purchase_db
  = user_has_purchased_software 2 2 demo_dangling_cart_db.
Proof.
  destruct (checkout_grants_review 1 (Some "card"%string) 1000 demo_dangling_cart_db
              (mk_cart 1 1 110) (1, demo_dangling_purchase_db)) as [H1 H2].
  - exact demo_dangling_cart_checks.
  - simpl. constructor.
  - vm_compute; reflexivity.
  - vm_compute; reflexivity.
  - split.
    + apply (H1 (mk_cart_item 2 1 2 2 30)).
      * simpl. right; left; reflexivity.
      * reflexivity.
      * vm_compute; reflexivity.
    + apply (H2 2 2). lia.
Defined.

(** X9. In a database that satisfies the constraints SQLite enforces on
    the cart tables (primary key of the catalog, the checks of carts and
    lines, one line per cart and program), whose purchase ids were handed
    out by the counter and whose purchase lines belong to recorded
    purchases: after a successful checkout the returned id opens the
    purchase page for the buyer - showing the new purchase with the cart's
    total and, by ascending program id, one line for each cart line whose
    program the catalog still has - and for nobody else. *)
Theorem checkout_purchase_detail (user_id : Z) (payment_method : option string) (now : Z)
    (d : db) (c : cart_row) (r : Z * db) :
  cart_checks d ->
  purchase_schema d ->
  get_user_cart user_id d = Some c ->
  create_purchase user_id payment_method now d = Ok r ->
  (exists items,
      purchase_detail user_id (fst r) (snd r)
      = Some (mk_purchase (fst r) user_id (c_total_price c) payment_method Completed now,
              items) /\
      Forall2 (line_snapshot (fst r) d)
              (filter (in_catalog d) (lines_of_cart (c_id c) (rows (cart_items d)))) items) /\
  (forall other, other <> user_id -> purchase_detail other (fst r) (snd r) = None).
Proof.
  intros W P Hc Hrun.
  pose proof (create_purchase_nonzero _ _ _ _ _ _ Hc Hrun) as Hnz.
  destruct (create_purchase_effect user_id payment_method now d c W Hc Hnz)
    as [d' [new_items [Hrun' [Hph [Hpi [Hsnap _]]]]]].
  rewrite Hrun' in Hrun. inversion Hrun; subst r; clear Hrun. simpl.
  pose proof (purchase_pk d P) as Hpk. rewrite Forall_forall in Hpk.
  pose proof (purchase_items_fk d P) as Hfk. rewrite Forall_forall in Hfk.
  assert (Hget : get_purchase_by_id (seq (purchase_history d) + 1) d'
                 = Some (mk_purchase (seq (purchase_history d) + 1) user_id
                           (c_total_price c) payment_method Completed now)).
  { unfold get_purchase_by_id. rewrite Hph. apply find_snoc_fresh.
    - intros x Hx. apply Z.eqb_neq. apply Hpk in Hx. lia.
    - simpl. apply Z.eqb_refl. }
  assert (Hitems : get_purchase_items (seq (purchase_history d) + 1) d' = new_items).
  { unfold get_purchase_items. rewrite Hpi, filter_app, filter_none.
    - simpl. eapply snapshot_owner; eauto.
    - intros x Hx. apply Z.eqb_neq. pose proof (Hfk x Hx) as Hex.
      apply existsb_exists in Hex. destruct Hex as [p [Hp E]]. apply Z.eqb_eq in E.
      apply Hpk in Hp. lia. }
  split.
  - exists new_items. unfold purchase_detail. rewrite Hget. simpl.
    rewrite Z.eqb_refl. simpl. rewrite Hitems, lines_of_cart_by_index. auto.
  - intros other Hne. unfold purchase_detail. rewrite Hget. simpl.
    assert (E : (user_id =? other) = false) by (apply Z.eqb_neq; congruence).
    now rewrite E.
Qed.

Lemma demo_dangling_cart_purchase_schema : purchase_schema demo_dangling_cart_db.
Proof.
  constructor; simpl; constructor.
Defined.

Lemma checkout_purchase_detail_witness :
  (exists items,
      purchase_detail 1 1 demo_dangling_purchase_db
      = Some (mk_purchase 1 1 110 (Some "card"%string) Completed 1000, items) /\
      Forall2 (line_snapshot 1 demo_dangling_cart_db)
              (filter (in_catalog demo_dangling_cart_db)
                      (lines_of_cart 1 (rows (cart_items demo_dangling_cart_db)))) items) /\
  (forall other, other <> 1 -> purchase_detail other 1 demo_dangling_purchase_db = None).
Proof.
  apply (checkout_purchase_detail 1 (Some "card"%string) 1000 demo_dangling_cart_db
           (mk_cart 1 1 110) (1, demo_dangling_purchase_db)).
  - exact demo_dangling_cart_checks.
  - exact demo_dangling_cart_purchase_schema.
  - vm_compute; reflexivity.
  - vm_compute; reflexivity.
Defined.

(** ** Checkout of a cart whose programs are all in the catalog *)




(** X30. In a database that satisfies the constraints SQLite enforces on
    the cart tables, whose purchase ids were handed out by the counter and
    whose purchase lines belong to recorded purchases: when, as checkout
    begins, the cart's total equals the sum over its lines of quantity x
    price_at_add and the catalog has the program of every line of the cart,
    the purchase [create_purchase] creates stores a total equal to the sum
    over its own purchase lines of quantity x price_at_purchase, both sums
    added up as REAL values in the order of the lines. *)
Theorem purchase_total_matches_lines (user_id : Z) (payment_method : option string)
    (now : Z) (d d' : db) (c : cart_row) (purchase_id : Z) :
  cart_checks d ->
  purchase_schema d ->
  find (fun c => c_user_id c =? user_id) (rows (cart d)) = Some c ->
  (c_total_price c == lines_total (lines_of_cart (c_id c) (rows (cart_items d))))%Q ->
  forallb (in_catalog d) (lines_of_cart (c_id c) (rows (cart_items d))) = true ->
  create_purchase user_id payment_method now d = Ok (purchase_id, d') ->
  exists p,
    get_purchase_by_id purchase_id d' = Some p /\
    (ph_total_price p == purchase_lines_total (get_purchase_items purchase_id d'))%Q.
Proof.
  intros W P Hfind Hsum Hall Hrun.
  assert (Hnz : ~ (c_total_price c == 0)%Q).
  { intros Hz. apply Qeq_bool_iff in Hz.
    unfold create_purchase in Hrun. rewrite Hfind, Hz in Hrun. discriminate. }
  destruct (create_purchase_effect user_id payment_method now d c W Hfind Hnz)
    as [d2 [new_items [Hrun2 [Hph [Hpi [Hsnap _]]]]]].
  rewrite Hrun2 in Hrun. inversion Hrun; subst; clear Hrun.
  rewrite <- lines_of_cart_by_index in Hsnap.
  rewrite filter_all in Hsnap
    by (intros x Hx; rewrite forallb_forall in Hall; now apply Hall).
  pose proof (purchase_pk d P) as Hpk. rewrite Forall_forall in Hpk.
  pose proof (purchase_items_fk d P) as Hfk. rewrite Forall_forall in Hfk.
  eexists. split.
  - unfold get_purchase_by_id. rewrite Hph. apply find_snoc_fresh.
    + intros x Hx. apply Z.eqb_neq. apply Hpk in Hx. lia.
    + simpl. apply Z.eqb_refl.
  - simpl. unfold get_purchase_items. rewrite Hpi, filter_app.
    rewrite filter_none.
    + simpl. rewrite (snapshot_owner _ _ _ _ Hsnap), (snapshot_total _ _ _ _ Hsnap).
      exact Hsum.
    + intros x Hx. apply Z.eqb_neq. pose proof (Hfk x Hx) as Hex.
      apply existsb_exists in Hex. destruct Hex as [p [Hp E]]. apply Z.eqb_eq in E.
      apply Hpk in Hp. lia.
Qed.

Lemma purchase_total_matches_lines_witness :
  exists p,
    get_purchase_by_id 2 demo_second_purchase_db = Some p /\
    (ph_total_price p
     == purchase_lines_total (get_purchase_items 2 demo_second_purchase_db))%Q.
Proof.
  apply (purchase_total_matches_lines 1 (Some "cash"%string) 2000
           demo_second_cart_db _ (mk_cart 1 1 130) 2).
  - exact demo_second_cart_checks.
  - exact demo_second_cart_purchase_schema.
  - vm_compute; reflexivity.
  - vm_compute; reflexivity.
  - vm_compute; reflexivity.
  - vm_compute; reflexivity.
Defined.

(** ** Emptying a cart *)

Lemma drain_other_carts (cart_id b : Z) (d : db) :
  b <> cart_id ->
  cart_lines b (drain_cart cart_id d) = cart_lines b d /\
  get_cart_by_id b (drain_cart cart_id d) = get_cart_by_id b d.
Proof.
  intros Hb. unfold cart_lines, get_cart_by_id, drain_cart. simpl. split.
  - apply filter_filter_frame. intros x _ Hq.
    apply negb_false_iff in Hq. apply Z.eqb_eq in Hq. apply Z.eqb_neq. congruence.
  - rewrite find_map_same_key
      by (intros x; simpl; destruct (c_id x =? cart_id) eqn:E; simpl; reflexivity).
    destruct (find _ (rows (cart d))) as [x|] eqn:Ef; simpl; [|reflexivity].
    apply find_some in Ef. destruct Ef as [_ Ex]. apply Z.eqb_eq in Ex.
    assert (E : (c_id x =? cart_id) = false) by (apply Z.eqb_neq; congruence).
    now rewrite E.
Qed.


(** X11. A successful checkout touches no cart but the buyer's: every other
    cart keeps its row and its lines; users, categories and reviews are not
    written either. *)
Theorem checkout_other_carts (user_id : Z) (payment_method : option string) (now : Z)
    (d : db) (c : cart_row) (r : Z * db) :
  get_user_cart user_id d = Some c ->
  create_purchase user_id payment_method now d = Ok r ->
  (forall b, b <> c_id c ->
             cart_lines b (snd r) = cart_lines b d /\
             get_cart_by_id b (snd r) = get_cart_by_id b d) /\
  users (snd r) = users d /\ categories (snd r) = categories d /\
  reviews (snd r) = reviews d.
Proof.
  intros Hc Hrun.
  assert (Hframe : users (snd r) = users d /\ categories (snd r) = categories d /\
                   reviews (snd r) = reviews d).
  { revert Hrun. unfold create_purchase, get_user_cart in *. rewrite Hc.
    destruct (Qeq_bool _ _); [discriminate|].
    unfold sql_insert_purchase. destruct (negb _); [discriminate|].
    simpl. intros H. bind_inv H. inversion H; subst; clear H. simpl.
    eapply (for_each_keeps
              (fun x => users x = users d /\ categories x = categories d /\
                        reviews x = reviews d)); [|exact Ha|simpl; auto].
    intros [ci s] s1 s2 _ Hb Hs. simpl in Hb.
    unfold sql_insert_purchase_item in Hb.
    destruct (_ || _); simpl in Hb; [discriminate|]. inversion Hb; subst. exact Hs. }
  split; [|exact Hframe].
  apply create_purchase_shape in Hrun. destruct Hrun as [c0 [d2 [Hc0 [[Ec Ei] ->]]]].
  assert (c0 = c) by congruence. subst c0.
  intros b Hb.
  destruct (drain_other_carts (c_id c) b d2 Hb) as [H1 H2].
  rewrite H1, H2. unfold cart_lines, get_cart_by_id. now rewrite Ec, Ei.
Qed.

Lemma checkout_other_carts_witness :
  cart_lines 2 (committed (r <- create_purchase 1 None 1000
                                 (committed (run_cart_op (AddToCart 2 3 1) demo_cart_db)) ;;
                           Ok (snd r)))
  = [mk_cart_item 3 2 3 1 0].
Proof.
  destruct (checkout_other_carts 1 None 1000
              (committed (run_cart_op (AddToCart 2 3 1) demo_cart_db))
              (mk_cart 1 1 110)
              (committed_pair (create_purchase 1 None 1000
                                 (committed (run_cart_op (AddToCart 2 3 1) demo_cart_db)))))
    as [H _]; [vm_compute; reflexivity | vm_compute; reflexivity |].
  assert (Hne : 2 <> c_id (mk_cart 1 1 110)) by (simpl; lia).
  destruct (H 2 Hne) as [H2 _].
  vm_compute in H2. vm_compute. exact H2.
Defined.

(** ** Statistics *)

Lemma sql_sum_snoc (xs : list Q) (x : Q) :
  coalesce (sql_sum (xs ++ [x])) 0%Q = real_add (coalesce (sql_sum xs) 0%Q) x.
Proof.
  assert (H : forall ys, coalesce (sql_sum ys) 0%Q = fold_left real_add ys 0%Q)
    by (intros ys; destruct ys; reflexivity).
  rewrite !H, fold_left_app. reflexivity.
Qed.

Lemma active_after_drain (cart_id : Z) (l : list cart_row) (c : cart_row) :
  NoDup (map c_id l) -> In c l -> c_id c = cart_id ->
  Qle_bool (c_total_price c) 0 = false ->
  S (List.length
       (filter (fun c => negb (Qle_bool (c_total_price c) 0))
               (map (fun x => if c_id x =? cart_id
                              then mk_cart (c_id x) (c_user_id x) 0%Q else x) l)))
  = List.length (filter (fun c => negb (Qle_bool (c_total_price c) 0)) l).
Proof.
  intros Hnd Hin Hid Hpos. subst cart_id.
  induction l as [|a l IH]; simpl in *; [contradiction|].
  inversion Hnd as [|? ? Hn Hd]; subst.
  destruct Hin as [-> | Hin].
  - rewrite Z.eqb_refl. simpl. rewrite Hpos. simpl.
    rewrite map_unchanged; [reflexivity|].
    intros x Hx. destruct (c_id x =? c_id c) eqn:E; [|reflexivity].
    apply Z.eqb_eq in E. exfalso. apply Hn. rewrite <- E. now apply in_map.
  - destruct (c_id a =? c_id c) eqn:E.
    + apply Z.eqb_eq in E. exfalso. apply Hn. rewrite E. now apply in_map.
    + specialize (IH Hd Hin).
      destruct (negb (Qle_bool (c_total_price a) 0)); simpl; now rewrite IH.
Qed.

Lemma checkout_frame_counts (user_id : Z) (payment_method : option string) (now : Z)
    (d : db) (r : Z * db) :
  create_purchase user_id payment_method now d = Ok r ->
  users (snd r) = users d /\
  sql_count (rows (software (snd r))) = sql_count (rows (software d)).
Proof.
  unfold create_purchase.
  destruct (find _ (rows (cart d))) as [c|]; [|discriminate].
  destruct (Qeq_bool _ _); [discriminate|].
  unfold sql_insert_purchase. destruct (negb _); [discriminate|].
  simpl. intros H. bind_inv H. inversion H; subst; clear H. simpl.
  eapply (for_each_keeps
            (fun x => users x = users d /\
                      sql_count (rows (software x)) = sql_count (rows (software d))));
    [|exact Ha|simpl; auto].
  intros [ci s] s1 s2 _ Hb [Hu Hs]. simpl in Hb.
  unfold sql_insert_purchase_item in Hb.
  destruct (_ || _); simpl in Hb; [discriminate|]. inversion Hb; subst. simpl.
  split; [assumption|]. unfold sql_count in *. now rewrite length_map.
Qed.

(** X12. In a database that satisfies the constraints SQLite enforces on
    the cart tables (primary keys of the catalog and of the carts, the
    checks of carts and lines, one line per cart and program), a successful
    checkout shows in [get_sales_statistics]: one purchase more, the cart's
    total added as a REAL to the revenue, one active cart fewer, and the
    numbers of users and programs unchanged. *)
Theorem checkout_statistics (user_id : Z) (payment_method : option string) (now : Z)
    (d : db) (c : cart_row) (r : Z * db) :
  cart_checks d ->
  cart_keyed d ->
  get_user_cart user_id d = Some c ->
  create_purchase user_id payment_method now d = Ok r ->
  total_purchases (get_sales_statistics (snd r))
    = total_purchases (get_sales_statistics d) + 1 /\
  total_revenue (get_sales_statistics (snd r))
    = real_add (total_revenue (get_sales_statistics d)) (c_total_price c) /\
  active_carts (get_sales_statistics (snd r)) = active_carts (get_sales_statistics d) - 1 /\
  total_users (get_sales_statistics (snd r)) = total_users (get_sales_statistics d) /\
  total_software (get_sales_statistics (snd r)) = total_software (get_sales_statistics d).
Proof.
  intros W Hk Hc Hrun.
  pose proof (create_purchase_nonzero _ _ _ _ _ _ Hc Hrun) as Hnz.
  destruct (checkout_frame_counts _ _ _ _ _ Hrun) as [Eu Esw].
  destruct (create_purchase_shape _ _ _ _ _ Hrun) as [c0 [d2 [Hc0 [[Ec _] Hd]]]].
  assert (c0 = c) by congruence. subst c0.
  destruct (create_purchase_effect user_id payment_method now d c W Hc Hnz)
    as [d' [new_items [Hrun' [Hph _]]]].
  rewrite Hrun' in Hrun. inversion Hrun; subst r; clear Hrun. simpl in *.
  unfold get_sales_statistics; simpl.
  split; [|split; [|split; [|split]]].
  - rewrite Hph. unfold sql_count. rewrite length_app. simpl. lia.
  - rewrite Hph, map_app. simpl. apply sql_sum_snoc.
  - rewrite Hd. unfold drain_cart; simpl. rewrite Ec.
    pose proof (find_some _ _ Hc) as [Hin _].
    unfold sql_count.
    rewrite <- (active_after_drain (c_id c) _ c Hk Hin eq_refl); [lia|].
    destruct (Qle_bool (c_total_price c) 0) eqn:E; [|reflexivity].
    apply Qle_bool_iff in E. exfalso. apply Hnz.
    apply Qle_antisym; [assumption|].
    pose proof (checked_cart d W) as F. rewrite Forall_forall in F. now apply F.
  - now rewrite Eu.
  - exact Esw.
Qed.

Lemma checkout_statistics_witness :
  total_purchases (get_sales_statistics demo_second_purchase_db) = 2 /\
  total_revenue (get_sales_statistics demo_second_purchase_db) = 240%Q /\
  active_carts (get_sales_statistics demo_second_purchase_db) = 0.
Proof.
  destruct (checkout_statistics 1 (Some "cash"%string) 2000 demo_second_cart_db
              (mk_cart 1 1 130) (2, demo_second_purchase_db))
    as [H1 [H2 [H3 _]]].
  - exact demo_second_cart_checks.
  - unfold cart_keyed; simpl. concrete_nodup.
  - vm_compute; reflexivity.
  - vm_compute; reflexivity.
  - simpl snd in H1, H2, H3. split; [|split].
    + rewrite H1. vm_compute; reflexivity.
    + rewrite H2. vm_compute; reflexivity.
    + rewrite H3. vm_compute; reflexivity.
Defined.

(** ** Review operations: edges and footprint *)



Lemma Forall2_map_r_same {A : Type} (R : A -> A -> Prop) (f : A -> A) (l : list A) :
  (forall x, R x (f x)) -> Forall2 R l (map f l).
Proof.
  intros H. induction l; simpl; constructor; auto.
Qed.

Lemma set_rating_rewrites (avg : option Q) (software_id : Z) (d1 d2 : db) :
  sql_set_rating_avg avg software_id d1 = Ok d2 ->
  Forall2 (rating_rewritten (Some software_id)) (rows (software d1)) (rows (software d2)).
Proof.
  intros H. apply sql_set_rating_avg_shape in H. subst d2. simpl.
  apply Forall2_map_r_same. intros s.
  destruct (s_id s =? software_id) eqn:E; [|now left].
  apply Z.eqb_eq in E. right. split; [now rewrite E|]. now exists avg.
Qed.

(** X14. A successful review operation writes the reviews table and, in
    the catalog, at most the rating_avg of the reviewed program: every
    other catalog row, and every other column of that program's row, stays
    as it was, and so do users, categories, carts and purchases. *)
Theorem review_op_footprint (op : review_op) (now : Z) (d d' : db) :
  run_review_op op now d = Ok d' ->
  Forall2 (rating_rewritten (reviewed_software op d))
          (rows (software d)) (rows (software d')) /\
  users d' = users d /\ categories d' = categories d /\
  cart d' = cart d /\ cart_items d' = cart_items d /\
  purchase_history d' = purchase_history d /\ purchase_items d' = purchase_items d.
Proof.
  destruct op as [u sw rating text | u sw rating comment | rid rating comment | rid];
    simpl; intros H.
  - unfold add_or_update_review in H. bind_inv H.
    pose proof (set_rating_rewrites _ _ _ _ H) as Hsw.
    apply sql_set_rating_avg_shape in H. subst d'. simpl.
    destruct (find _ (rows (reviews d))).
    + apply sql_update_review_shape in Ha. destruct Ha as [t ->]. simpl in *. split; [exact Hsw | repeat split].
    + bind_inv Ha. inversion Ha; subst.
      apply sql_insert_review_shape in Ha0. destruct Ha0 as [t Hs]. rewrite Hs in *.
      simpl in *. split; [exact Hsw | repeat split].
  - bind_inv H. inversion H; subst; clear H.
    unfold add_review in Ha. bind_inv Ha. bind_inv Ha. inversion Ha; subst; clear Ha. simpl.
    pose proof (set_rating_rewrites _ _ _ _ Ha1) as Hsw.
    apply sql_set_rating_avg_shape in Ha1. subst a1. simpl.
    apply sql_insert_review_shape in Ha0. destruct Ha0 as [t Hs]. rewrite Hs in *.
    simpl in *. split; [exact Hsw | repeat split].
  - unfold update_review in H.
    assert (Hsame : Forall2 (rating_rewritten
                               (option_map r_software_id
                                  (find (fun r => r_id r =? rid) (rows (reviews d)))))
                            (rows (software d)) (rows (software d))).
    { rewrite <- (map_id (rows (software d))) at 2.
      apply Forall2_map_r_same. intros s. now left. }
    assert (Hgo : (d1 <- sql_update_review rid rating comment d ;;
                   match find (fun r => r_id r =? rid) (rows (reviews d1)) with
                   | None => Raise TypeError
                   | Some review =>
                       sql_set_rating_avg (avg_rating_of (r_software_id review) d1)
                         (r_software_id review) d1
                   end) = Ok d' \/ d' = d).
    { destruct rating, comment; try (left; exact H). right. now inversion H. }
    clear H. destruct Hgo as [H | ->]; [|split; [exact Hsame | repeat split]].
    bind_inv H.
    destruct (sql_update_review_ok _ _ _ _ _ Ha) as [_ Hrows].
    apply sql_update_review_shape in Ha. destruct Ha as [t ->].
    destruct (find _ (rows (reviews (set_reviews t d)))) as [review|] eqn:Ef; [|discriminate].
    pose proof (set_rating_rewrites _ _ _ _ H) as Hsw.
    apply sql_set_rating_avg_shape in H. subst d'. simpl in *.
    rewrite Hrows in Ef.
    rewrite find_map_same_key in Ef
      by (intros x; simpl; destruct (r_id x =? rid) eqn:E; simpl; assumption).
    destruct (find _ (rows (reviews d))) as [r0|]; simpl in *; [|discriminate].
    inversion Ef; subst review.
    assert (E : r_software_id (if r_id r0 =? rid
                               then mk_review (r_id r0) (r_user_id r0) (r_software_id r0)
                                      (coalesce rating (r_rating r0))
                                      match comment with
                                      | Some x => Some x
                                      | None => r_comment r0
                                      end (r_created_at r0)
                               else r0) = r_software_id r0)
      by now destruct (r_id r0 =? rid).
    rewrite E in Hsw |- *. split; [exact Hsw | repeat split].
  - unfold delete_review in H.
    destruct (find _ (rows (reviews d))) as [review|]; [|discriminate].
    pose proof (set_rating_rewrites _ _ _ _ H) as Hsw.
    apply sql_set_rating_avg_shape in H. subst d'. simpl in *. split; [exact Hsw | repeat split].
Qed.

Lemma review_op_footprint_witness :
  Forall2 (rating_rewritten (Some 1))
          (rows (software demo_three_reviews_db)) (rows (software demo_two_reviews_db)) /\
  cart demo_two_reviews_db = cart demo_three_reviews_db.
Proof.
  destruct (review_op_footprint (DeleteReview 3) 0 demo_three_reviews_db demo_two_reviews_db)
    as [H [_ [_ [Hc _]]]].
  - vm_compute; reflexivity.
  - split; [exact H | exact Hc].
Defined.

(** ** Saving a review *)

Lemma ratings_sum_bounds (xs : list Z) :
  Forall (fun r => valid_rating r = true) xs ->
  Z.of_nat (List.length xs) <= fold_right Z.add 0 xs <= 5 * Z.of_nat (List.length xs).
Proof.
  induction 1 as [|x xs Hx _ IH]; [simpl; lia|].
  unfold valid_rating in Hx. apply andb_true_iff in Hx. destruct Hx as [H1 H5].
  apply Z.leb_le in H1. apply Z.leb_le in H5.
  change (fold_right Z.add 0 (x :: xs)) with (x + fold_right Z.add 0 xs).
  change (List.length (x :: xs)) with (S (List.length xs)).
  rewrite Nat2Z.inj_succ. lia.
Qed.

(** The average of valid ratings passes the check on [rating_avg]. *)
Lemma avg_passes_check (xs : list Z) (q : Q) :
  Forall (fun r => valid_rating r = true) xs ->
  sql_avg xs = Some q ->
  Qle_bool 0 q && Qle_bool q 5 = true.
Proof.
  intros Hv Havg.
  assert (Hq : q = round64 (inject_Z (fold_right Z.add 0 xs)
                            / inject_Z (Z.of_nat (List.length xs)))).
  { destruct xs; [discriminate|]. unfold sql_avg, real_div in Havg.
    rewrite fold_left_ratings in Havg. congruence. }
  assert (Hn : 0 < Z.of_nat (List.length xs)).
  { destruct xs; [discriminate|]. simpl List.length. lia. }
  pose proof (ratings_sum_bounds _ Hv) as [Hlo Hhi].
  set (n := Z.of_nat (List.length xs)) in *.
  assert (Hnq : (0 < inject_Z n)%Q) by (unfold Qlt; simpl; lia).
  assert (H0 : (0 <= inject_Z (fold_right Z.add 0%Z xs) / inject_Z n)%Q).
  { apply Qle_shift_div_l; [assumption|].
    rewrite Qmult_0_l. unfold Qle; simpl. lia. }
  assert (H5 : (inject_Z (fold_right Z.add 0%Z xs) / inject_Z n <= 5)%Q).
  { apply Qle_shift_div_r; [assumption|].
    change 5%Q with (inject_Z 5). rewrite <- inject_Z_mult, <- Zle_Qle. lia. }
  subst q. apply andb_true_iff.
  split; apply Qle_bool_iff.
  - now apply round64_nonneg.
  - now apply round64_le_5.
Qed.


Lemma find_none_existsb {A : Type} (p : A -> bool) (l : list A) :
  find p l = None -> existsb p l = false.
Proof.
  intros H. destruct (existsb p l) eqn:E; [|reflexivity].
  apply existsb_exists in E. destruct E as [x [Hx Hp]].
  rewrite (find_none _ _ H x Hx) in Hp. discriminate.
Qed.

Lemma software_ratings_valid (software_id : Z) (d : db) :
  reviews_check d ->
  Forall (fun r => valid_rating r = true) (map r_rating (software_reviews software_id d)).
Proof.
  intros H. apply Forall_map. apply Forall_forall. intros r Hr.
  apply filter_In in Hr. unfold reviews_check in H. rewrite Forall_forall in H.
  apply H. tauto.
Qed.








Lemma sql_set_rating_avg_raw (software_id : Z) (d : db) :
  reviews_check d ->
  sql_set_rating_avg (avg_rating_of software_id d) software_id d
  = Ok (set_software
          (with_rows
             (map (fun s => if s_id s =? software_id
                            then mk_software (s_id s) (s_name s) (s_description s)
                                   (s_price s) (s_category_id s) (s_developer s)
                                   (s_downloads s) (avg_rating_of software_id d)
                                   (s_image_url s)
                            else s))
             (software d)) d).
Proof.
  intros H. unfold sql_set_rating_avg.
  destruct (avg_rating_of software_id d) as [q|] eqn:E.
  - unfold avg_rating_of in E.
    rewrite (avg_passes_check _ q (software_ratings_valid software_id d H) E).
    rewrite andb_false_r. reflexivity.
  - rewrite andb_false_r. reflexivity.
Qed.

(** X17. [POST /add_review/<id>] with a rating from 1 to 5 (5 when the form
    has none) for a program of the catalog, stored ratings satisfying the
    schema's check: when the user already has a review of the program the
    handler answers that a review exists and writes nothing; otherwise it
    thanks the user and the review is stored with that rating and comment. *)
Theorem add_review_route_outcome (user_id software_id : Z) (rating : option Z)
    (comment : string) (now : Z) (d : db) :
  reviews_check d ->
  valid_rating (coalesce rating 5) = true ->
  get_software_by_id software_id d <> None ->
  match get_user_review user_id software_id d with
  | Some _ =>
      add_review_route user_id software_id rating comment now d = (AlreadyReviewed, d)
  | None =>
      exists d' row,
        add_review_route user_id software_id rating comment now d = (ThanksForReview, d') /\
        get_user_review user_id software_id d' = Some row /\
        r_rating row = coalesce rating 5 /\ r_comment row = Some comment /\
        r_created_at row = now
  end.
Proof.
  intros Hchk Hv Hsw. unfold add_review_route. cbv zeta.
  set (r := coalesce rating 5) in *.
  assert (Hr : (r <? 1) || (5 <? r) = false).
  { unfold valid_rating in Hv. apply andb_true_iff in Hv. destruct Hv as [H1 H5].
    apply Z.leb_le in H1. apply Z.leb_le in H5.
    apply orb_false_iff. split; apply Z.ltb_ge; lia. }
  rewrite Hr. destruct (get_software_by_id software_id d); [|congruence].
  unfold add_review, get_user_review, sql_insert_review. rewrite Hv.
  destruct (find _ (rows (reviews d))) as [old|] eqn:Ef.
  - rewrite (find_existsb _ _ _ Ef). reflexivity.
  - rewrite (find_none_existsb _ _ Ef). unfold insert_row. simpl bind.
    match goal with |- context [sql_set_rating_avg _ _ ?x] => set (d1 := x) end.
    assert (Hchk1 : reviews_check d1).
    { unfold reviews_check, d1; simpl. apply Forall_app. split; [exact Hchk|].
      constructor; [exact Hv|constructor]. }
    rewrite (sql_set_rating_avg_raw software_id d1 Hchk1). simpl bind.
    eexists. eexists. split; [reflexivity|]. unfold d1. simpl.
    split.
    + apply find_snoc_fresh.
      * intros x Hx. apply (find_none _ _ Ef x Hx).
      * simpl. now rewrite !Z.eqb_refl.
    + repeat split.
Qed.

Lemma add_review_route_outcome_witness :
  add_review_route 1 1 None "again" 5000 demo_three_reviews_db
  = (AlreadyReviewed, demo_three_reviews_db).
Proof.
  apply (add_review_route_outcome 1 1 None "again" 5000 demo_three_reviews_db).
  - unfold reviews_check; simpl. concrete_forall ltac:(reflexivity).
  - reflexivity.
  - vm_compute. discriminate.
Defined.

(** ** Accounts and their carts *)

Lemma same_accounts_refl (d : db) : same_accounts d d.
Proof. split; reflexivity. Qed.

Lemma same_accounts_trans (d1 d2 d3 : db) :
  same_accounts d1 d2 -> same_accounts d2 d3 -> same_accounts d1 d3.
Proof. intros [A1 A2] [B1 B2]. split; congruence. Qed.

Lemma account_invariant_frame (d d' : db) :
  same_accounts d d' -> account_invariant d -> account_invariant d'.
Proof.
  intros [Eu Ec] [H1 H2 H3 H4 H5]. constructor; rewrite ?Eu, ?Ec; assumption.
Qed.

Lemma owners_after_total (p : cart_row -> bool) (total : Q) (l : list cart_row) :
  map c_user_id (map (fun c => if p c then mk_cart (c_id c) (c_user_id c) total else c) l)
  = map c_user_id l.
Proof.
  rewrite map_map. apply map_ext. intros c. now destruct (p c).
Qed.

Lemma recompute_same_accounts (cart_id : Z) (d d' : db) :
  recompute_cart_total cart_id d = Ok d' -> same_accounts d d'.
Proof.
  intros H. apply recompute_cart_total_shape in H. destruct H as [total [-> _]].
  split; [reflexivity|]. unfold cart_owners; simpl.
  apply (owners_after_total (fun c => c_id c =? cart_id)).
Qed.

Lemma drain_same_accounts (cart_id : Z) (d : db) : same_accounts d (drain_cart cart_id d).
Proof.
  split; [reflexivity|]. unfold cart_owners, drain_cart; simpl.
  apply (owners_after_total (fun c => c_id c =? cart_id)).
Qed.

Lemma cart_op_same_accounts (op : cart_op) (d d' : db) :
  run_cart_op op d = Ok d' -> same_accounts d d'.
Proof.
  assert (Hrm : forall item d1 d2, remove_from_cart item d1 = Ok d2 -> same_accounts d1 d2).
  { intros item d1 d2. unfold remove_from_cart.
    destruct (find _ (rows (cart_items d1))); [|discriminate].
    intros H. apply recompute_same_accounts in H.
    eapply same_accounts_trans; [|exact H]. split; reflexivity. }
  destruct op as [u s q | item q | item]; simpl; intros H.
  - bind_inv H. inversion H; subst; clear H. unfold add_to_cart in Ha.
    destruct (negb (int64 u)); [discriminate|].
    destruct (find _ (rows (cart d))); [|discriminate].
    destruct (negb (int64 s)); [discriminate|].
    destruct (find _ (rows (software d))); [|discriminate].
    destruct (find _ (rows (cart_items d))).
    + bind_inv Ha. bind_inv Ha. inversion Ha; subst; simpl.
      apply recompute_same_accounts in Ha1.
      apply sql_set_quantity_shape in Ha0. destruct Ha0 as [-> _].
      eapply same_accounts_trans; [|exact Ha1]. split; reflexivity.
    + bind_inv Ha. bind_inv Ha. inversion Ha; subst; simpl.
      apply recompute_same_accounts in Ha1.
      apply sql_insert_cart_item_shape in Ha0. destruct Ha0 as [-> _].
      eapply same_accounts_trans; [|exact Ha1]. split; reflexivity.
  - unfold update_cart_item_quantity in H.
    destruct (q <=? 0); [eapply Hrm; eauto|].
    destruct (find _ (rows (cart_items d))); [|discriminate].
    bind_inv H. apply recompute_same_accounts in H.
    apply sql_set_quantity_shape in Ha. destruct Ha as [-> _].
    eapply same_accounts_trans; [|exact H]. split; reflexivity.
  - eapply Hrm; eauto.
Qed.

Lemma clear_cart_same_accounts (user_id : Z) (d d' : db) :
  clear_cart user_id d = Ok d' -> same_accounts d d'.
Proof.
  unfold clear_cart. destruct (find _ (rows (cart d))) as [c|]; [|discriminate].
  intros H. inversion H. split; [reflexivity|]. unfold cart_owners; simpl.
  apply (owners_after_total (fun x => c_id x =? c_id c)).
Qed.

Lemma create_purchase_same_accounts (user_id : Z) (payment_method : option string)
    (now : Z) (d : db) (r : Z * db) :
  create_purchase user_id payment_method now d = Ok r -> same_accounts d (snd r).
Proof.
  unfold create_purchase.
  destruct (find _ (rows (cart d))) as [c|]; [|discriminate].
  destruct (Qeq_bool _ _); [discriminate|].
  unfold sql_insert_purchase. destruct (negb _); [discriminate|].
  simpl. intros H. bind_inv H. inversion H; subst; clear H. simpl.
  eapply same_accounts_trans; [|apply drain_same_accounts].
  eapply (for_each_keeps (same_accounts d)); [|exact Ha|split; reflexivity].
  intros [ci s] s1 s2 _ Hb Hs. simpl in Hb.
  unfold sql_insert_purchase_item in Hb.
  destruct (_ || _); simpl in Hb; [discriminate|]. inversion Hb; subst.
  eapply same_accounts_trans; [exact Hs|]. split; reflexivity.
Qed.

Lemma review_op_same_accounts (op : review_op) (now : Z) (d d' : db) :
  run_review_op op now d = Ok d' -> same_accounts d d'.
Proof.
  destruct op as [u sw rating text | u sw rating comment | rid rating comment | rid];
    simpl; intros H.
  - unfold add_or_update_review in H. bind_inv H.
    apply sql_set_rating_avg_shape in H. subst d'.
    destruct (find _ (rows (reviews d))).
    + apply sql_update_review_shape in Ha. destruct Ha as [t ->]. split; reflexivity.
    + bind_inv Ha. inversion Ha; subst.
      apply sql_insert_review_shape in Ha0. destruct Ha0 as [t ->]. split; reflexivity.
  - bind_inv H. inversion H; subst; clear H.
    unfold add_review in Ha. bind_inv Ha. bind_inv Ha. inversion Ha; subst; clear Ha. simpl.
    apply sql_set_rating_avg_shape in Ha1. subst a1.
    apply sql_insert_review_shape in Ha0. destruct Ha0 as [t ->]. split; reflexivity.
  - unfold update_review in H.
    destruct rating, comment; try (inversion H; apply same_accounts_refl);
      (bind_inv H; destruct (find _ (rows (reviews a))); [|discriminate];
       apply sql_set_rating_avg_shape in H; subst d';
       apply sql_update_review_shape in Ha; destruct Ha as [t ->]; split; reflexivity).
  - unfold delete_review in H.
    destruct (find _ (rows (reviews d))); [|discriminate].
    apply sql_set_rating_avg_shape in H. subst d'. split; reflexivity.
Qed.

Lemma seed_categories_same_accounts (d d' : db) :
  seed_categories d = Ok d' -> same_accounts d d'.
Proof.
  unfold seed_categories.
  destruct (_ =? 0); [|intros H; inversion H; apply same_accounts_refl].
  intros H. eapply (for_each_keeps (same_accounts d)); [|exact H|apply same_accounts_refl].
  intros [name desc] s1 s2 _ Hb Hs.
  bind_inv Hb. inversion Hb; subst.
  apply add_category_shape in Ha. destruct Ha as [-> _].
  eapply same_accounts_trans; [exact Hs|]. split; reflexivity.
Qed.

Lemma seed_software_same_accounts (d d' : db) :
  seed_software d = Ok d' -> same_accounts d d'.
Proof.
  unfold seed_software.
  destruct (_ =? 0); [|intros H; inversion H; apply same_accounts_refl].
  intros H. eapply (for_each_keeps (same_accounts d)); [|exact H|apply same_accounts_refl].
  intros [[[[[name desc] price] cat] dev] img] s1 s2 _ Hb Hs.
  destruct (category_id_by_name cat d) as [cid|]; [|now inversion Hb; subst].
  destruct (cid =? 0); [now inversion Hb; subst|].
  bind_inv Hb. inversion Hb; subst.
  apply add_software_shape in Ha. destruct Ha as [-> _].
  eapply same_accounts_trans; [exact Hs|]. split; reflexivity.
Qed.

Lemma existsb_false_not_in {A B : Type} (p : A -> bool) (f : A -> B) (y : B) (l : list A) :
  (forall x, f x = y -> p x = true) ->
  existsb p l = false -> ~ In y (map f l).
Proof.
  intros Hp He Hin. apply in_map_iff in Hin. destruct Hin as [x [E Hx]].
  assert (existsb p l = true) by (apply existsb_exists; exists x; auto).
  congruence.
Qed.

Lemma add_user_keeps_account_invariant (email password name : string)
    (phone : option string) (role : string) (d : db) (r : Z * db) :
  account_invariant d ->
  add_user email password name phone role d = Ok r ->
  account_invariant (snd r).
Proof.
  intros [Hid Hb He Hc H1] H. apply add_user_shape in H.
  destruct H as [-> [Hmail [_ Hnew]]].
  constructor; unfold cart_owners in *; simpl.
  - rewrite map_app. simpl. apply NoDup_snoc; [assumption|].
    intros Hin. apply in_map_iff in Hin. destruct Hin as [u [E Hu]].
    rewrite Forall_forall in Hb. specialize (Hb u Hu). lia.
  - apply Forall_app. split.
    + eapply Forall_impl; [|exact Hb]. simpl. intros; lia.
    + constructor; [simpl; lia|constructor].
  - rewrite map_app. simpl. apply NoDup_snoc; [assumption|].
    eapply existsb_false_not_in; [|exact Hmail].
    intros x E; simpl. rewrite E. apply String.eqb_refl.
  - rewrite map_app. apply Forall_app. split.
    + eapply Forall_impl; [|exact Hc]. simpl. intros u Hu. apply in_or_app. now left.
    + constructor; [|constructor]. simpl. apply in_or_app. right. now left.
  - rewrite map_app. simpl. apply NoDup_snoc; [assumption|].
    eapply existsb_false_not_in; [|exact Hnew].
    intros x E; simpl. rewrite E. apply Z.eqb_refl.
Qed.

Lemma seed_users_keeps_account_invariant (d d' : db) :
  account_invariant d -> seed_users d = Ok d' -> account_invariant d'.
Proof.
  intros Hi. unfold seed_users.
  destruct (_ =? 0); [|now intros H; inversion H; subst].
  intros H. eapply (for_each_keeps account_invariant); [|exact H|exact Hi].
  intros [[[[email password] name] phone] role] s1 s2 _ Hb Hs.
  bind_inv Hb. inversion Hb; subst. eapply add_user_keeps_account_invariant; eauto.
Qed.

(** An [UPDATE users] that leaves id and e-mail of every row as they are. *)
Lemma users_edit_keeps_account_invariant (f : user_row -> user_row) (d : db) :
  (forall u, u_id (f u) = u_id u /\ u_email (f u) = u_email u) ->
  account_invariant d ->
  account_invariant (set_users (with_rows (map f) (users d)) d).
Proof.
  intros Hf [Hid Hb He Hc H1].
  assert (Ei : map u_id (map f (rows (users d))) = map u_id (rows (users d))).
  { rewrite map_map. apply map_ext. intros u. apply Hf. }
  assert (Ee : map u_email (map f (rows (users d))) = map u_email (rows (users d))).
  { rewrite map_map. apply map_ext. intros u. apply Hf. }
  constructor; unfold cart_owners in *; simpl; rewrite ?Ei, ?Ee; try assumption.
  - apply Forall_map. eapply Forall_impl; [|exact Hb]. simpl. intros u.
    now rewrite (proj1 (Hf u)).
  - apply Forall_map. eapply Forall_impl; [|exact Hc]. simpl. intros u.
    now rewrite (proj1 (Hf u)).
Qed.

Lemma emails_after_profile (user_id : Z) (email : string) (g : user_row -> user_row)
    (l : list user_row) :
  (forall u, u_email (g u) = email) ->
  NoDup (map u_id l) -> NoDup (map u_email l) ->
  existsb (fun u => negb (u_id u =? user_id) && String.eqb (u_email u) email) l = false ->
  NoDup (map u_email (map (fun u => if u_id u =? user_id then g u else u) l)).
Proof.
  intros Hg. induction l as [|a l IH]; simpl; intros Hid He Hx; [constructor|].
  inversion Hid as [|? ? Hn1 Hd1]; subst. inversion He as [|? ? Hn2 Hd2]; subst.
  apply orb_false_iff in Hx. destruct Hx as [Ha Hx].
  assert (Hfree : forall u, In u l -> u_id u <> user_id -> u_email u <> email).
  { intros u Hu Hne E.
    assert (existsb (fun u => negb (u_id u =? user_id) && String.eqb (u_email u) email) l
            = true).
    { apply existsb_exists. exists u. split; [assumption|].
      apply Z.eqb_neq in Hne. rewrite Hne, E, String.eqb_refl. reflexivity. }
    congruence. }
  destruct (u_id a =? user_id) eqn:Ea.
  - apply Z.eqb_eq in Ea. rewrite Hg.
    rewrite map_unchanged.
    + constructor; [|assumption]. intros Hin. apply in_map_iff in Hin.
      destruct Hin as [u [E Hu]]. apply (Hfree u Hu); [|assumption].
      intros Eid. apply Hn1. rewrite Ea, <- Eid. now apply in_map.
    + intros u Hu. destruct (u_id u =? user_id) eqn:Eu; [|reflexivity].
      apply Z.eqb_eq in Eu. exfalso. apply Hn1. rewrite Ea, <- Eu. now apply in_map.
  - simpl in Ha. constructor; [|apply IH; assumption].
    intros Hin. apply in_map_iff in Hin. destruct Hin as [u' [E Hu']].
    apply in_map_iff in Hu'. destruct Hu' as [u [Eu Hu]]. subst u'.
    destruct (u_id u =? user_id) eqn:Eid.
    + rewrite Hg in E. rewrite <- E, String.eqb_refl in Ha. discriminate.
    + apply Hn2. rewrite <- E. now apply in_map.
Qed.

Lemma update_user_profile_keeps_account_invariant (user_id : Z) (name email : string)
    (phone : option string) (d d' : db) :
  account_invariant d ->
  update_user_profile user_id name email phone d = Ok d' ->
  account_invariant d'.
Proof.
  intros [Hid Hb He Hc H1]. unfold update_user_profile.
  destruct (existsb (fun u => u_id u =? user_id) (rows (users d))) eqn:Ex; cbn [andb].
  - destruct (existsb (fun u => negb _ && _) (rows (users d))) eqn:Eo; [discriminate|].
    intros H; inversion H; subst; clear H.
    assert (Ei : map u_id (map (fun u => if u_id u =? user_id
                                         then mk_user (u_id u) email (u_password u) name
                                                phone (u_role u)
                                         else u) (rows (users d)))
                 = map u_id (rows (users d))).
    { rewrite map_map. apply map_ext. intros u. now destruct (u_id u =? user_id). }
    constructor; unfold cart_owners in *; simpl; rewrite ?Ei; try assumption.
    + apply Forall_map. eapply Forall_impl; [|exact Hb]. simpl. intros u.
      now destruct (u_id u =? user_id).
    + apply (emails_after_profile user_id email
               (fun u => mk_user (u_id u) email (u_password u) name phone (u_role u)));
        auto.
    + apply Forall_map. eapply Forall_impl; [|exact Hc]. simpl. intros u.
      now destruct (u_id u =? user_id).
  - intros H; inversion H; subst; clear H.
    assert (Hm : map (fun u => if u_id u =? user_id
                               then mk_user (u_id u) email (u_password u) name
                                      phone (u_role u)
                               else u) (rows (users d))
                 = rows (users d)).
    { apply map_unchanged.
      intros u Hu. destruct (u_id u =? user_id) eqn:E; [|reflexivity].
      assert (existsb (fun u => u_id u =? user_id) (rows (users d)) = true)
        by (apply existsb_exists; eauto).
      congruence. }
    constructor; unfold cart_owners in *; simpl; rewrite ?Hm; assumption.
Qed.

Lemma delete_user_keeps_account_invariant (user_id : Z) (d d' : db) :
  account_invariant d -> delete_user user_id d = Ok d' -> account_invariant d'.
Proof.
  intros [Hid Hb He Hc H1] H. inversion H; subst; clear H.
  assert (Hsub : forall (P : user_row -> Prop),
             Forall P (rows (users d)) ->
             Forall P (filter (fun u => negb (u_id u =? user_id)) (rows (users d)))).
  { intros P HP. apply Forall_forall. intros u Hu. apply filter_In in Hu.
    rewrite Forall_forall in HP. apply HP. tauto. }
  constructor; unfold cart_owners in *; simpl; auto using NoDup_map_filter.
Qed.

Lemma shop_op_keeps_account_invariant (op : shop_op) (now : Z) (d d' : db) :
  account_invariant d -> run_shop_op op now d = Ok d' -> account_invariant d'.
Proof.
  intros Hi H. destruct op; simpl in H.
  - unfold seed_initial_data in H. bind_inv H. bind_inv H.
    apply seed_users_keeps_account_invariant in Ha; [|assumption].
    apply seed_categories_same_accounts in Ha0. apply seed_software_same_accounts in H.
    eapply account_invariant_frame; [|exact Ha].
    eapply same_accounts_trans; eauto.
  - bind_inv H. inversion H; subst. eapply add_user_keeps_account_invariant; eauto.
  - unfold update_user in H.
    destruct name, phone, role; try (inversion H; subst; exact Hi);
      (destruct (_ && _); [discriminate|]; inversion H;
       apply users_edit_keeps_account_invariant; [|exact Hi];
       intros u; destruct (u_id u =? user_id); split; reflexivity).
  - eapply update_user_profile_keeps_account_invariant; eauto.
  - unfold set_user_role in H.
    destruct (_ && _); [discriminate|]. inversion H.
    apply users_edit_keeps_account_invariant; [|exact Hi].
    intros u; destruct (u_id u =? user_id); split; reflexivity.
  - eapply delete_user_keeps_account_invariant; eauto.
  - eapply account_invariant_frame; [|exact Hi]. bind_inv H. inversion H; subst.
    apply add_category_shape in Ha. destruct Ha as [-> _]. split; reflexivity.
  - eapply account_invariant_frame; [|exact Hi]. unfold update_category in H.
    destruct name, description; try (inversion H; apply same_accounts_refl);
      (destruct (_ && _); [discriminate|]; inversion H; split; reflexivity).
  - eapply account_invariant_frame; [|exact Hi]. inversion H. split; reflexivity.
  - eapply account_invariant_frame; [|exact Hi]. bind_inv H. inversion H; subst.
    apply add_software_shape in Ha. destruct Ha as [-> _]. split; reflexivity.
  - eapply account_invariant_frame; [|exact Hi]. unfold update_software in H.
    destruct name, description, price, category_id, developer, image_url;
      try (inversion H; subst; apply same_accounts_refl);
      (destruct (_ && _); [discriminate|]; inversion H; subst; split; reflexivity).
  - eapply account_invariant_frame; [|exact Hi]. inversion H. split; reflexivity.
  - eapply account_invariant_frame; [|exact Hi]. inversion H. split; reflexivity.
  - eapply account_invariant_frame; [|exact Hi]. eapply cart_op_same_accounts; eauto.
  - eapply account_invariant_frame; [|exact Hi]. eapply clear_cart_same_accounts; eauto.
  - eapply account_invariant_frame; [|exact Hi]. bind_inv H. inversion H; subst.
    eapply create_purchase_same_accounts; eauto.
  - eapply account_invariant_frame; [|exact Hi]. eapply review_op_same_accounts; eauto.
Qed.

(** X18. In every state the writing operations of [db.py] reach from the
    empty database - failed calls rolled back - user ids and e-mail
    addresses are unique, every user has a cart and no user has two: the
    cart [add_user] creates stays the user's only one. *)
Theorem reachable_account_invariant (calls : list (shop_op * Z)) :
  account_invariant (run_shop calls empty_db).
Proof.
  unfold run_shop.
  assert (H0 : account_invariant empty_db) by (constructor; simpl; constructor).
  revert H0. generalize empty_db.
  induction calls as [|[op now] calls IH]; simpl; intros d Hd; [exact Hd|].
  apply IH. unfold shop_call; simpl.
  destruct (run_shop_op op now d) eqn:E; [|exact Hd].
  eapply shop_op_keeps_account_invariant; eauto.
Qed.

(** ** When [add_to_cart] succeeds *)

(** X19. The outcomes of [add_to_cart] on a database whose cart lines and
    catalog prices satisfy the checks of the schema (positive quantities,
    prices that are not negative).  A user id or a program id beyond 64 bits
    raises [OverflowError] where it is bound; without a cart for the user or
    without the program in the catalog the call raises the corresponding
    [ValueError].  Otherwise the quantity written is the quantity the cart
    holds of the program plus the quantity added: beyond 64 bits it raises
    [OverflowError], positive it succeeds - a negative quantity lowers an
    existing line - and zero or less it raises [IntegrityError]. *)
Theorem add_to_cart_outcome (user_id software_id quantity : Z) (d : db) :
  Forall (fun i => 0 < ci_quantity i /\ Qle 0 (ci_price_at_add i)) (rows (cart_items d)) ->
  software_check d ->
  if negb (int64 user_id)
  then add_to_cart user_id software_id quantity d = Raise OverflowError
  else
    match get_user_cart user_id d with
    | None => add_to_cart user_id software_id quantity d
              = Raise (ValueError (CartNotFound user_id))
    | Some c =>
      if negb (int64 software_id)
      then add_to_cart user_id software_id quantity d = Raise OverflowError
      else
        match get_software_by_id software_id d with
        | None => add_to_cart user_id software_id quantity d
                  = Raise (ValueError (SoftwareNotFound software_id))
        | Some _ =>
          if negb (int64 (held_quantity (c_id c) software_id d + quantity))
          then add_to_cart user_id software_id quantity d = Raise OverflowError
          else if 0 <? held_quantity (c_id c) software_id d + quantity
          then exists r, add_to_cart user_id software_id quantity d = Ok r
          else add_to_cart user_id software_id quantity d = Raise IntegrityError
        end
    end.
Proof.
  intros Hchk Hsw. unfold get_user_cart, get_software_by_id, held_quantity, add_to_cart.
  destruct (negb (int64 user_id)); [reflexivity|].
  destruct (find _ (rows (cart d))) as [c|]; [|reflexivity].
  destruct (negb (int64 software_id)); [reflexivity|].
  destruct (find _ (rows (software d))) as [s|] eqn:Es; [|reflexivity].
  destruct (find _ (rows (cart_items d))) as [l|] eqn:El.
  - pose proof (find_some _ _ El) as [Hl _].
    assert (Hex : existsb (fun i => ci_id i =? ci_id l) (rows (cart_items d)) = true).
    { apply existsb_exists. exists l. split; [assumption|apply Z.eqb_refl]. }
    unfold sql_set_quantity.
    destruct (negb (int64 (ci_quantity l + quantity))); [reflexivity|].
    rewrite Hex.
    destruct (0 <? ci_quantity l + quantity) eqn:Eq.
    + apply Z.ltb_lt in Eq.
      assert (Eq' : (ci_quantity l + quantity <=? 0) = false) by (apply Z.leb_gt; lia).
      rewrite Eq'. simpl bind.
      rewrite recompute_succeeds; [simpl; eauto|].
      simpl. apply Forall_map. eapply Forall_impl; [|exact Hchk].
      intros i [Hi1 Hi2]. destruct (ci_id i =? ci_id l); simpl; auto.
    + apply Z.ltb_ge in Eq.
      assert (Eq' : (ci_quantity l + quantity <=? 0) = true) by (apply Z.leb_le; lia).
      rewrite Eq'. reflexivity.
  - unfold sql_insert_cart_item. rewrite (find_none_existsb _ _ El).
    rewrite Z.add_0_l.
    destruct (negb (int64 quantity)); [reflexivity|].
    destruct (0 <? quantity) eqn:Eq.
    + apply Z.ltb_lt in Eq.
      assert (Eq' : (quantity <=? 0) = false) by (apply Z.leb_gt; lia).
      assert (Ep : Qle_bool 0 (s_price s) = true).
      { apply Qle_bool_iff. pose proof (find_some _ _ Es) as [Hs _].
        unfold software_check in Hsw. rewrite Forall_forall in Hsw. now apply Hsw. }
      rewrite Eq', Ep. unfold insert_row. simpl bind.
      rewrite recompute_succeeds; [simpl; eauto|].
      simpl. apply Forall_app. split; [assumption|].
      constructor; [|constructor]. simpl. split; [assumption|].
      apply Qle_bool_iff. exact Ep.
    + apply Z.ltb_ge in Eq.
      assert (Eq' : (quantity <=? 0) = true) by (apply Z.leb_le; lia).
      rewrite Eq'. reflexivity.
Qed.

Lemma demo_cart_software_check : software_check demo_cart_db.
Proof.
  unfold software_check; simpl. concrete_forall ltac:(unfold Qle; simpl; lia).
Defined.

Lemma add_to_cart_outcome_witness :
  (exists r, add_to_cart 1 3 4 demo_cart_db = Ok r) /\
  add_to_cart 1 2 (-2) demo_cart_db = Raise IntegrityError /\
  add_to_cart 1 2 (2 ^ 63 - 2) demo_cart_db = Raise OverflowError /\
  add_to_cart 1 3 (2 ^ 63) demo_cart_db = Raise OverflowError.
Proof.
  split; [|split; [|split]].
  - exact (add_to_cart_outcome 1 3 4 demo_cart_db
             (checked_cart_items _ demo_cart_checks) demo_cart_software_check).
  - exact (add_to_cart_outcome 1 2 (-2) demo_cart_db
             (checked_cart_items _ demo_cart_checks) demo_cart_software_check).
  - exact (add_to_cart_outcome 1 2 (2 ^ 63 - 2) demo_cart_db
             (checked_cart_items _ demo_cart_checks) demo_cart_software_check).
  - exact (add_to_cart_outcome 1 3 (2 ^ 63) demo_cart_db
             (checked_cart_items _ demo_cart_checks) demo_cart_software_check).
Defined.

(** ** Rankings *)




(** ** The order history page *)

Lemma filter_map_fst {A B : Type} (p : A -> bool) (l : list (A * B)) :
  map fst (filter (fun r => p (fst r)) l) = filter p (map fst l).
Proof.
  induction l as [|a l IH]; simpl; [reflexivity|].
  destruct (p (fst a)); simpl; now rewrite IH.
Qed.








(** ** Support tickets *)

Lemma filter_or_length {A : Type} (p q : A -> bool) (l : list A) :
  (forall x, p x = true -> q x = false) ->
  List.length (filter (fun x => p x || q x) l)
  = (List.length (filter p l) + List.length (filter q l))%nat.
Proof.
  intros H. induction l as [|a l IH]; simpl; [reflexivity|].
  destruct (p a) eqn:Pa; simpl.
  - rewrite (H a Pa). simpl. now rewrite IH.
  - destruct (q a); simpl; rewrite IH; lia.
Qed.

(** X22. For an admin or a moderator the page [/admin/tickets], opened
    without a status or with [status=active], lists exactly the tickets that
    are new or in progress, and as many of them as [count_active_tickets]
    reports for the badge. *)
Theorem active_page_matches_badge (user_role status_arg : option string)
    (ts : table ticket_row) :
  staff_role user_role = true ->
  coalesce status_arg "active"%string = "active"%string ->
  exists page,
    admin_tickets user_role status_arg ts = Some page /\
    count_active_tickets ts = Z.of_nat (List.length page) /\
    (forall t, In t page <-> In t (rows ts) /\ active_status (t_status t) = true).
Proof.
  intros Hrole Hst. unfold admin_tickets. rewrite Hrole, Hst. simpl.
  eexists. split; [reflexivity|]. split.
  - unfold count_active_tickets, sql_count, active_status.
    rewrite length_app, !order_by_length. f_equal.
    apply (filter_or_length (fun t => String.eqb (t_status t) "new")
                            (fun t => String.eqb (t_status t) "in_progress")).
    intros x Hx. apply String.eqb_eq in Hx. now rewrite Hx.
  - intros t. rewrite in_app_iff, !order_by_in, !filter_In.
    unfold active_status. rewrite orb_true_iff. tauto.
Qed.

Lemma active_page_matches_badge_witness :
  exists page,
    admin_tickets (Some "moder"%string) None
      (add_support_ticket "Ann" "ann@example.org" "Key" "No key received" (Some 1) 100
         empty_table) = Some page /\
    count_active_tickets
      (add_support_ticket "Ann" "ann@example.org" "Key" "No key received" (Some 1) 100
         empty_table) = Z.of_nat (List.length page).
Proof.
  destruct (active_page_matches_badge (Some "moder"%string) None
              (add_support_ticket "Ann" "ann@example.org" "Key" "No key received" (Some 1)
                 100 empty_table))
    as [page [H1 [H2 _]]]; [reflexivity|reflexivity|].
  exists page. split; assumption.
Defined.

Lemma count_after_edit {A : Type} (key : A -> Z) (p : A -> bool) (f : A -> A)
    (k : Z) (t : A) (l : list A) :
  NoDup (map key l) -> In t l -> key t = k ->
  (List.length (filter p (map (fun x => if (key x =? k)%Z then f x else x) l))
   + (if p t then 1 else 0)
   = List.length (filter p l) + (if p (f t) then 1 else 0))%nat.
Proof.
  intros Hnd Hin Hk. subst k.
  induction l as [|a l IH]; simpl; [contradiction|].
  inversion Hnd as [|? ? Hn Hd]; subst.
  destruct Hin as [-> | Hin].
  - rewrite Z.eqb_refl. rewrite map_unchanged.
    + destruct (p t), (p (f t)); simpl; lia.
    + intros x Hx. destruct (key x =? key t) eqn:E; [|reflexivity].
      apply Z.eqb_eq in E. exfalso. apply Hn. rewrite <- E. now apply in_map.
  - destruct (key a =? key t) eqn:E.
    + apply Z.eqb_eq in E. exfalso. apply Hn. rewrite E. now apply in_map.
    + specialize (IH Hd Hin). destruct (p a); simpl; lia.
Qed.

(** X23. [update_ticket_status] with one of the statuses new, in_progress
    and closed, on a table keyed by id: the ticket takes the status, every
    other ticket stays as it is, and the count of active tickets moves by
    one exactly when the ticket passes between active and closed. *)
Theorem update_ticket_status_effect (ticket_id : Z) (s : string) (t : ticket_row)
    (ts : table ticket_row) :
  NoDup (map t_id (rows ts)) ->
  find (fun x => t_id x =? ticket_id) (rows ts) = Some t ->
  valid_ticket_status (Some s) = true ->
  exists ts',
    update_ticket_status ticket_id (Some s) ts = inl ts' /\
    find (fun x => t_id x =? ticket_id) (rows ts') = Some (with_status t s) /\
    (forall x, t_id x <> ticket_id -> (In x (rows ts') <-> In x (rows ts))) /\
    count_active_tickets ts' + (if active_status (t_status t) then 1 else 0)
    = count_active_tickets ts + (if active_status s then 1 else 0).
Proof.
  intros Hnd Hf Hv. unfold update_ticket_status. rewrite Hv. simpl negb. cbv iota.
  eexists. split; [reflexivity|].
  pose proof (find_some _ _ Hf) as [Hin Hid]. apply Z.eqb_eq in Hid.
  split; [|split].
  - simpl. rewrite find_map_same_key
      by (intros x; simpl; destruct (t_id x =? ticket_id) eqn:E; simpl; assumption).
    rewrite Hf. simpl. rewrite <- Hid at 1. rewrite Z.eqb_refl. reflexivity.
  - intros x Hx. simpl. rewrite in_map_iff. split.
    + intros [y [Ey Hy]]. destruct (t_id y =? ticket_id) eqn:E.
      * subst x. simpl in Hx. apply Z.eqb_eq in E. contradiction.
      * now subst x.
    + intros Hxin. exists x. split; [|assumption].
      apply Z.eqb_neq in Hx. now rewrite Hx.
  - unfold count_active_tickets, sql_count. simpl.
    pose proof (count_after_edit t_id (fun x => active_status (t_status x))
                  (fun x => with_status x s) ticket_id t (rows ts) Hnd Hin Hid) as Hc.
    simpl in Hc. unfold with_status in Hc. revert Hc.
    match goal with |- context [List.length (filter ?p (map ?f ?l))] =>
      generalize (List.length (filter p (map f l))) end.
    generalize (List.length (filter (fun x => active_status (t_status x)) (rows ts))).
    intros n m. destruct (active_status (t_status t)), (active_status s); lia.
Qed.

Lemma update_ticket_status_effect_witness :
  exists ts',
    update_ticket_status 1 (Some "closed"%string)
      (add_support_ticket "Ann" "ann@example.org" "Key" "No key received" (Some 1) 100
         empty_table) = inl ts' /\
    count_active_tickets ts' + 1 = 1 + 0.
Proof.
  destruct (update_ticket_status_effect 1 "closed"
              (mk_ticket 1 (Some 1) "Ann" "ann@example.org" "Key" "No key received" "new" 100)
              (add_support_ticket "Ann" "ann@example.org" "Key" "No key received" (Some 1)
                 100 empty_table))
    as [ts' [H1 [_ [_ H2]]]].
  - simpl. concrete_nodup.
  - reflexivity.
  - reflexivity.
  - exists ts'. split; [exact H1|exact H2].
Defined.

Lemma ticket_call_keeps_statuses (op : ticket_op) (ts : table ticket_row) :
  Forall (fun t => valid_ticket_status (Some (t_status t)) = true) (rows ts) ->
  Forall (fun t => valid_ticket_status (Some (t_status t)) = true) (rows (ticket_call ts op)).
Proof.
  intros H. destruct op as [name email subject message user_id now | ticket_id status]; simpl.
  - apply Forall_app. split; [assumption|]. constructor; [reflexivity|constructor].
  - unfold update_ticket_status. destruct status as [s|]; [|assumption].
    destruct (valid_ticket_status (Some s)) eqn:Hv; simpl; [|assumption].
    apply Forall_map. eapply Forall_impl; [|exact H]. intros t Ht; simpl.
    destruct (t_id t =? ticket_id); [exact Hv|exact Ht].
Qed.

(** X24. In every table the ticket operations reach from the empty one
    each ticket is new, in progress or closed, so the page of all tickets
    is made up of the active and the closed ones: its length is the count
    of active tickets plus the number of closed tickets. *)
Theorem reachable_tickets_partition (ops : list ticket_op) :
  Z.of_nat (List.length (get_tickets_by_status None (run_tickets ops empty_table)))
  = count_active_tickets (run_tickets ops empty_table)
    + Z.of_nat (List.length (get_tickets_by_status (Some "closed"%string)
                                                   (run_tickets ops empty_table))).
Proof.
  assert (Hreach : Forall (fun t => valid_ticket_status (Some (t_status t)) = true)
                          (rows (run_tickets ops empty_table))).
  { unfold run_tickets.
    assert (H0 : Forall (fun t => valid_ticket_status (Some (t_status t)) = true)
                        (rows (@empty_table ticket_row))) by constructor.
    revert H0. generalize (@empty_table ticket_row).
    induction ops as [|op ops IH]; simpl; intros ts Hts; [exact Hts|].
    apply IH. now apply ticket_call_keeps_statuses. }
  set (ts := run_tickets ops empty_table) in *.
  unfold get_tickets_by_status, count_active_tickets, sql_count. simpl negb. cbv iota.
  rewrite !order_by_length, <- Nat2Z.inj_add. f_equal.
  rewrite <- (filter_or_length (fun t => active_status (t_status t))
                               (fun t => String.eqb (t_status t) "closed")).
  - symmetry. f_equal. apply filter_all.
    intros t Ht. rewrite Forall_forall in Hreach. specialize (Hreach t Ht).
    unfold valid_ticket_status in Hreach. unfold active_status. exact Hreach.
  - intros x Hx. unfold active_status in Hx. apply orb_true_iff in Hx.
    destruct Hx as [Hx | Hx]; apply String.eqb_eq in Hx; now rewrite Hx.
Qed.

(** ** Cart routes *)

Lemma remove_from_cart_succeeds (item_id : Z) (l : cart_item_row) (d : db) :
  Forall (fun i => 0 < ci_quantity i /\ Qle 0 (ci_price_at_add i)) (rows (cart_items d)) ->
  find (fun i => ci_id i =? item_id) (rows (cart_items d)) = Some l ->
  exists d', remove_from_cart item_id d = Ok d'.
Proof.
  intros Hchk Hl. unfold remove_from_cart. rewrite Hl.
  rewrite recompute_succeeds; [eauto|]. simpl.
  apply Forall_forall. intros i Hi. apply filter_In in Hi.
  rewrite Forall_forall in Hchk. apply Hchk. tauto.
Qed.

(** X25. [POST /remove_from_cart/<item_id>] acts on the line with that id
    in whatever cart it is: the handler does not compare the line's cart
    with the cart of the user in the session.  In a database whose cart
    lines satisfy the checks of the schema (positive quantities, prices
    that are not negative), for every logged-in user and every existing
    line - a line of another user's cart as well - the line is deleted, and
    the cart that held it, still its owner's, stores the sum over the lines
    it is left with of quantity x price_at_add, added up as REAL values by
    ascending program id. *)
Theorem remove_from_cart_route_any_cart (session_user_id item_id : Z) (d : db)
    (l : cart_item_row) (c : cart_row) :
  Forall (fun i => 0 < ci_quantity i /\ Qle 0 (ci_price_at_add i)) (rows (cart_items d)) ->
  find (fun i => ci_id i =? item_id) (rows (cart_items d)) = Some l ->
  get_cart_by_id (ci_cart_id l) d = Some c ->
  exists d',
    remove_from_cart_route (Some session_user_id) item_id d = (ItemRemoved, d') /\
    find (fun i => ci_id i =? item_id) (rows (cart_items d')) = None /\
    get_cart_by_id (ci_cart_id l) d'
    = Some (mk_cart (c_id c) (c_user_id c)
              (lines_total (lines_of_cart (ci_cart_id l) (rows (cart_items d'))))).
Proof.
  intros Hchk Hl Hc.
  destruct (remove_from_cart_succeeds _ _ _ Hchk Hl) as [d' Hrun].
  destruct (remove_from_cart_result _ _ _ _ _ Hl Hc Hrun) as [_ [Hgone [_ Hc']]].
  exists d'. unfold remove_from_cart_route, login_required. rewrite Hrun.
  repeat split; assumption.
Qed.

Lemma remove_from_cart_route_any_cart_witness :
  exists d',
    remove_from_cart_route (Some 2) 2 demo_cart_db = (ItemRemoved, d') /\
    find (fun i => ci_id i =? 2) (rows (cart_items d')) = None /\
    get_cart_by_id 1 d'
    = Some (mk_cart 1 1 (lines_total (lines_of_cart 1 (rows (cart_items d'))))).
Proof.
  apply (remove_from_cart_route_any_cart 2 2 demo_cart_db
           (mk_cart_item 2 1 2 2 30) (mk_cart 1 1 110)).
  - apply (checked_cart_items _ demo_cart_checks).
  - reflexivity.
  - reflexivity.
Defined.

(** X26. [POST /update_cart_item/<item_id>] never deletes a cart line:
    whatever the session, the id and the quantity sent, the cart lines
    afterwards are the lines before, one for one, each unchanged or with
    another positive quantity.  The removal that [update_cart_item_quantity]
    performs for a quantity of zero or less cannot be reached through the
    route. *)
Theorem update_cart_item_route_keeps_lines (session_user_id : option Z) (item_id : Z)
    (quantity : option Z) (d : db) :
  Forall2 requantified
          (rows (cart_items d))
          (rows (cart_items (snd (update_cart_item_route session_user_id item_id quantity d)))).
Proof.
  assert (Hsame : forall l : list cart_item_row, Forall2 requantified l l).
  { induction l; constructor; [now left|assumption]. }
  unfold update_cart_item_route, login_required.
  destruct session_user_id as [u|]; [|apply Hsame]. cbv zeta.
  destruct (coalesce quantity 1 <=? 0) eqn:Eq; [apply Hsame|].
  destruct (update_cart_item_quantity item_id (coalesce quantity 1) d) as [d'|e] eqn:Hrun;
    [|apply Hsame].
  simpl. unfold update_cart_item_quantity in Hrun. rewrite Eq in Hrun.
  destruct (find _ (rows (cart_items d))); [|discriminate].
  bind_inv Hrun. apply recompute_cart_total_shape in Hrun. destruct Hrun as [total [-> _]].
  apply sql_set_quantity_shape in Ha. destruct Ha as [-> _]. simpl.
  apply Z.leb_gt in Eq.
  induction (rows (cart_items d)) as [|i ls IH]; simpl; constructor; [|assumption].
  destruct (ci_id i =? item_id); [|now left].
  right. exists (coalesce quantity 1). split; [lia|reflexivity].
Qed.

(** ** Profile page *)

Lemma find_map_pred {A : Type} (p q : A -> bool) (f : A -> A) (l : list A) :
  (forall x, In x l -> p (f x) = q x) ->
  find p (map f l) = option_map f (find q l).
Proof.
  induction l as [|a l IH]; simpl; intros H; [reflexivity|].
  rewrite (H a) by now left. destruct (q a); [reflexivity|].
  apply IH. intros x Hx. apply H. now right.
Qed.

(** X27. [POST /edit_profile] on accounts with unique ids and e-mail
    addresses, for a user of the table and a name and an address that are
    not empty: when the address belongs to another user the handler reports
    it and writes nothing; otherwise the update cannot fail on the
    [UNIQUE] constraint, and afterwards the user is found, by id and by the
    new address, with the new name, address and phone and the old password
    and role. *)
Theorem edit_profile_outcome (user_id : Z) (name email phone : string) (d : db)
    (u : user_row) :
  account_invariant d ->
  get_user_by_id user_id d = Some u ->
  name <> ""%string -> email <> ""%string ->
  (exists o, get_user_by_email email d = Some o /\ u_id o <> user_id /\
             edit_profile user_id name email phone d = Ok (EmailTaken, d)) \/
  (exists d',
     edit_profile user_id name email phone d = Ok (ProfileUpdated, d') /\
     get_user_by_id user_id d'
       = Some (mk_user user_id email (u_password u) name (Some phone) (u_role u)) /\
     get_user_by_email email d'
       = Some (mk_user user_id email (u_password u) name (Some phone) (u_role u)) /\
     account_invariant d').
Proof.
  intros Hacc Hu Hname Hemail.
  pose proof Hacc as [Hid _ Hmail _ _].
  pose proof (find_some _ _ Hu) as [Huin Huid]. apply Z.eqb_eq in Huid.
  unfold edit_profile. rewrite Hu.
  apply String.eqb_neq in Hname. apply String.eqb_neq in Hemail.
  rewrite Hname, Hemail. simpl orb. cbv iota.
  assert (Hfree :
    match get_user_by_email email d with
    | Some o => negb (u_id o =? user_id)
    | None => false
    end = false ->
    existsb (fun x => negb (u_id x =? user_id) && String.eqb (u_email x) email)
            (rows (users d)) = false).
  { intros Hno. destruct (existsb _ (rows (users d))) eqn:E; [|reflexivity].
    apply existsb_exists in E. destruct E as [x [Hx Hp]].
    apply andb_true_iff in Hp. destruct Hp as [Hp1 Hp2]. apply String.eqb_eq in Hp2.
    unfold get_user_by_email in Hno.
    destruct (find _ (rows (users d))) as [o|] eqn:Ef.
    - pose proof (find_some _ _ Ef) as [Ho Hoe]. apply String.eqb_eq in Hoe.
      assert (x = o) by (eapply (NoDup_map_eq u_email); eauto; congruence).
      subst x. rewrite Hno in Hp1. discriminate.
    - pose proof (find_none _ _ Ef x Hx) as Hn. simpl in Hn.
      rewrite Hp2, String.eqb_refl in Hn. discriminate. }
  destruct (match get_user_by_email email d with
            | Some o => negb (u_id o =? user_id)
            | None => false
            end) eqn:Eo.
  - left. destruct (get_user_by_email email d) as [o|]; [|discriminate].
    exists o. split; [reflexivity|]. split; [|reflexivity].
    apply negb_true_iff in Eo. now apply Z.eqb_neq.
  - right. specialize (Hfree eq_refl).
    destruct (update_user_profile user_id name email (Some phone) d) as [d'|e] eqn:Hrun.
    + exists d'. simpl. split; [reflexivity|].
      pose proof (update_user_profile_keeps_account_invariant _ _ _ _ _ _ Hacc Hrun) as Hacc'.
      unfold update_user_profile in Hrun. rewrite Hfree, andb_false_r in Hrun.
      inversion Hrun; subst d'; clear Hrun.
      unfold get_user_by_id, get_user_by_email in *. simpl.
      split; [|split; [|exact Hacc']].
      * rewrite find_map_same_key
          by (intros x; simpl; destruct (u_id x =? user_id) eqn:E; simpl; assumption).
        rewrite Hu. simpl. now rewrite Huid, Z.eqb_refl.
      * rewrite (find_map_pred _ (fun x => u_id x =? user_id)).
        -- rewrite Hu. simpl. now rewrite Huid, Z.eqb_refl.
        -- intros x Hx. destruct (u_id x =? user_id) eqn:E; simpl.
           ++ apply String.eqb_refl.
           ++ destruct (String.eqb (u_email x) email) eqn:E2; [|reflexivity].
              assert (existsb (fun x => negb (u_id x =? user_id)
                                        && String.eqb (u_email x) email)
                              (rows (users d)) = true).
              { apply existsb_exists. exists x. split; [assumption|].
                now rewrite E, E2. }
              congruence.
    + exfalso. unfold update_user_profile in Hrun.
      rewrite Hfree, andb_false_r in Hrun. discriminate.
Qed.

Lemma edit_profile_outcome_witness :
  exists d',
    edit_profile 1 "Ann B." "ann.b@example.org" "" demo_cart_db = Ok (ProfileUpdated, d').
Proof.
  destruct (edit_profile_outcome 1 "Ann B." "ann.b@example.org" "" demo_cart_db
              (mk_user 1 "ann@example.org" "secret" "Ann" None "user"))
    as [[o [_ [_ H]]] | [d' [H _]]].
  - constructor; unfold cart_owners; simpl;
      try concrete_nodup; concrete_forall ltac:(simpl; try lia; auto).
  - reflexivity.
  - discriminate.
  - discriminate.
  - vm_compute in H. discriminate.
  - exists d'. exact H.
Defined.

(** ** The review shown on the product page *)

Lemma filter_unique_key {A K : Type} (key : A -> K) (p : A -> bool) (k : K) (l : list A) :
  NoDup (map key l) ->
  (forall x, p x = true -> key x = k) ->
  filter p l = match find p l with Some x => [x] | None => [] end.
Proof.
  intros Hnd Hp. induction l as [|a l IH]; simpl; [reflexivity|].
  inversion Hnd as [|? ? Hn Hd]; subst.
  destruct (p a) eqn:Pa; [|auto].
  f_equal. apply filter_none. intros x Hx.
  destruct (p x) eqn:Px; [|reflexivity].
  exfalso. apply Hn. rewrite (Hp a Pa), <- (Hp x Px). now apply in_map.
Qed.

(** X28. With [UNIQUE(user_id, software_id)] on the reviews,
    [get_user_review_for_software], which the product page shows, and
    [get_user_review] return the same row: the newest review of the user for
    the program is the only one. *)
Theorem review_lookups_agree (user_id software_id : Z) (d : db) :
  reviews_unique d ->
  get_user_review_for_software user_id software_id d
  = get_user_review user_id software_id d.
Proof.
  intros Hu. unfold get_user_review_for_software, get_user_review.
  rewrite (filter_unique_key (fun r => (r_user_id r, r_software_id r)) _
             (user_id, software_id) _ Hu).
  - now destruct (find _ (rows (reviews d))).
  - intros x Hx. apply andb_true_iff in Hx. destruct Hx as [H1 H2].
    apply Z.eqb_eq in H1. apply Z.eqb_eq in H2. now subst.
Qed.

Lemma review_lookups_agree_witness :
  get_user_review_for_software 1 1 demo_three_reviews_db
  = get_user_review 1 1 demo_three_reviews_db.
Proof.
  apply (review_lookups_agree 1 1 demo_three_reviews_db).
  unfold reviews_unique; simpl. concrete_nodup.
Defined.
